(** * ShellMonitor: the tracker core (shell_tracker_core.py, class ShellTrackerCore)

    A shallow embedding of the signal engine, the position bookkeeping, the
    simulated price generator, the sentiment cache and the price part of the
    monitoring loop, followed by the properties of the specification that
    concern them.  Further sections embed the selection of RSS entries, the
    simulated K-lines and the status report of the same class, and the
    message splitting, the price window and the signal panel of the main
    window (ui/main_window.py), with properties the code itself shows.

    Conventions of the embedding.
    - A Python float or int is an exact rational ([Q]); comparisons are the
      boolean ones the code branches on.  [None], [NaN] and [pd.NA] in an
      indicator column are [None] of an [option Q].
    - A method of the class is a computation in the monad [M]: it reads and
      writes the attributes of [self] (the record [Tracker]), emits Qt
      signals (the list of [event]s, in emission order) and may raise.
    - What the outside world answers (the exchange, the random generator, the
      news sources, the completion endpoint, the wall clock) is an argument
      of the method that asks for it. *)

From Stdlib Require Import QArith Qabs Qround Qminmax Lqa ZArith Lia String List.
From stdpp Require Import gmap strings sorting.

Open Scope string_scope.
Open Scope list_scope.
Open Scope Q_scope.

(** ** Python arithmetic on rationals *)

Module Py.

(** [x < y], [x >= y], [x > y] as the code tests them. *)
Definition ltb (x y : Q) : bool := negb (Qle_bool y x).
Definition leb (x y : Q) : bool := Qle_bool x y.
Definition geb (x y : Q) : bool := Qle_bool y x.
Definition gtb (x y : Q) : bool := negb (Qle_bool x y).

(** Truth value of a number ([if price], [not price]): zero is false. *)
Definition truthy (q : Q) : bool := negb (Qeq_bool q 0).

(** Truth value of an optional string ([if self.current_sentiment],
    [if config.get('key')]): [None] and the empty string are false. *)
Definition truthy_str (s : option string) : bool :=
  match s with
  | Some EmptyString => false
  | Some _ => true
  | None => false
  end.

(** [int(x)]: truncation toward zero. *)
Definition int (q : Q) : Z := Z.quot (Qnum q) (Z.pos (Qden q)).

(** [dict.get(key, default)] on an optional entry. *)
Definition get_default {A} (o : option A) (d : A) : A :=
  match o with Some a => a | None => d end.

End Py.

(** ** Data *)

Inductive Position := LONG.
Inductive Signal := BUY | SELL.
Inductive StopKind := STOP_LOSS | TAKE_PROFIT.

(** One row of the candle DataFrame: the columns [check_signals] reads. *)
Record Candle := {
  close : option Q;
  ma5 : option Q;
  ma25 : option Q;
  rsi : option Q;
  macd : option Q;
  macd_signal : option Q
}.

Definition DataFrame := list Candle.

(** [(summary, label, score)], the tuple of the sentiment analysis. *)
Definition Analysis : Type := string * string * Q.

(** The keys of [self.config] the core reads.  An optional field is a key
    read with [.get]. *)
Record Config := {
  binance_api_key : option string;
  binance_api_secret : option string;
  stop_loss_percent : Q;
  take_profit_percent : Q;
  sentiment_influence_enabled : option bool;
  sentiment_influence_weight : option Q;
  price_alert_threshold : option Q;
  news_enabled : bool;
  gnews_api_key : option string;
  newsapi_api_key : option string;
  deepseek_api_key : option string
}.

(** The text of a recommendation is a rendering of one price. *)
Inductive Recommendation :=
| RecBuy (stop_loss_price : Q)
| RecSell (take_profit_price : Q)
| RecNeutral.

Inductive SignalType := ST_BUY | ST_SELL | ST_NEUTRAL.

Record RssArticle := {
  rss_title : string;
  rss_summary : string;
  rss_source : string
}.

(** The Qt signals of the class, and [deepseek_request], which marks the
    [requests.post] to the completion endpoint. *)
Inductive event :=
| price_updated (price pct_change : Q)
| trade_signal (s : Signal) (price : Q)
| stop_condition_triggered (k : StopKind) (price profit_percent : Q)
| monitoring_error (msg : string)
| news_processed (a : Analysis)
| chart_data_ready (df : DataFrame)
| signal_status_updated (t : SignalType) (r : Recommendation) (confidence : Z)
| alert_triggered (pct_change : Q)
| account_balance_updated (balance value : Q)
| rss_news_received (articles : list RssArticle)
| monitoring_started (duration_minutes refresh_interval_seconds : Z)
| monitoring_stopped
| deepseek_request (headlines : list string).

(** The attributes of [self] the modelled methods touch. *)
Record Tracker := {
  config : Config;
  client : bool;
  previous_price : option Q;
  entry_price : option Q;
  position : option Position;
  account_balance : Q;
  account_value : Q;
  current_sentiment : option string;
  sentiment_score : Q;
  last_processed_news : option string;
  news_cache : gmap Z (Q * Analysis);
  last_simulated_price : option Q
}.

(** [cache_expiry], in seconds. *)
Definition cache_expiry : Q := 3600.

(** [ShellTrackerCore.__init__]. *)
Definition init (cfg : Config) : Tracker := {|
  config := cfg;
  client := false;
  previous_price := None;
  entry_price := None;
  position := None;
  account_balance := 0;
  account_value := 0;
  current_sentiment := None;
  sentiment_score := 0;
  last_processed_news := None;
  news_cache := ∅;
  last_simulated_price := None
|}.

(** Attribute assignments. *)
Definition set_config (c : Config) (t : Tracker) : Tracker :=
  {| config := c; client := client t; previous_price := previous_price t;
     entry_price := entry_price t; position := position t;
     account_balance := account_balance t; account_value := account_value t;
     current_sentiment := current_sentiment t;
     sentiment_score := sentiment_score t;
     last_processed_news := last_processed_news t;
     news_cache := news_cache t;
     last_simulated_price := last_simulated_price t |}.

Definition set_client (b : bool) (t : Tracker) : Tracker :=
  {| config := config t; client := b; previous_price := previous_price t;
     entry_price := entry_price t; position := position t;
     account_balance := account_balance t; account_value := account_value t;
     current_sentiment := current_sentiment t;
     sentiment_score := sentiment_score t;
     last_processed_news := last_processed_news t;
     news_cache := news_cache t;
     last_simulated_price := last_simulated_price t |}.

Definition set_previous_price (p : option Q) (t : Tracker) : Tracker :=
  {| config := config t; client := client t; previous_price := p;
     entry_price := entry_price t; position := position t;
     account_balance := account_balance t; account_value := account_value t;
     current_sentiment := current_sentiment t;
     sentiment_score := sentiment_score t;
     last_processed_news := last_processed_news t;
     news_cache := news_cache t;
     last_simulated_price := last_simulated_price t |}.

Definition set_entry_price (p : option Q) (t : Tracker) : Tracker :=
  {| config := config t; client := client t; previous_price := previous_price t;
     entry_price := p; position := position t;
     account_balance := account_balance t; account_value := account_value t;
     current_sentiment := current_sentiment t;
     sentiment_score := sentiment_score t;
     last_processed_news := last_processed_news t;
     news_cache := news_cache t;
     last_simulated_price := last_simulated_price t |}.

Definition set_position (p : option Position) (t : Tracker) : Tracker :=
  {| config := config t; client := client t; previous_price := previous_price t;
     entry_price := entry_price t; position := p;
     account_balance := account_balance t; account_value := account_value t;
     current_sentiment := current_sentiment t;
     sentiment_score := sentiment_score t;
     last_processed_news := last_processed_news t;
     news_cache := news_cache t;
     last_simulated_price := last_simulated_price t |}.

Definition set_account_balance (b : Q) (t : Tracker) : Tracker :=
  {| config := config t; client := client t; previous_price := previous_price t;
     entry_price := entry_price t; position := position t;
     account_balance := b; account_value := account_value t;
     current_sentiment := current_sentiment t;
     sentiment_score := sentiment_score t;
     last_processed_news := last_processed_news t;
     news_cache := news_cache t;
     last_simulated_price := last_simulated_price t |}.

Definition set_account_value (v : Q) (t : Tracker) : Tracker :=
  {| config := config t; client := client t; previous_price := previous_price t;
     entry_price := entry_price t; position := position t;
     account_balance := account_balance t; account_value := v;
     current_sentiment := current_sentiment t;
     sentiment_score := sentiment_score t;
     last_processed_news := last_processed_news t;
     news_cache := news_cache t;
     last_simulated_price := last_simulated_price t |}.

Definition set_sentiment (label : option string) (score : Q) (t : Tracker)
  : Tracker :=
  {| config := config t; client := client t; previous_price := previous_price t;
     entry_price := entry_price t; position := position t;
     account_balance := account_balance t; account_value := account_value t;
     current_sentiment := label;
     sentiment_score := score;
     last_processed_news := last_processed_news t;
     news_cache := news_cache t;
     last_simulated_price := last_simulated_price t |}.

Definition set_last_processed_news (n : option string) (t : Tracker) : Tracker :=
  {| config := config t; client := client t; previous_price := previous_price t;
     entry_price := entry_price t; position := position t;
     account_balance := account_balance t; account_value := account_value t;
     current_sentiment := current_sentiment t;
     sentiment_score := sentiment_score t;
     last_processed_news := n;
     news_cache := news_cache t;
     last_simulated_price := last_simulated_price t |}.

Definition set_news_cache (c : gmap Z (Q * Analysis)) (t : Tracker) : Tracker :=
  {| config := config t; client := client t; previous_price := previous_price t;
     entry_price := entry_price t; position := position t;
     account_balance := account_balance t; account_value := account_value t;
     current_sentiment := current_sentiment t;
     sentiment_score := sentiment_score t;
     last_processed_news := last_processed_news t;
     news_cache := c;
     last_simulated_price := last_simulated_price t |}.

Definition set_last_simulated_price (p : option Q) (t : Tracker) : Tracker :=
  {| config := config t; client := client t; previous_price := previous_price t;
     entry_price := entry_price t; position := position t;
     account_balance := account_balance t; account_value := account_value t;
     current_sentiment := current_sentiment t;
     sentiment_score := sentiment_score t;
     last_processed_news := last_processed_news t;
     news_cache := news_cache t;
     last_simulated_price := p |}.

(** ** The monad of methods: state, emitted signals, exceptions *)

Inductive exn := ZeroDivisionError | IndexError.

Inductive outcome (A : Type) :=
| Return (a : A)
| Raise (e : exn).
Arguments Return {A} a.
Arguments Raise {A} e.

(** A method run on a tracker gives its outcome, the tracker it leaves and
    the signals it emitted.  An exception keeps the assignments and the
    emissions made before it. *)
Definition M (A : Type) : Type := Tracker -> outcome A * Tracker * list event.

Definition ret {A} (a : A) : M A := fun st => (Return a, st, []).

Definition bind {A B} (m : M A) (k : A -> M B) : M B := fun st =>
  match m st with
  | (Return a, st1, ev1) =>
      match k a st1 with
      | (o, st2, ev2) => (o, st2, ev1 ++ ev2)
      end
  | (Raise e, st1, ev1) => (Raise e, st1, ev1)
  end.

Notation "x <- m ;; k" := (bind m (fun x => k))
  (at level 100, m at next level, right associativity).
Notation "m ;; k" := (bind m (fun _ => k))
  (at level 100, right associativity).

Definition get : M Tracker := fun st => (Return st, st, []).
Definition modify (f : Tracker -> Tracker) : M unit :=
  fun st => (Return tt, f st, []).
Definition emit (e : event) : M unit := fun st => (Return tt, st, [e]).
Definition raise {A} (e : exn) : M A := fun st => (Raise e, st, []).
Definition when (b : bool) (m : M unit) : M unit := if b then m else ret tt.

(** [try: m  except Exception: h]. *)
Definition try_except {A} (m : M A) (h : exn -> M A) : M A := fun st =>
  match m st with
  | (Return a, st1, ev1) => (Return a, st1, ev1)
  | (Raise e, st1, ev1) =>
      match h e st1 with
      | (o, st2, ev2) => (o, st2, ev1 ++ ev2)
      end
  end.

Fixpoint emit_all (l : list event) : M unit :=
  match l with
  | [] => ret tt
  | e :: l' => emit e ;; emit_all l'
  end.

(** Projections of a run. *)
Definition result_of {A} (r : outcome A * Tracker * list event) : outcome A :=
  fst (fst r).
Definition state_of {A} (r : outcome A * Tracker * list event) : Tracker :=
  snd (fst r).
Definition events_of {A} (r : outcome A * Tracker * list event) : list event :=
  snd r.

(** [x / y] where the code does not guard the divisor. *)
Definition py_div (x y : Q) : M Q :=
  if Qeq_bool y 0 then raise ZeroDivisionError else ret (x / y).

(** ** The market data gateway *)

(** [_get_simulated_price].  [change] is the draw of
    [random.uniform(-0.005, 0.005)]; an attribute that is absent or [None]
    is [None]. *)
Definition _get_simulated_price (change : Q) : M Q :=
  st <- get ;;
  match last_simulated_price st with
  | Some last =>
      let new_price := last * (1 + change) in
      modify (set_last_simulated_price (Some new_price)) ;;
      ret new_price
  | None =>
      modify (set_last_simulated_price (Some 1.2345)) ;;
      ret 1.2345
  end.

(** [get_latest_price].  [ticker] is the answer of the exchange: the text of
    the exception it raised, or the price. *)
Definition get_latest_price (ticker : string + Q) (change : Q) : M Q :=
  st <- get ;;
  if negb (client st) then
    emit (monitoring_error "Binance客户端未初始化") ;;
    _get_simulated_price change
  else
    match ticker with
    | inr price => ret price
    | inl msg =>
        emit (monitoring_error
                (String.append "获取最新价格失败，使用模拟数据: " msg)) ;;
        _get_simulated_price change
    end.

(** Repeated fallback calls, one per random draw. *)
Fixpoint fallback_prices (changes : list Q) : M (list Q) :=
  match changes with
  | [] => ret []
  | change :: changes' =>
      price <- _get_simulated_price change ;;
      prices <- fallback_prices changes' ;;
      ret (price :: prices)
  end.

(** The answer of one [get_klines] call: the errors it reported and the
    frame (real or simulated) it computed.  The method emits the frame
    itself before it returns it. *)
Record Klines := {
  kl_errors : list string;
  kl_frame : DataFrame
}.

Definition get_klines (k : Klines) : M DataFrame :=
  emit_all (map monitoring_error (kl_errors k)) ;;
  emit (chart_data_ready (kl_frame k)) ;;
  ret (kl_frame k).

Definition df_empty (df : DataFrame) : bool :=
  match df with [] => true | _ => false end.

(** [if df is not None and not df.empty: self.chart_data_ready.emit(df)] *)
Definition emit_chart (df : DataFrame) : M unit :=
  when (negb (df_empty df)) (emit (chart_data_ready df)).

(** ** The signal engine *)

(** The ten required indicators of [check_signals], once known non-null. *)
Record Indicators := {
  i_price : Q;
  i_ma5 : Q;
  i_ma25 : Q;
  i_rsi : Q;
  i_macd_val : Q;
  i_macd_sig : Q;
  i_prev_ma5 : Q;
  i_prev_ma25 : Q;
  i_prev_macd_val : Q;
  i_prev_macd_sig : Q
}.

(** [None] as soon as one of [required_indicators] is [None] or NaN. *)
Definition required_indicators (latest prev : Candle) : option Indicators :=
  price ← close latest;
  ma5' ← ma5 latest;
  ma25' ← ma25 latest;
  rsi' ← rsi latest;
  macd_val ← macd latest;
  macd_sig ← macd_signal latest;
  prev_ma5 ← ma5 prev;
  prev_ma25 ← ma25 prev;
  prev_macd_val ← macd prev;
  prev_macd_sig ← macd_signal prev;
  Some {| i_price := price; i_ma5 := ma5'; i_ma25 := ma25'; i_rsi := rsi';
          i_macd_val := macd_val; i_macd_sig := macd_sig;
          i_prev_ma5 := prev_ma5; i_prev_ma25 := prev_ma25;
          i_prev_macd_val := prev_macd_val;
          i_prev_macd_sig := prev_macd_sig |}.

Definition buy_signal_tech (i : Indicators) : bool :=
  (Py.leb (i_prev_ma5 i) (i_prev_ma25 i) && Py.gtb (i_ma5 i) (i_ma25 i))
  && Py.ltb (i_rsi i) 50
  && (Py.leb (i_prev_macd_val i) (i_prev_macd_sig i)
      && Py.gtb (i_macd_val i) (i_macd_sig i)).

Definition sell_signal_tech (i : Indicators) : bool :=
  (Py.geb (i_prev_ma5 i) (i_prev_ma25 i) && Py.ltb (i_ma5 i) (i_ma25 i))
  && Py.gtb (i_rsi i) 50
  && (Py.geb (i_prev_macd_val i) (i_prev_macd_sig i)
      && Py.ltb (i_macd_val i) (i_macd_sig i)).

Definition is_some {A} (o : option A) : bool :=
  match o with Some _ => true | None => false end.

Definition sentiment_factor (st : Tracker) : Q :=
  let sentiment_influence_enabled :=
    Py.get_default (sentiment_influence_enabled (config st)) true in
  let sentiment_influence_weight :=
    Py.get_default (sentiment_influence_weight (config st)) 0.5 in
  if sentiment_influence_enabled && is_some (current_sentiment st)
  then sentiment_score st * sentiment_influence_weight
  else 0.

Definition buy_score (st : Tracker) (i : Indicators) : Q :=
  (if buy_signal_tech i then 1 else 0) + sentiment_factor st.

Definition sell_score (st : Tracker) (i : Indicators) : Q :=
  (if sell_signal_tech i then -1 else 0) - sentiment_factor st.

Definition final_buy_threshold : Q := 0.6.
Definition final_sell_threshold : Q := -0.6.

(** [min(100, x)] then [int]. *)
Definition int_min_100 (x : Q) : Z :=
  if Py.ltb x 100 then Py.int x else 100%Z.

(** The [confidence] sent with a BUY or SELL status. *)
Definition confidence (st : Tracker) (i : Indicators) : Z :=
  if buy_signal_tech i || sell_signal_tech i then
    let total_score :=
      if Py.gtb (buy_score st i) 0 then buy_score st i else sell_score st i in
    let total_factors :=
      1 + (if Py.truthy_str (current_sentiment st) then 1 else 0) in
    int_min_100 (Qabs total_score / (total_factors * 2) * 100)
  else 0%Z.

(** The [neutrality_score] sent with a NEUTRAL status. *)
Definition neutrality_score (st : Tracker) (i : Indicators) : Z :=
  Z.max 20 (100 - Py.int (Qabs (buy_score st i - sell_score st i) * 50)).

(** [check_signals].  The method only reads [self]. *)
Definition check_signals (df : DataFrame) : M (option Signal) :=
  if df_empty df || (length df <? 26)%nat then ret None
  else
    try_except
      (match rev df with
       | latest :: prev :: _ =>
           match required_indicators latest prev with
           | None => ret None
           | Some i =>
               st <- get ;;
               if Py.geb (buy_score st i) final_buy_threshold then
                 let stop_loss_price :=
                   i_price i * (1 - stop_loss_percent (config st) / 100) in
                 emit (signal_status_updated ST_BUY (RecBuy stop_loss_price)
                         (confidence st i)) ;;
                 emit (chart_data_ready df) ;;
                 ret (Some BUY)
               else if Py.leb (sell_score st i) final_sell_threshold then
                 let take_profit_price :=
                   i_price i * (1 + take_profit_percent (config st) / 100) in
                 emit (signal_status_updated ST_SELL (RecSell take_profit_price)
                         (confidence st i)) ;;
                 emit (chart_data_ready df) ;;
                 ret (Some SELL)
               else
                 emit (signal_status_updated ST_NEUTRAL RecNeutral
                         (neutrality_score st i)) ;;
                 emit (chart_data_ready df) ;;
                 ret None
           end
       | _ => raise IndexError
       end)
      (fun _ => emit (monitoring_error "检查交易信号时出错") ;; ret None).

(** [execute_trade].  The profit of a SELL is only printed. *)
Definition execute_trade (kl : Klines) (signal : option Signal)
    (price : option Q) : M unit :=
  match price with
  | None => ret tt
  | Some p =>
      if negb (Py.truthy p) then ret tt
      else
        st <- get ;;
        match signal, position st with
        | Some BUY, None =>
            modify (set_entry_price (Some p)) ;;
            modify (set_position (Some LONG)) ;;
            emit (trade_signal BUY p) ;;
            df <- get_klines kl ;;
            emit_chart df
        | Some SELL, Some LONG =>
            modify (set_position None) ;;
            modify (set_entry_price None) ;;
            emit (trade_signal SELL p) ;;
            df <- get_klines kl ;;
            emit_chart df
        | _, _ => ret tt
        end
  end.

(** [check_stop_conditions].  [current_price] is [None] when the argument is
    not an [int] or a [float]. *)
Definition check_stop_conditions (kl : Klines) (current_price : option Q)
  : M bool :=
  st <- get ;;
  match position st, entry_price st, current_price with
  | Some LONG, Some entry, Some price =>
      let stop_loss_percent := stop_loss_percent (config st) / 100 in
      let take_profit_percent := take_profit_percent (config st) / 100 in
      let stop_loss_price := entry * (1 - stop_loss_percent) in
      let take_profit_price := entry * (1 + take_profit_percent) in
      ratio <- py_div (price - entry) entry ;;
      let profit_percent := ratio * 100 in
      if Py.leb price stop_loss_price then
        modify (set_position None) ;;
        modify (set_entry_price None) ;;
        emit (stop_condition_triggered STOP_LOSS price profit_percent) ;;
        df <- get_klines kl ;;
        emit_chart df ;;
        ret true
      else if Py.geb price take_profit_price then
        modify (set_position None) ;;
        modify (set_entry_price None) ;;
        emit (stop_condition_triggered TAKE_PROFIT price profit_percent) ;;
        df <- get_klines kl ;;
        emit_chart df ;;
        ret true
      else ret false
  | _, _, _ => ret false
  end.

(** ** Account balance *)

(** The answer of [client.get_asset_balance]: an exception, or the response
    with its ['free'] amount when it has one. *)
Inductive BalanceAnswer :=
| BinanceAPIException (msg : string)
| BalanceException (msg : string)
| BalanceInfo (free : option Q).

(** [check_account_balance].  A balance above 0.1 marks the position long
    and leaves [entry_price] as it is. *)
Definition check_account_balance (answer : BalanceAnswer)
    (ticker : string + Q) (change : Q) : M (Q * Q) :=
  st <- get ;;
  if negb (client st) then
    emit (monitoring_error "Binance客户端未初始化，无法检查余额") ;;
    ret (0, 0)
  else
    match answer with
    | BinanceAPIException msg =>
        emit (monitoring_error (String.append "Binance API错误: " msg)) ;;
        ret (0, 0)
    | BalanceException msg =>
        emit (monitoring_error (String.append "检查账户余额失败: " msg)) ;;
        ret (0, 0)
    | BalanceInfo (Some free) =>
        modify (set_account_balance free) ;;
        price <- get_latest_price ticker change ;;
        when (Py.truthy price)
          (st1 <- get ;;
           modify (set_account_value (account_balance st1 * price))) ;;
        st2 <- get ;;
        emit (account_balance_updated (account_balance st2)
                (account_value st2)) ;;
        when (Py.gtb (account_balance st2) 0.1)
          (modify (set_position (Some LONG))) ;;
        ret (account_balance st2, account_value st2)
    | BalanceInfo None =>
        ret (account_balance st, account_value st)
    end.

(** [initialize].  [connect] is the exception of [Client(...)] or of
    [get_server_time], if any. *)
Definition initialize (cfg : Config) (connect : option string)
    (answer : BalanceAnswer) (ticker : string + Q) (change : Q) : M bool :=
  modify (set_config cfg) ;;
  if negb (Py.truthy_str (binance_api_key cfg))
     || negb (Py.truthy_str (binance_api_secret cfg)) then
    emit (monitoring_error "未配置Binance API密钥，请在设置中配置") ;;
    ret false
  else
    match connect with
    | Some msg =>
        emit (monitoring_error (String.append "Binance API初始化失败: " msg)) ;;
        modify (set_client false) ;;
        ret false
    | None =>
        modify (set_client true) ;;
        check_account_balance answer ticker change ;;
        ret true
    end.

(** ** News aggregation and sentiment analysis *)

Record Article := {
  art_title : string;
  art_description : string;
  art_source : option string
}.

(** The answer of a keyword-search API: an exception, or its articles. *)
Definition SearchAnswer : Type := string + list Article.

Definition nonempty_str (s : string) : bool :=
  match s with EmptyString => false | _ => true end.

Definition gnews_headline (a : Article) : string :=
  String.append (art_title a)
    (String.append ". " (String.append (art_description a) " (GNews)")).

Definition newsapi_headline (a : Article) : string :=
  String.append (art_title a)
    (String.append ". "
       (String.append (art_description a)
          (String.append " (来源: "
             (String.append (Py.get_default (art_source a) "NewsAPI") ")")))).

Definition rss_headline (a : RssArticle) : string :=
  String.append (rss_title a)
    (String.append ". "
       (String.append (rss_summary a)
          (String.append " (来源: " (String.append (rss_source a) ")")))).

(** The answer of the RSS fan-out: per-feed errors, and the merged articles
    sorted by time. *)
Record RssAnswer := {
  rss_errors : list string;
  rss_articles : list RssArticle
}.

(** [fetch_rss_news]. *)
Definition fetch_rss_news (feeds : RssAnswer) : M (list RssArticle) :=
  st <- get ;;
  if negb (news_enabled (config st)) then ret []
  else
    emit_all (map monitoring_error (rss_errors feeds)) ;;
    when (negb (match rss_articles feeds with [] => true | _ => false end))
      (emit (rss_news_received (rss_articles feeds))) ;;
    ret (rss_articles feeds).

(** The headlines a keyword-search source contributes: none when its key
    is not configured or its request failed; otherwise one per article with
    a title. *)
Definition search_result (key : option string) (render : Article -> string)
    (answer : SearchAnswer) : list string :=
  if Py.truthy_str key then
    match answer with
    | inr articles =>
        map render (filter (fun a => nonempty_str (art_title a) = true)
                      articles)
    | inl _ => []
    end
  else [].

(** One [try: ... except Exception] block of [fetch_and_process_news]. *)
Definition search_headlines (key : option string) (error_prefix : string)
    (render : Article -> string) (answer : SearchAnswer) : M (list string) :=
  when (Py.truthy_str key)
    (match answer with
     | inl msg => emit (monitoring_error (String.append error_prefix msg))
     | inr _ => ret tt
     end) ;;
  ret (search_result key render answer).

(** [list(dict.fromkeys(l))]: the first occurrence of each headline, in
    order. *)
Fixpoint dedup_from (seen : list string) (l : list string) : list string :=
  match l with
  | [] => []
  | h :: t =>
      if bool_decide (h ∈ seen) then dedup_from seen t
      else h :: dedup_from (h :: seen) t
  end.

Definition fromkeys (l : list string) : list string := dedup_from [] l.

(** The answer of the completion endpoint: an exception of one of the three
    handled classes, or the three pattern matches on the response text
    (the label in lower case, the number, the stripped summary). *)
Inductive Completion :=
| RequestException (msg : string)
| ValueError (msg : string)
| OtherException (msg : string)
| Response (sentiment_match : option string) (score_match : option Q)
           (summary_match : option string).

(** The string order of [sorted]: byte-wise lexicographic. *)
Definition str_le (s1 s2 : string) : Prop := String.leb s1 s2 = true.

#[global] Instance str_le_dec (s1 s2 : string) : Decision (str_le s1 s2).
Proof. unfold str_le. apply _. Defined.

Section Sentiment.

(** Python's [hash] on a tuple of strings. *)
Variable hash : list string -> Z.

(** [hash(tuple(sorted(headlines)))] *)
Definition cache_key (headlines : list string) : Z :=
  hash (merge_sort str_le headlines).

(** The tuple built from the three pattern matches: a missing label is
    neutral unless the score is decisive, a missing score is 0 and a given
    one is clamped to [-1, 1], a missing or empty summary is a placeholder. *)
Definition parsed_analysis (sentiment_match : option string)
    (score_match : option Q) (summary_match : option string) : Analysis :=
  let parsed_sentiment :=
    if Py.truthy_str sentiment_match then sentiment_match else None in
  let parsed_score :=
    match score_match with
    | Some x => Qmax (-1) (Qmin 1 x)
    | None => 0
    end in
  let summary_content :=
    match summary_match with
    | Some s =>
        if nonempty_str s then s
        else "未能提取到有效的中文摘要内容。"
    | None => "未能找到中文摘要部分。"
    end in
  let sentiment :=
    match parsed_sentiment with
    | Some s => s
    | None =>
        if negb (Qeq_bool parsed_score 0) then
          if Py.geb parsed_score 0.3 then "positive"
          else if Py.leb parsed_score (-0.3) then "negative"
          else "neutral"
        else "neutral"
    end in
  (summary_content, sentiment, parsed_score).

(** The part of [call_deepseek_for_analysis] after a cache miss. *)
Definition analyse (cache_key : Z) (current_time : Q)
    (headlines : list string) (answer : Completion) : M Analysis :=
  st <- get ;;
  let sentiment := "neutral" in
  let sentiment_score_value := 0 in
  if negb (Py.truthy_str (deepseek_api_key (config st))) then
    ret ("DeepSeek API未配置。", sentiment, sentiment_score_value)
  else if match headlines with [] => true | _ => false end then
    ret ("无新闻内容可供分析。", sentiment, sentiment_score_value)
  else
    emit (deepseek_request headlines) ;;
    match answer with
    | Response sentiment_match score_match summary_match =>
        let result :=
          parsed_analysis sentiment_match score_match summary_match in
        modify (fun t =>
                  set_news_cache
                    (<[cache_key := (current_time, result)]> (news_cache t))
                    t) ;;
        ret result
    | RequestException msg =>
        emit (monitoring_error
                (String.append "调用 DeepSeek API 时发生网络错误: " msg)) ;;
        ret (String.append "调用 DeepSeek 失败 (网络错误): " msg,
             sentiment, sentiment_score_value)
    | ValueError msg =>
        emit (monitoring_error
                (String.append "解析 DeepSeek 响应时出错: " msg)) ;;
        ret (String.append "解析 DeepSeek 响应失败: " msg,
             sentiment, sentiment_score_value)
    | OtherException msg =>
        emit (monitoring_error
                (String.append
                   "调用 DeepSeek API 或处理响应时发生未知错误: " msg)) ;;
        ret (String.append "处理 DeepSeek 响应失败: " msg,
             sentiment, sentiment_score_value)
    end.

(** [call_deepseek_for_analysis].  [current_time] is [time.time()]. *)
Definition call_deepseek_for_analysis (current_time : Q)
    (headlines : list string) (answer : Completion) : M Analysis :=
  st <- get ;;
  let key := cache_key headlines in
  match news_cache st !! key with
  | Some (cache_time, cache_data) =>
      if Py.ltb (current_time - cache_time) cache_expiry then ret cache_data
      else analyse key current_time headlines answer
  | None => analyse key current_time headlines answer
  end.

(** [all_headlines] of [fetch_and_process_news], news being enabled. *)
Definition all_headlines (cfg : Config) (gnews newsapi : SearchAnswer)
    (feeds : RssAnswer) : list string :=
  search_result (gnews_api_key cfg) gnews_headline gnews
  ++ search_result (newsapi_api_key cfg) newsapi_headline newsapi
  ++ map rss_headline (rss_articles feeds).

(** [fetch_and_process_news]. *)
Definition fetch_and_process_news (gnews newsapi : SearchAnswer)
    (feeds : RssAnswer) (current_time : Q) (answer : Completion)
  : M (string * option string * Q) :=
  st <- get ;;
  if negb (news_enabled (config st)) then
    ret ("新闻获取功能已禁用。", None, 0)
  else
    gnews_headlines <-
      search_headlines (gnews_api_key (config st)) "GNews API错误: "
        gnews_headline gnews ;;
    newsapi_headlines <-
      search_headlines (newsapi_api_key (config st)) "NewsAPI错误: "
        newsapi_headline newsapi ;;
    rss_articles <- fetch_rss_news feeds ;;
    let all_headlines :=
      gnews_headlines ++ newsapi_headlines ++ map rss_headline rss_articles in
    match all_headlines with
    | [] =>
        modify (set_last_processed_news (Some "未能获取到相关新闻。")) ;;
        ret ("未能获取到相关新闻。", Some "neutral", 0)
    | _ :: _ =>
        let unique_headlines := fromkeys all_headlines in
        a <- call_deepseek_for_analysis current_time unique_headlines
               answer ;;
        let '(processed_news, sentiment, score) := a in
        modify (set_sentiment (Some sentiment) score) ;;
        modify (set_last_processed_news (Some processed_news)) ;;
        emit (news_processed (processed_news, sentiment, score)) ;;
        ret (processed_news, Some sentiment, score)
    end.

(** ** The monitoring loop *)

(** [start_monitoring].  [running] tells whether a loop thread is alive,
    in which case [stop_monitoring] is called first.  The stop flag and
    the price log are not modelled; the loop thread the method starts is
    [monitoring_loop], the news thread a later [fetch_and_process_news]. *)
Definition start_monitoring (running : bool)
    (duration_minutes refresh_interval_seconds : Z) : M unit :=
  when running (emit monitoring_stopped) ;;
  modify (set_previous_price None) ;;
  emit (monitoring_started duration_minutes refresh_interval_seconds).

(** What the world answers during one iteration: the wall clock in
    seconds, the ticker and the random draw of the price fetch, and the
    candles of each [get_klines] the iteration can make. *)
Record Tick := {
  t_now : Q;
  t_ticker : string + Q;
  t_change : Q;
  t_klines_stop : Klines;
  t_klines_closed : Klines;
  t_klines_check : Klines;
  t_klines_trade : Klines
}.

(** [pct_change] of an iteration. *)
Definition pct_change_of (previous_price : option Q) (current_price : Q) : Q :=
  match previous_price with
  | Some prev =>
      if Py.gtb prev 0 then (current_price - prev) / prev * 100 else 0
  | None => 0
  end.

(** [self.previous_price is not None and abs(pct_change) >= threshold] *)
Definition price_alert (previous_price : option Q) (pct_change : Q)
    (price_alert_threshold : Q) : bool :=
  is_some previous_price && Py.geb (Qabs pct_change) price_alert_threshold.

(** The part of an iteration after the price alert: the stop conditions,
    then the K-line refresh and the signal check, up to the assignment of
    [previous_price].  [alert] tells whether the alert fired.  The result
    is the new [last_kline_time]. *)
Definition loop_trading (refresh_interval_seconds : Z) (iteration : Z)
    (last_kline_time : Q) (t : Tick) (current_price : Q) (alert : bool)
  : M Q :=
  let current_time := t_now t in
  st <- get ;;
  position_closed <-
    (if is_some (position st)
     then check_stop_conditions (t_klines_stop t) (Some current_price)
     else ret false) ;;
  if position_closed then
    modify (set_previous_price (Some current_price)) ;;
    df <- get_klines (t_klines_closed t) ;;
    emit_chart df ;;
    ret last_kline_time
  else
    ratio <- py_div 60 (inject_Z refresh_interval_seconds) ;;
    let kline_check_interval := Z.max 1 (Py.int ratio) in
    let kline_elapsed := current_time - last_kline_time in
    let should_check_klines :=
      (iteration mod kline_check_interval =? 0)%Z
      || alert
      || Py.geb kline_elapsed 60 in
    if should_check_klines then
      df <- get_klines (t_klines_check t) ;;
      if negb (df_empty df) then
        emit (chart_data_ready df) ;;
        st1 <- get ;;
        if is_some (position st1) then
          modify (set_previous_price (Some current_price)) ;;
          ret current_time
        else
          signal <- check_signals df ;;
          match signal with
          | Some BUY =>
              execute_trade (t_klines_trade t) signal (Some current_price) ;;
              modify (set_previous_price (Some current_price)) ;;
              ret current_time
          | _ =>
              modify (set_previous_price (Some current_price)) ;;
              ret current_time
          end
      else
        modify (set_previous_price (Some current_price)) ;;
        ret last_kline_time
    else
      modify (set_previous_price (Some current_price)) ;;
      ret last_kline_time.

(** The body of the [while] of [_monitoring_loop] for a fetched price (the
    method always returns one), up to the assignment of [previous_price];
    [iteration] is the counter after its increment.  The price log is not
    modelled; the balance and news threads the iteration starts are
    separate calls. *)
Definition loop_body (refresh_interval_seconds : Z) (iteration : Z)
    (last_kline_time : Q) (t : Tick) : M Q :=
  current_price <- get_latest_price (t_ticker t) (t_change t) ;;
  st <- get ;;
  let pct_change := pct_change_of (previous_price st) current_price in
  emit (price_updated current_price pct_change) ;;
  let price_alert_threshold :=
    Py.get_default (price_alert_threshold (config st)) 1 in
  let alert :=
    price_alert (previous_price st) pct_change price_alert_threshold in
  when alert (emit (alert_triggered pct_change)) ;;
  loop_trading refresh_interval_seconds iteration last_kline_time t
    current_price alert.

(** The iterations of the [while], one per tick. *)
Fixpoint iterate (refresh_interval_seconds : Z) (iteration : Z)
    (last_kline_time : Q) (ticks : list Tick) : M unit :=
  match ticks with
  | [] => ret tt
  | t :: ticks' =>
      let iteration' := (iteration + 1)%Z in
      last_kline_time' <-
        loop_body refresh_interval_seconds iteration' last_kline_time t ;;
      iterate refresh_interval_seconds iteration' last_kline_time' ticks'
  end.

(** [_monitoring_loop]: inside the [try], the iterations (the first
    K-line fetch being due at once) and, unless the stop flag ended them,
    the final frame and the stopped signal.  [start] is the wall clock at
    entry, [ticks] the iterations the clock and the stop flag allow. *)
Definition _monitoring_loop (refresh_interval_seconds : Z) (start : Q)
    (ticks : list Tick) (stop_flag : bool) (final : Klines) : M unit :=
  try_except
    (iterate refresh_interval_seconds 0 (start - 60) ticks ;;
     if stop_flag then ret tt
     else
       final_df <- get_klines final ;;
       emit_chart final_df ;;
       emit monitoring_stopped)
    (fun _ => emit (monitoring_error "监控过程中发生错误")).

(** ** Calls and reachable trackers *)

(** A call of a modelled method from outside (the window, a thread of the
    class), with what the world answers to it. *)
Inductive call :=
| Call_initialize (cfg : Config) (connect : option string)
    (answer : BalanceAnswer) (ticker : string + Q) (change : Q)
| Call_set_config (cfg : Config)
| Call_get_latest_price (ticker : string + Q) (change : Q)
| Call_check_signals (df : DataFrame)
| Call_execute_trade (kl : Klines) (signal : option Signal)
    (price : option Q)
| Call_check_stop_conditions (kl : Klines) (current_price : option Q)
| Call_check_account_balance (answer : BalanceAnswer)
    (ticker : string + Q) (change : Q)
| Call_fetch_and_process_news (gnews newsapi : SearchAnswer)
    (feeds : RssAnswer) (current_time : Q) (answer : Completion)
| Call_start_monitoring (running : bool)
    (duration_minutes refresh_interval_seconds : Z)
| Call_monitoring_loop (refresh_interval_seconds : Z) (start : Q)
    (ticks : list Tick) (stop_flag : bool) (final : Klines).

(** The tracker and the signals after a call; an exception that escapes
    the method is the caller's. *)
Definition run_call (c : call) (st : Tracker) : Tracker * list event :=
  let drop {A} (r : outcome A * Tracker * list event) :=
    (state_of r, events_of r) in
  match c with
  | Call_initialize cfg connect answer ticker change =>
      drop (initialize cfg connect answer ticker change st)
  | Call_set_config cfg => (set_config cfg st, [])
  | Call_get_latest_price ticker change =>
      drop (get_latest_price ticker change st)
  | Call_check_signals df => drop (check_signals df st)
  | Call_execute_trade kl signal price =>
      drop (execute_trade kl signal price st)
  | Call_check_stop_conditions kl current_price =>
      drop (check_stop_conditions kl current_price st)
  | Call_check_account_balance answer ticker change =>
      drop (check_account_balance answer ticker change st)
  | Call_fetch_and_process_news gnews newsapi feeds current_time answer =>
      drop (fetch_and_process_news gnews newsapi feeds current_time answer st)
  | Call_start_monitoring running duration refresh =>
      drop (start_monitoring running duration refresh st)
  | Call_monitoring_loop refresh start ticks stop_flag final =>
      drop (_monitoring_loop refresh start ticks stop_flag final st)
  end.

(** The tracker and the signals after a sequence of calls. *)
Fixpoint run_calls (cs : list call) (st : Tracker) : Tracker * list event :=
  match cs with
  | [] => (st, [])
  | c :: cs' =>
      let '(st1, ev1) := run_call c st in
      let '(st2, ev2) := run_calls cs' st1 in
      (st2, ev1 ++ ev2)
  end.

(** A tracker some sequence of calls builds from a fresh one. *)
Definition reachable (st : Tracker) : Prop :=
  exists (cfg : Config) (cs : list call), fst (run_calls cs (init cfg)) = st.

End Sentiment.

(** ** Observations on traces and trackers *)

(** The signals that carry neither a trade nor a price sample. *)
Definition plain (e : event) : bool :=
  match e with
  | price_updated _ _ | alert_triggered _
  | trade_signal _ _ | stop_condition_triggered _ _ _ => false
  | _ => true
  end.


(** The BUY and SELL events of a trace, in order. *)
Fixpoint trade_events (evs : list event) : list (Signal * Q) :=
  match evs with
  | [] => []
  | trade_signal s price :: evs' => (s, price) :: trade_events evs'
  | _ :: evs' => trade_events evs'
  end.

(** The status signals of a trace, in order. *)
Fixpoint status_events (evs : list event)
  : list (SignalType * Recommendation * Z) :=
  match evs with
  | [] => []
  | signal_status_updated t r c :: evs' => (t, r, c) :: status_events evs'
  | _ :: evs' => status_events evs'
  end.

(** The requests to the completion endpoint in a trace. *)
Fixpoint requests (evs : list event) : list (list string) :=
  match evs with
  | [] => []
  | deepseek_request h :: evs' => h :: requests evs'
  | _ :: evs' => requests evs'
  end.


(** A price alert needs two price samples before it: [samples] counts the
    price updates seen so far. *)
Fixpoint alerts_after_two_samples (samples : nat) (evs : list event) : bool :=
  match evs with
  | [] => true
  | price_updated _ _ :: evs' => alerts_after_two_samples (S samples) evs'
  | alert_triggered _ :: evs' =>
      (2 <=? samples)%nat && alerts_after_two_samples samples evs'
  | _ :: evs' => alerts_after_two_samples samples evs'
  end.

Definition is_alert (e : event) : bool :=
  match e with alert_triggered _ => true | _ => false end.

Definition is_price_update (e : event) : bool :=
  match e with price_updated _ _ => true | _ => false end.

(** The signals that are neither a price update nor a price alert. *)
Definition quiet (e : event) : bool := negb (is_alert e || is_price_update e).

(** The price updates in a trace. *)
Definition count_updates (evs : list event) : nat :=
  length (List.filter is_price_update evs).

(** What [get_klines] and the chart refresh after it emit. *)
Definition chart_events (k : Klines) : list event :=
  map monitoring_error (kl_errors k)
  ++ [chart_data_ready (kl_frame k)]
  ++ (if df_empty (kl_frame k) then [] else [chart_data_ready (kl_frame k)]).

(** A draw of [random.uniform(-0.005, 0.005)]. *)
Definition small_change (c : Q) : Prop := -0.005 <= c /\ c <= 0.005.

(** Each price is the previous one times [1 + c] for a draw [c], so within
    0.5 % of it. *)
Fixpoint bounded_walk (prev : Q) (prices : list Q) : Prop :=
  match prices with
  | [] => True
  | p :: prices' =>
      (exists c, small_change c /\ p = prev * (1 + c))
      /\ Qabs (p - prev) <= 0.005 * Qabs prev
      /\ bounded_walk p prices'
  end.

(** The calls that can run the balance inference. *)
Definition infers_position (c : call) : bool :=
  match c with
  | Call_initialize _ _ _ _ _ | Call_check_account_balance _ _ _ => true
  | _ => false
  end.


(** An entry price is recorded only while the position is long, and is
    never zero. *)
Definition entry_implies_long (st : Tracker) : Prop :=
  forall entry, entry_price st = Some entry ->
                position st = Some LONG /\ ~ entry == 0.

(** Relations between the tracker before a method, the signals it emits and
    the tracker after it: the method keeps the invariant of the entry
    price; it does not leave a long position without an entry price unless
    it found one; its trace is exclusive from the position it starts with
    and ends with the position it leaves; the same with the entry price in
    place of the position; it emits quiet signals only. *)
Definition keeps (st : Tracker) (_ : list event) (st' : Tracker) : Prop :=
  entry_implies_long st -> entry_implies_long st'.

Definition no_bare_long (st : Tracker) (_ : list event) (st' : Tracker)
  : Prop :=
  position st' = Some LONG -> entry_price st' = None ->
  position st = Some LONG /\ entry_price st = None.



Definition stays_quiet (_ : Tracker) (evs : list event) (_ : Tracker) : Prop :=
  forallb quiet evs = true.

(** A relation holds of every run of [m]. *)
Definition respects (R : Tracker -> list event -> Tracker -> Prop) {A}
    (m : M A) : Prop :=
  forall st, R st (events_of (m st)) (state_of (m st)).

(** ** Scenarios *)

(** A configuration with a 5 % stop-loss and a 10 % take-profit, sentiment
    influence and news enabled, and the completion endpoint configured. *)
Definition scenario_config : Config := {|
  binance_api_key := Some "key";
  binance_api_secret := Some "secret";
  stop_loss_percent := 5;
  take_profit_percent := 10;
  sentiment_influence_enabled := None;
  sentiment_influence_weight := None;
  price_alert_threshold := None;
  news_enabled := true;
  gnews_api_key := None;
  newsapi_api_key := None;
  deepseek_api_key := Some "key"
|}.

(** An exchange that answers with one empty frame. *)
Definition no_klines : Klines := {| kl_errors := []; kl_frame := [] |}.

(** A stand-in for Python's [hash]. *)
Definition scenario_hash (l : list string) : Z := Z.of_nat (length l).

(** Scenario C: a position bought at 100. *)
Definition scenario_long : Tracker :=
  fst (run_calls scenario_hash
         [Call_execute_trade no_klines (Some BUY) (Some 100)]
         (init scenario_config)).

(** A tracker whose balance of 5 coins was read at initialisation. *)
Definition scenario_holding : Tracker :=
  fst (run_calls scenario_hash
         [Call_initialize scenario_config None (BalanceInfo (Some 5))
            (inr 1.25) 0]
         (init scenario_config)).

(** Candles: a row without indicators, the row before a crossover, and the
    rows after it with the RSI below and above 50. *)
Definition blank_row : Candle :=
  {| close := None; ma5 := None; ma25 := None; rsi := None;
     macd := None; macd_signal := None |}.

Definition row_before_cross : Candle :=
  {| close := Some 9; ma5 := Some 1; ma25 := Some 2; rsi := Some 45;
     macd := Some 0; macd_signal := Some 1 |}.

Definition row_after_cross (rsi_value : Q) : Candle :=
  {| close := Some 10; ma5 := Some 3; ma25 := Some 2; rsi := Some rsi_value;
     macd := Some 2; macd_signal := Some 1 |}.

(** Twenty-six rows that end with an upward crossover of both pairs. *)
Definition crossover_frame (rsi_value : Q) : DataFrame :=
  repeat blank_row 24 ++ [row_before_cross; row_after_cross rsi_value].

(** The indicators [check_signals] reads from that frame. *)
Definition crossover_indicators (rsi_value : Q) : Indicators :=
  {| i_price := 10; i_ma5 := 3; i_ma25 := 2; i_rsi := rsi_value;
     i_macd_val := 2; i_macd_sig := 1;
     i_prev_ma5 := 1; i_prev_ma25 := 2;
     i_prev_macd_val := 0; i_prev_macd_sig := 1 |}.

(** A tracker whose news analysis answered "positive" with score 0.7. *)
Definition scenario_positive : Tracker :=
  fst (run_calls scenario_hash
         [Call_fetch_and_process_news (inl "") (inl "")
            {| rss_errors := [];
               rss_articles := [{| rss_title := "MyShell listing";
                                   rss_summary := "shell coin";
                                   rss_source := "feed" |}] |}
            0 (Response (Some "positive") (Some 0.7) (Some "summary"))]
         (init scenario_config)).

(** ** Further observations and scenarios *)

(** The rows around a downward crossover of both pairs, with the RSI at 60,
    the frame of 26 rows that ends with them and the indicators
    [check_signals] reads from it. *)
Definition row_before_fall : Candle :=
  {| close := Some 10; ma5 := Some 3; ma25 := Some 2; rsi := Some 55;
     macd := Some 2; macd_signal := Some 1 |}.

Definition row_after_fall : Candle :=
  {| close := Some 9; ma5 := Some 1; ma25 := Some 2; rsi := Some 60;
     macd := Some 0; macd_signal := Some 1 |}.

Definition fall_frame : DataFrame :=
  repeat blank_row 24 ++ [row_before_fall; row_after_fall].

Definition fall_indicators : Indicators :=
  {| i_price := 9; i_ma5 := 1; i_ma25 := 2; i_rsi := 60;
     i_macd_val := 0; i_macd_sig := 1;
     i_prev_ma5 := 3; i_prev_ma25 := 2;
     i_prev_macd_val := 2; i_prev_macd_sig := 1 |}.

(** The signals that neither trade, nor stop, nor report a signal status. *)
Definition idle (e : event) : bool :=
  match e with
  | trade_signal _ _ | stop_condition_triggered _ _ _
  | signal_status_updated _ _ _ => false
  | _ => true
  end.

Definition is_sell (e : event) : bool :=
  match e with trade_signal SELL _ => true | _ => false end.

(** Further relations between the tracker before a method, its trace and
    the tracker after it: the method emits no SELL; it leaves the position
    as it is or makes it long, and the entry price as it is. *)
Definition never_sells (_ : Tracker) (evs : list event) (_ : Tracker) : Prop :=
  forallb (fun e => negb (is_sell e)) evs = true.

Definition stays_long (st : Tracker) (_ : list event) (st' : Tracker) : Prop :=
  (position st' = position st \/ position st' = Some LONG)
  /\ entry_price st' = entry_price st.

(** An iteration at which the price has halved and the K-lines show an
    upward crossover. *)
Definition crash_tick : Tick :=
  {| t_now := 60; t_ticker := inr 0.5; t_change := 0;
     t_klines_stop := no_klines; t_klines_closed := no_klines;
     t_klines_check := {| kl_errors := []; kl_frame := crossover_frame 45 |};
     t_klines_trade := no_klines |}.

(** A relation between the tracker before and after holds of every run of
    [m]. *)
Definition frames (P : Tracker -> Tracker -> Prop) {A} (m : M A) : Prop :=
  forall st, P st (state_of (m st)).

(** The attributes the news pipeline owns are as they were. *)
Definition same_news (st st' : Tracker) : Prop :=
  current_sentiment st' = current_sentiment st
  /\ sentiment_score st' = sentiment_score st
  /\ last_processed_news st' = last_processed_news st
  /\ news_cache st' = news_cache st.

(** A sentiment score within [-1, 1]. *)
Definition score_ok (x : Q) : bool := Py.leb (-1) x && Py.leb x 1.

(** The score the tracker holds and the scores of the cached analyses are
    within [-1, 1]. *)
Definition bounded_news (st : Tracker) : Prop :=
  score_ok (sentiment_score st) = true
  /\ map_Forall (fun _ v => score_ok (snd (snd v)) = true) (news_cache st).

(** The calls of the news pipeline. *)
Definition is_news (c : call) : bool :=
  match c with Call_fetch_and_process_news _ _ _ _ _ => true | _ => false end.

(** A tracker whose news analysis answered "negative" with score -0.9. *)
Definition scenario_negative : Tracker :=
  fst (run_calls scenario_hash
         [Call_fetch_and_process_news (inl "") (inl "")
            {| rss_errors := [];
               rss_articles := [{| rss_title := "MyShell delisting";
                                   rss_summary := "shell coin";
                                   rss_source := "feed" |}] |}
            0 (Response (Some "negative") (Some (-0.9)) (Some "summary"))]
         (init scenario_config)).


(** Every price update of a trace reports the change from the price of the
    update before it, [prev] being the price before the trace. *)
Fixpoint chained (prev : option Q) (evs : list event) : bool :=
  match evs with
  | [] => true
  | price_updated p pct :: evs' =>
      Qeq_bool pct (pct_change_of prev p) && chained (Some p) evs'
  | _ :: evs' => chained prev evs'
  end.

(** The price of the last update of a trace, [prev] if it has none. *)
Fixpoint last_price (prev : option Q) (evs : list event) : option Q :=
  match evs with
  | [] => prev
  | price_updated p _ :: evs' => last_price (Some p) evs'
  | _ :: evs' => last_price prev evs'
  end.

Definition is_news_processed (e : event) : bool :=
  match e with news_processed _ => true | _ => false end.

(** An answer of the completion endpoint that is an exception. *)
Definition failed (answer : Completion) : bool :=
  match answer with Response _ _ _ => false | _ => true end.

(** An article, and a feed answer with it twice. *)
Definition scenario_article : RssArticle :=
  {| rss_title := "MyShell listing"; rss_summary := "shell coin";
     rss_source := "feed" |}.

Definition scenario_feeds : RssAnswer :=
  {| rss_errors := []; rss_articles := [scenario_article; scenario_article] |}.





(** ** Telegram messages

    The splitting of a long report in [send_telegram_message]
    (ui/main_window.py).  A Python string is the list of its code points. *)

Definition text : Type := list N.

Definition newline : N := 10%N.

(** [str.isspace] on one code point. *)
Definition isspace (c : N) : bool :=
  ((9 <=? c) && (c <=? 13) || (28 <=? c) && (c <=? 32)
   || (c =? 133) || (c =? 160) || (c =? 5760)
   || (8192 <=? c) && (c <=? 8202)
   || (c =? 8232) || (c =? 8233) || (c =? 8239) || (c =? 8287)
   || (c =? 12288))%N.

Fixpoint lstrip (s : text) : text :=
  match s with
  | c :: s' => if isspace c then lstrip s' else s
  | [] => []
  end.

(** [s.strip()] *)
Definition strip (s : text) : text := rev (lstrip (rev (lstrip s))).

(** [s[a:b]] for indices that are not negative. *)
Definition slice (s : text) (a b : nat) : text := firstn (b - a) (skipn a s).

(** [s.rfind(c, start, stop)], [None] for -1. *)
Definition rfind (s : text) (c : N) (start stop : nat) : option nat :=
  last (List.filter (fun i => (nth i s 0 =? c)%N)
          (seq start (Nat.min stop (length s) - start))).

(** The end of the part that begins at [start]: the last newline of the
    window when there is one after [start], the end of the window
    otherwise. *)
Definition split_point_of (max_length : nat) (message : text) (start : nat)
  : nat :=
  let split_point :=
    match rfind message newline start (start + max_length) with
    | Some i => if (i <=? start)%nat then (start + max_length)%nat else i
    | None => (start + max_length)%nat
    end in
  if (split_point <=? start)%nat then length message else split_point.

(** The start of the next part: a newline at the split point is skipped. *)
Definition next_start (message : text) (split_point : nat) : nat :=
  if (split_point <? length message)%nat
     && (nth split_point message 0 =? newline)%N
  then S split_point else split_point.

(** The [while start < len(message)] loop; each iteration moves [start]
    forward, so [fuel] iterations are enough once [fuel] is the length of
    the message. *)
Fixpoint split_loop (fuel : nat) (max_length : nat) (message : text)
    (start : nat) : list text :=
  match fuel with
  | O => []
  | S fuel' =>
      if (start <? length message)%nat then
        let split_point := split_point_of max_length message start in
        let part := strip (slice message start split_point) in
        (match part with [] => [] | _ => [part] end)
        ++ split_loop fuel' max_length message (next_start message split_point)
      else []
  end.

(** [messages_to_send] for a limit of [max_length] code points. *)
Definition split_message (max_length : nat) (message : text) : list text :=
  if (max_length <? length message)%nat
  then split_loop (length message) max_length message 0
  else [message].

(** [messages_to_send] of [send_telegram_message]. *)
Definition messages_to_send (message : text) : list text :=
  split_message 4096 message.

(** The code points of a text that are not whitespace. *)
Definition visible (s : text) : text :=
  List.filter (fun c => negb (isspace c)) s.

(** A text that begins with a code point that is not whitespace. *)
Definition starts_visible (s : text) : bool :=
  match s with
  | [] => false
  | c :: _ => negb (isspace c)
  end.

(** A text that is not empty and neither begins nor ends with whitespace. *)
Definition trimmed (s : text) : bool :=
  starts_visible s && starts_visible (rev s).

(** A report of two lines of 3000 letters each. *)
Definition two_lines : text :=
  repeat 97%N 3000 ++ [newline; 32%N] ++ repeat 98%N 3000.

(** ** The price window of the main window

    [on_price_updated] (ui/main_window.py), once the labels exist: the
    points the price chart and the high/low label are drawn from.  A point
    is the time and the price. *)

Definition on_price_updated (price_data_points : list (Q * Q))
    (current_time price : Q) : list (Q * Q) :=
  let points := price_data_points ++ [(current_time, price)] in
  if (300 <? length points)%nat
  then skipn (length points - 300) points
  else points.

(** The points after a sequence of price updates, there being none at
    first. *)
Definition price_data_points_after (updates : list (Q * Q)) : list (Q * Q) :=
  fold_left (fun points u => on_price_updated points (fst u) (snd u))
    updates [].

(** ** Simulated K-lines

    The prices of [_get_simulated_klines]: the closes of the random walk,
    clamped to [0.8, 3.0], and the candle built around each close.
    [changes] are the draws of [random.uniform(-0.02, 0.02)]. *)

Fixpoint simulated_closes (current_price : Q) (changes : list Q) : list Q :=
  match changes with
  | [] => []
  | change :: changes' =>
      let current_price := current_price * (1 + change) in
      let current_price := Qmax 0.8 (Qmin 3.0 current_price) in
      current_price :: simulated_closes current_price changes'
  end.

Definition base_price : Q := 1.5.

Definition close_prices (changes : list Q) : list Q :=
  simulated_closes base_price changes.

Record Ohlc := {
  c_open : Q;
  c_high : Q;
  c_low : Q;
  c_close : Q
}.

(** One row: [open] is the close before ([shift(1)]), [up] and [down] are
    the draws of [np.random.uniform(0, 0.01)] for the high and the low. *)
Definition simulated_candle (open close up down : Q) : Ohlc :=
  {| c_open := open;
     c_high := Qmax open close * (1 + up);
     c_low := Qmin open close * (1 - down);
     c_close := close |}.

(** The rows for the closes, given the close before the first one, with one
    pair of draws per row. *)
Fixpoint simulated_rows (previous : Q) (closes : list Q)
    (draws : list (Q * Q)) : list Ohlc :=
  match closes, draws with
  | close :: closes', (up, down) :: draws' =>
      simulated_candle previous close up down
      :: simulated_rows close closes' draws'
  | _, _ => []
  end.

(** The frame: the first open is [fillna(close * 0.99)]. *)
Definition simulated_frame (changes : list Q) (draws : list (Q * Q))
  : list Ohlc :=
  let closes := close_prices changes in
  match closes with
  | [] => []
  | first :: _ => simulated_rows (first * 0.99) closes draws
  end.

(** A well-formed candle: the low and the high bracket the open and the
    close, and the low is positive. *)
Definition well_formed (c : Ohlc) : Prop :=
  0 < c_low c /\ c_low c <= c_open c /\ c_low c <= c_close c
  /\ c_open c <= c_high c /\ c_close c <= c_high c.

(** Draws of [np.random.uniform(0, 0.01)]. *)
Definition small_draws (d : Q * Q) : Prop :=
  (0 <= fst d /\ fst d <= 0.01) /\ (0 <= snd d /\ snd d <= 0.01).

(** ** The selection of RSS entries

    The loop of [fetch_single_rss] over the entries of one feed, the
    keyword test of an entry and its cleaned summary being given. *)

Record Entry := {
  e_title : string;
  e_summary : list N;
  e_relevant : bool
}.

Record FeedArticle := {
  fa_title : string;
  fa_summary : list N
}.

(** [summary[:200] + ('...' if len(summary) > 200 else '')] *)
Definition short_summary (summary : list N) : list N :=
  firstn 200 summary
  ++ (if (200 <? length summary)%nat then [46; 46; 46]%N else []).

Definition article_of (entry : Entry) : FeedArticle :=
  {| fa_title := e_title entry;
     fa_summary := short_summary (e_summary entry) |}.

Fixpoint select_entries (max_articles_per_rss : Z) (relevant_count : Z)
    (entries : list Entry) : list FeedArticle :=
  match entries with
  | [] => []
  | entry :: entries' =>
      if (max_articles_per_rss <=? relevant_count)%Z then []
      else if e_relevant entry then
        article_of entry
        :: select_entries max_articles_per_rss (relevant_count + 1) entries'
      else select_entries max_articles_per_rss relevant_count entries'
  end.

(** The articles of one feed. *)
Definition fetch_single_rss (max_articles_per_rss : Z) (entries : list Entry)
  : list FeedArticle :=
  select_entries max_articles_per_rss 0 entries.

(** ** The status report and the signal panel

    The technical analysis and the sentiment block of
    [generate_status_report], and the signal that
    [update_trading_signals_from_report] (ui/main_window.py) reads from
    them.  The texts and the charts of the report are not modelled.  The
    report tells NaN from [pd.NA], which the signal engine does not, so its
    cells have a type of their own. *)

(** A cell of the last row of the frame: [pd.NA], NaN or a number. *)
Inductive cell := NA | NaN | Num (x : Q).

(** [bool(x > y)] and [bool(x < y)]: a comparison with NaN is false, the
    truth value of a comparison with [pd.NA] raises ([None]). *)
Definition cell_gt (x y : cell) : option bool :=
  match x, y with
  | Num a, Num b => Some (Py.gtb a b)
  | NA, _ | _, NA => None
  | _, _ => Some false
  end.

Definition cell_lt (x y : cell) : option bool :=
  match x, y with
  | Num a, Num b => Some (Py.ltb a b)
  | NA, _ | _, NA => None
  | _, _ => Some false
  end.

(** [x and y] on truth values that can raise: [y] is evaluated only when
    [x] is true. *)
Definition and_then (x y : option bool) : option bool :=
  b ← x; if b : bool then y else Some false.

(** What [latest.get(column, None)] gives for the columns the analysis
    reads: [None] when the frame has no such column. *)
Record Row := {
  r_rsi : option cell;
  r_macd_diff : option cell;
  r_ma5 : option cell;
  r_ma25 : option cell
}.

(** The entries of [tech_analysis] that are read later; the advice is
    [None] when the key is not set. *)
Record TechAnalysis := {
  ta_rsi : option cell;
  ta_macd_trend : string;
  ta_ma_trend : string;
  ta_advice : option string
}.

Definition macd_trend_of (macd_diff : option cell) : option string :=
  match macd_diff with
  | Some d =>
      up ← cell_gt d (Num 0);
      Some (if up : bool then "看涨" else "看跌")
  | None => Some "N/A"
  end.

Definition ma_trend_of (ma5 ma25 : option cell) : option string :=
  match ma5, ma25 with
  | Some a, Some b =>
      above ← cell_gt a b;
      if above : bool then Some "多头排列"
      else
        below ← cell_lt a b;
        Some (if below : bool then "空头排列" else "均线交叉")
  | _, _ => Some "N/A"
  end.

Definition advice_of (rsi macd_diff ma5 ma25 : option cell)
  : option (option string) :=
  match rsi with
  | Some r =>
      overbought ← cell_gt r (Num 70);
      if overbought : bool then Some (Some "RSI超买，可能回调，建议谨慎。")
      else
        oversold ← cell_lt r (Num 30);
        if oversold : bool then Some (Some "RSI超卖，可能反弹，可考虑买入。")
        else
          match macd_diff, ma5, ma25 with
          | Some d, Some a, Some b =>
              bullish ← and_then (cell_gt d (Num 0)) (cell_gt a b);
              if bullish : bool then Some (Some "技术指标看涨，可考虑买入。")
              else
                bearish ← and_then (cell_lt d (Num 0)) (cell_lt a b);
                Some (Some (if bearish : bool
                            then "技术指标看跌，可考虑卖出。"
                            else "信号不明确，建议观望。"))
          | _, _, _ => Some None
          end
  | None => Some (Some "无法提供建议")
  end.

(** [tech_analysis] of [generate_status_report] for a frame of at least 26
    rows; [None] when a comparison raises, in which case the method returns
    its error report. *)
Definition tech_analysis_of (latest : Row) : option TechAnalysis :=
  macd_trend ← macd_trend_of (r_macd_diff latest);
  ma_trend ← ma_trend_of (r_ma5 latest) (r_ma25 latest);
  advice ← advice_of (r_rsi latest) (r_macd_diff latest) (r_ma5 latest)
             (r_ma25 latest);
  Some {| ta_rsi := r_rsi latest; ta_macd_trend := macd_trend;
          ta_ma_trend := ma_trend; ta_advice := advice |}.

(** [sentiment_info] of [generate_status_report], without the emoji. *)
Record SentimentInfo := {
  si_sentiment : string;
  si_score : Q;
  si_text : string;
  si_confidence : Z
}.

Definition sentiment_info (st : Tracker) : SentimentInfo :=
  if Py.truthy_str (current_sentiment st) then
    let sentiment := Py.get_default (current_sentiment st) "" in
    let score := sentiment_score st in
    if String.eqb sentiment "positive" then
      {| si_sentiment := sentiment; si_score := score;
         si_text := "市场看涨";
         si_confidence := Py.int ((score + 1) * 50) |}
    else if String.eqb sentiment "negative" then
      {| si_sentiment := sentiment; si_score := score;
         si_text := "市场看跌";
         si_confidence := Py.int (Qabs score * 100) |}
    else
      {| si_sentiment := sentiment; si_score := score;
         si_text := "市场中性";
         si_confidence := Py.int ((1 - Qabs score) * 100) |}
  else
    {| si_sentiment := "neutral"; si_score := 0; si_text := "市场中性";
       si_confidence := 50 |}.

(** [needle in hay] *)
Fixpoint contains (needle hay : string) : bool :=
  String.prefix needle hay
  || match hay with
     | EmptyString => false
     | String _ hay' => contains needle hay'
     end.

(** [signal_type] of [update_trading_signals_from_report]: from the text of
    the advice first, from the trends and the RSI otherwise. *)
Definition signal_type_of (ta : TechAnalysis) : option SignalType :=
  let recommendation := Py.get_default (ta_advice ta) "无法提供建议" in
  if contains "买入" recommendation || contains "反弹" recommendation
  then Some ST_BUY
  else if contains "卖出" recommendation || contains "回调" recommendation
  then Some ST_SELL
  else if String.eqb (ta_macd_trend ta) "看涨"
          && String.eqb (ta_ma_trend ta) "多头排列"
  then Some ST_BUY
  else if String.eqb (ta_macd_trend ta) "看跌"
          && String.eqb (ta_ma_trend ta) "空头排列"
  then Some ST_SELL
  else
    match ta_rsi ta with
    | Some r =>
        overbought ← cell_gt r (Num 70);
        if overbought : bool then Some ST_SELL
        else
          oversold ← cell_lt r (Num 30);
          Some (if oversold : bool then ST_BUY else ST_NEUTRAL)
    | None => Some ST_NEUTRAL
    end.

(** [min(100, int(abs(rsi - 50) * 2))]; [int] raises on NaN and [pd.NA]. *)
Definition rsi_confidence (rsi : cell) : option Z :=
  match rsi with
  | Num x => Some (Z.min 100 (Py.int (Qabs (x - 50) * 2)))
  | _ => None
  end.

Definition is_neutral (t : SignalType) : bool :=
  match t with ST_NEUTRAL => true | _ => false end.

Definition agrees (t : SignalType) (sentiment : string) : bool :=
  match t with
  | ST_BUY => String.eqb sentiment "positive"
  | ST_SELL => String.eqb sentiment "negative"
  | ST_NEUTRAL => false
  end.

(** [update_trading_signals_from_report] for a report with a technical
    analysis: the arguments of [on_signal_status_updated], or [None] when
    an exception is logged and the panel keeps what it shows. *)
Definition update_trading_signals_from_report (ta : TechAnalysis)
    (si : SentimentInfo) : option (SignalType * string * Z) :=
  let recommendation := Py.get_default (ta_advice ta) "无法提供建议" in
  signal_type ← signal_type_of ta;
  confidence ←
    (if is_neutral signal_type then Some 50%Z
     else
       confidence ←
         match ta_rsi ta with
         | Some r => c ← rsi_confidence r; Some (Z.max 50 c)
         | None => Some 50%Z
         end;
       Some (if agrees signal_type (si_sentiment si)
             then Z.min 100 (confidence + 10)
             else confidence));
  Some (signal_type, recommendation, confidence).

(** The signal the panel shows after a report on the row [latest]. *)
Definition report_signal (latest : Row) (si : SentimentInfo)
  : option (SignalType * string * Z) :=
  ta ← tech_analysis_of latest;
  update_trading_signals_from_report ta si.

(** The row of numbers with the indicators [i] and the histogram
    [macd_diff]. *)
Definition row_of (i : Indicators) (macd_diff : Q) : Row :=
  {| r_rsi := Some (Num (i_rsi i));
     r_macd_diff := Some (Num macd_diff);
     r_ma5 := Some (Num (i_ma5 i));
     r_ma25 := Some (Num (i_ma25 i)) |}.

(** * Properties *)

(** ** Comparisons *)

Lemma leb_le x y : Py.leb x y = true <-> x <= y.
Proof. apply Qle_bool_iff. Qed.

Lemma geb_le x y : Py.geb x y = true <-> y <= x.
Proof. apply Qle_bool_iff. Qed.

Lemma ltb_lt x y : Py.ltb x y = true <-> x < y.
Proof.
  unfold Py.ltb. rewrite negb_true_iff, <- not_true_iff_false, Qle_bool_iff.
  split; [apply Qnot_le_lt | apply Qlt_not_le].
Qed.

Lemma gtb_lt x y : Py.gtb x y = true <-> y < x.
Proof.
  unfold Py.gtb. rewrite negb_true_iff, <- not_true_iff_false, Qle_bool_iff.
  split; [apply Qnot_le_lt | apply Qlt_not_le].
Qed.

Lemma truthy_nonzero q : Py.truthy q = true <-> ~ q == 0.
Proof.
  unfold Py.truthy. rewrite negb_true_iff, <- not_true_iff_false, Qeq_bool_iff.
  reflexivity.
Qed.

(** ** Runs of the elementary methods *)

Lemma emit_all_run l st : emit_all l st = (Return tt, st, l).
Proof.
  induction l as [|e l IH]; [reflexivity|].
  simpl. unfold bind, emit. rewrite IH. reflexivity.
Qed.

Lemma get_klines_run k st :
  get_klines k st =
  (Return (kl_frame k), st,
   map monitoring_error (kl_errors k) ++ [chart_data_ready (kl_frame k)]).
Proof.
  unfold get_klines, bind. rewrite emit_all_run. reflexivity.
Qed.

Lemma emit_chart_run df st :
  emit_chart df st =
  (Return tt, st, if df_empty df then [] else [chart_data_ready df]).
Proof. unfold emit_chart. destruct (df_empty df); reflexivity. Qed.

Lemma refresh_chart_run k st :
  (df <- get_klines k ;; emit_chart df) st = (Return tt, st, chart_events k).
Proof.
  unfold bind. rewrite get_klines_run, emit_chart_run.
  unfold chart_events. rewrite <- app_assoc. reflexivity.
Qed.



Lemma chart_events_plain k : forallb plain (chart_events k) = true.
Proof.
  unfold chart_events. rewrite !forallb_app.
  assert (forallb plain (map monitoring_error (kl_errors k)) = true) as ->.
  { induction (kl_errors k); simpl; auto. }
  destruct (df_empty (kl_frame k)); reflexivity.
Qed.

(** ** Runs of the position changes *)

(** The tracker after a position is opened at [p], and after it is closed. *)
Lemma opened_eq p st :
  position (set_position (Some LONG) (set_entry_price (Some p) st)) = Some LONG
  /\ entry_price (set_position (Some LONG) (set_entry_price (Some p) st))
     = Some p.
Proof. split; reflexivity. Qed.

Lemma closed_eq st :
  position (set_entry_price None (set_position None st)) = None
  /\ entry_price (set_entry_price None (set_position None st)) = None.
Proof. split; reflexivity. Qed.

Ltac run_method :=
  cbv beta iota delta [bind get ret modify emit raise when py_div];
  rewrite ?get_klines_run, ?emit_chart_run;
  cbv beta iota; unfold chart_events;
  rewrite ?app_nil_l, ?app_nil_r, <- ?app_assoc; try reflexivity.

Lemma execute_trade_buy_run kl p st :
  position st = None -> ~ p == 0 ->
  execute_trade kl (Some BUY) (Some p) st =
  (Return tt, set_position (Some LONG) (set_entry_price (Some p) st),
   trade_signal BUY p :: chart_events kl).
Proof.
  intros Hpos Hp%truthy_nonzero. unfold execute_trade. rewrite Hp.
  cbv beta iota delta [negb bind get]. rewrite Hpos. run_method.
Qed.

Lemma execute_trade_sell_run kl p st :
  position st = Some LONG -> ~ p == 0 ->
  execute_trade kl (Some SELL) (Some p) st =
  (Return tt, set_entry_price None (set_position None st),
   trade_signal SELL p :: chart_events kl).
Proof.
  intros Hpos Hp%truthy_nonzero. unfold execute_trade. rewrite Hp.
  cbv beta iota delta [negb bind get]. rewrite Hpos. run_method.
Qed.

(** Every other call of [execute_trade] does nothing. *)
Lemma execute_trade_skip_run kl signal price st :
  match signal, position st, price with
  | Some BUY, None, Some p => p == 0
  | Some SELL, Some LONG, Some p => p == 0
  | _, _, _ => True
  end ->
  execute_trade kl signal price st = (Return tt, st, []).
Proof.
  intros H. unfold execute_trade.
  destruct price as [p|]; [|reflexivity].
  destruct (Py.truthy p) eqn:Hp.
  - apply truthy_nonzero in Hp. cbv beta iota delta [negb bind get].
    destruct signal as [[|]|], (position st) as [[]|];
      try reflexivity; contradiction.
  - reflexivity.
Qed.

(** The levels and the realised percentage of [check_stop_conditions]. *)
Lemma check_stop_conditions_run kl st entry price :
  position st = Some LONG -> entry_price st = Some entry -> ~ entry == 0 ->
  check_stop_conditions kl (Some price) st =
  let stop_loss_price := entry * (1 - stop_loss_percent (config st) / 100) in
  let take_profit_price :=
    entry * (1 + take_profit_percent (config st) / 100) in
  let profit_percent := (price - entry) / entry * 100 in
  if Py.leb price stop_loss_price then
    (Return true, set_entry_price None (set_position None st),
     stop_condition_triggered STOP_LOSS price profit_percent
     :: chart_events kl)
  else if Py.geb price take_profit_price then
    (Return true, set_entry_price None (set_position None st),
     stop_condition_triggered TAKE_PROFIT price profit_percent
     :: chart_events kl)
  else (Return false, st, []).
Proof.
  intros Hpos Hentry Hnz. unfold check_stop_conditions.
  cbv beta iota delta [bind get py_div]. rewrite Hpos, Hentry.
  assert (Qeq_bool entry 0 = false) as ->.
  { apply not_true_iff_false. rewrite Qeq_bool_iff. exact Hnz. }
  cbv zeta.
  destruct (Py.leb price _); [run_method|].
  destruct (Py.geb price _); run_method.
Qed.

(** With a zero entry price the division raises before anything is done;
    with no position, no entry price or no numeric price nothing is done. *)
Lemma check_stop_conditions_zero_run kl st entry price :
  position st = Some LONG -> entry_price st = Some entry -> entry == 0 ->
  check_stop_conditions kl (Some price) st = (Raise ZeroDivisionError, st, []).
Proof.
  intros Hpos Hentry Hz. unfold check_stop_conditions.
  cbv beta iota delta [bind get py_div]. rewrite Hpos, Hentry.
  apply Qeq_bool_iff in Hz. rewrite Hz. reflexivity.
Qed.

Lemma check_stop_conditions_skip_run kl st current_price :
  position st = None \/ entry_price st = None \/ current_price = None ->
  check_stop_conditions kl current_price st = (Return false, st, []).
Proof.
  intros H. unfold check_stop_conditions. cbv beta iota delta [bind get].
  destruct (position st) as [[]|]; [|reflexivity].
  destruct (entry_price st); [|reflexivity].
  destruct current_price; [|reflexivity].
  destruct H as [H|[H|H]]; discriminate.
Qed.

(** ** Relations every method respects

    A relation [R] that is reflexive, composes along a trace, ignores the
    attributes other than the position and the entry price and accepts the
    plain signals holds of every run of a method as soon as it accepts the
    steps that method can take: the purchase, the sale and the stop of the
    signal engine, the price update and the alert of the loop, the
    inference of the position from the balance.  Each lemma depends on the
    steps it names only. *)

Section Respects.

Variable R : Tracker -> list event -> Tracker -> Prop.

Hypothesis R_refl : forall st, R st [] st.
Hypothesis R_trans : forall s1 e1 s2 e2 s3,
    R s1 e1 s2 -> R s2 e2 s3 -> R s1 (e1 ++ e2) s3.
Hypothesis R_frame : forall st st',
    position st' = position st -> entry_price st' = entry_price st ->
    R st [] st'.
Hypothesis R_plain : forall st e, plain e = true -> R st [e] st.
Hypothesis R_buy : forall st p,
    position st = None -> ~ p == 0 ->
    R st [trade_signal BUY p]
      (set_position (Some LONG) (set_entry_price (Some p) st)).
Hypothesis R_sell : forall st p,
    position st = Some LONG ->
    R st [trade_signal SELL p]
      (set_entry_price None (set_position None st)).
Hypothesis R_stop : forall st k p entry,
    position st = Some LONG -> entry_price st = Some entry ->
    ~ entry == 0 ->
    R st [stop_condition_triggered k p ((p - entry) / entry * 100)]
      (set_entry_price None (set_position None st)).

Lemma respects_ret {A} (a : A) : respects R (ret a).
Proof. intros st. apply R_refl. Qed.

Lemma respects_raise {A} e : respects R (@raise A e).
Proof. intros st. apply R_refl. Qed.

Lemma respects_get : respects R get.
Proof. intros st. apply R_refl. Qed.

Lemma respects_bind {A B} (m : M A) (k : A -> M B) :
  respects R m -> (forall a, respects R (k a)) -> respects R (bind m k).
Proof.
  intros Hm Hk st. specialize (Hm st). unfold bind.
  destruct (m st) as [[[a|e] st1] ev1]; [|exact Hm].
  specialize (Hk a st1). destruct (k a st1) as [[o st2] ev2].
  eapply R_trans; [exact Hm | exact Hk].
Qed.

Lemma respects_try_except {A} (m : M A) h :
  respects R m -> (forall e, respects R (h e)) ->
  respects R (try_except m h).
Proof.
  intros Hm Hh st. specialize (Hm st). unfold try_except.
  destruct (m st) as [[[a|e] st1] ev1]; [exact Hm|].
  specialize (Hh e st1). destruct (h e st1) as [[o st2] ev2].
  eapply R_trans; [exact Hm | exact Hh].
Qed.

Lemma respects_when b m : respects R m -> respects R (when b m).
Proof. intros Hm. destruct b; [exact Hm | apply respects_ret]. Qed.

Lemma respects_emit e : plain e = true -> respects R (emit e).
Proof. intros He st. apply R_plain, He. Qed.

Lemma respects_modify f :
  (forall st, position (f st) = position st) ->
  (forall st, entry_price (f st) = entry_price st) ->
  respects R (modify f).
Proof. intros Hp He st. apply R_frame; [apply Hp | apply He]. Qed.

Lemma respects_emit_all l : forallb plain l = true -> respects R (emit_all l).
Proof.
  induction l as [|e l IH]; simpl; [intros _; apply respects_ret|].
  intros [He Hl]%andb_true_iff.
  apply respects_bind; [apply respects_emit, He | intros _; apply IH, Hl].
Qed.

Lemma respects_py_div x y : respects R (py_div x y).
Proof.
  unfold py_div. destruct (Qeq_bool y 0);
    [apply respects_raise | apply respects_ret].
Qed.

(** One step of a proof that a method respects [R]. *)
Ltac respects_step :=
  match goal with
  | |- respects _ (ret _) => apply respects_ret
  | |- respects _ (raise _) => apply respects_raise
  | |- respects _ get => apply respects_get
  | |- respects _ (bind _ _) => apply respects_bind; [|intros ?]
  | |- respects _ (try_except _ _) =>
      apply respects_try_except; [|intros ?]
  | |- respects _ (when _ _) => apply respects_when
  | |- respects _ (emit _) => apply respects_emit; reflexivity
  | |- respects _ (modify _) => apply respects_modify; reflexivity
  | |- respects _ (py_div _ _) => apply respects_py_div
  | |- respects _ (if ?b then _ else _) => destruct b
  | |- respects _ (match ?x with _ => _ end) => destruct x
  | |- respects _ (let '(_, _) := ?x in _) => destruct x
  end.

Lemma respects_get_klines k : respects R (get_klines k).
Proof.
  unfold get_klines. repeat respects_step.
  apply respects_emit_all. induction (kl_errors k); simpl; auto.
Qed.

Lemma respects_emit_chart df : respects R (emit_chart df).
Proof. unfold emit_chart. repeat respects_step. Qed.

Lemma respects_refresh_chart k :
  respects R (df <- get_klines k ;; emit_chart df).
Proof.
  apply respects_bind; [apply respects_get_klines|].
  intros df. apply respects_emit_chart.
Qed.

Lemma respects_get_simulated_price change :
  respects R (_get_simulated_price change).
Proof. unfold _get_simulated_price. repeat respects_step. Qed.

Lemma respects_get_latest_price ticker change :
  respects R (get_latest_price ticker change).
Proof.
  unfold get_latest_price.
  repeat first [apply respects_get_simulated_price | respects_step].
Qed.

Lemma respects_check_signals df : respects R (check_signals df).
Proof. unfold check_signals. repeat respects_step. Qed.

Lemma R_chart kl st : R st (chart_events kl) st.
Proof.
  pose proof (respects_refresh_chart kl st) as H.
  rewrite refresh_chart_run in H. exact H.
Qed.

Lemma respects_execute_trade_buy kl price :
  respects R (execute_trade kl (Some BUY) price).
Proof.
  intros st.
  destruct price as [p|];
    [|rewrite execute_trade_skip_run;
      [apply R_refl | destruct (position st) as [[]|]; exact I]].
  destruct (Qeq_dec p 0) as [Hz|Hnz].
  { rewrite execute_trade_skip_run; [apply R_refl|].
    destruct (position st) as [[]|]; solve [exact I | exact Hz]. }
  destruct (position st) as [[]|] eqn:Hpos.
  - rewrite execute_trade_skip_run; [apply R_refl | rewrite Hpos; exact I].
  - rewrite execute_trade_buy_run by assumption.
    apply (R_trans _ [_] _ _ _ (R_buy st p Hpos Hnz)), R_chart.
Qed.

Lemma respects_execute_trade_none kl price :
  respects R (execute_trade kl None price).
Proof.
  intros st. rewrite execute_trade_skip_run; [apply R_refl|exact I].
Qed.

Lemma respects_execute_trade kl signal price :
  respects R (execute_trade kl signal price).
Proof.
  destruct signal as [[|]|];
    [apply respects_execute_trade_buy| |apply respects_execute_trade_none].
  intros st.
  destruct price as [p|];
    [|rewrite execute_trade_skip_run;
      [apply R_refl | destruct (position st) as [[]|]; exact I]].
  destruct (Qeq_dec p 0) as [Hz|Hnz].
  { rewrite execute_trade_skip_run; [apply R_refl|].
    destruct (position st) as [[]|]; solve [exact I | exact Hz]. }
  destruct (position st) as [[]|] eqn:Hpos.
  - rewrite execute_trade_sell_run by assumption.
    apply (R_trans _ [_] _ _ _ (R_sell st p Hpos)), R_chart.
  - rewrite execute_trade_skip_run; [apply R_refl | rewrite Hpos; exact I].
Qed.

Lemma respects_check_stop_conditions kl current_price :
  respects R (check_stop_conditions kl current_price).
Proof.
  intros st.
  destruct (position st) as [[]|] eqn:Hpos;
    [|rewrite check_stop_conditions_skip_run; auto].
  destruct (entry_price st) as [entry|] eqn:Hentry;
    [|rewrite check_stop_conditions_skip_run; auto].
  destruct current_price as [price|];
    [|rewrite check_stop_conditions_skip_run; auto].
  destruct (Qeq_dec entry 0) as [Hz|Hnz].
  { rewrite (check_stop_conditions_zero_run _ _ entry); auto. }
  rewrite (check_stop_conditions_run _ _ entry) by assumption.
  cbv zeta. destruct (Py.leb price _).
  - apply (R_trans _ [_] _ _ _
             (R_stop st STOP_LOSS price entry Hpos Hentry Hnz)), R_chart.
  - destruct (Py.geb price _); [|apply R_refl].
    apply (R_trans _ [_] _ _ _
             (R_stop st TAKE_PROFIT price entry Hpos Hentry Hnz)), R_chart.
Qed.

(** *** News and sentiment *)

Variable hash : list string -> Z.

Lemma respects_search_headlines key prefix render answer :
  respects R (search_headlines key prefix render answer).
Proof. unfold search_headlines. repeat respects_step. Qed.

Lemma respects_fetch_rss_news feeds : respects R (fetch_rss_news feeds).
Proof.
  unfold fetch_rss_news. repeat respects_step.
  apply respects_emit_all. induction (rss_errors feeds); simpl; auto.
Qed.

Lemma respects_analyse key current_time headlines answer :
  respects R (analyse key current_time headlines answer).
Proof.
  unfold analyse. destruct answer; repeat respects_step.
Qed.

Lemma respects_call_deepseek_for_analysis current_time headlines answer :
  respects R (call_deepseek_for_analysis hash current_time headlines answer).
Proof.
  unfold call_deepseek_for_analysis.
  repeat first [apply respects_analyse | respects_step].
Qed.

Lemma respects_fetch_and_process_news gnews newsapi feeds current_time
    answer :
  respects R
    (fetch_and_process_news hash gnews newsapi feeds current_time answer).
Proof.
  unfold fetch_and_process_news.
  repeat first
    [ apply respects_search_headlines
    | apply respects_fetch_rss_news
    | apply respects_call_deepseek_for_analysis
    | respects_step ].
Qed.

(** *** The monitoring loop *)

Lemma respects_loop_trading refresh iteration last_kline_time t price alert :
  respects R (loop_trading refresh iteration last_kline_time t price alert).
Proof.
  unfold loop_trading.
  repeat first
    [ apply respects_check_stop_conditions
    | apply respects_get_klines
    | apply respects_emit_chart
    | apply respects_check_signals
    | apply respects_execute_trade_buy
    | respects_step ].
Qed.

Lemma respects_start_monitoring running duration refresh :
  respects R (start_monitoring running duration refresh).
Proof. unfold start_monitoring. repeat respects_step. Qed.

Hypothesis R_price : forall st p c, R st [price_updated p c] st.
Hypothesis R_alert : forall st c, R st [alert_triggered c] st.

Lemma respects_loop_body refresh iteration last_kline_time t :
  respects R (loop_body refresh iteration last_kline_time t).
Proof.
  unfold loop_body.
  repeat first
    [ apply respects_get_latest_price
    | apply respects_loop_trading
    | intros st; apply R_price
    | intros st; apply R_alert
    | respects_step ].
Qed.

Lemma respects_iterate refresh ticks : forall iteration last_kline_time,
  respects R (iterate refresh iteration last_kline_time ticks).
Proof.
  induction ticks as [|t ticks IH]; intros iteration last_kline_time; simpl.
  - apply respects_ret.
  - apply respects_bind; [apply respects_loop_body | intros l; apply IH].
Qed.

Lemma respects_monitoring_loop refresh start ticks stop_flag final :
  respects R (_monitoring_loop refresh start ticks stop_flag final).
Proof.
  unfold _monitoring_loop.
  repeat first
    [ apply respects_iterate
    | apply respects_get_klines
    | apply respects_emit_chart
    | respects_step ].
Qed.

(** *** Calls that do not infer the position *)

Lemma respects_trading_call c st :
  infers_position c = false ->
  R st (snd (run_call hash c st)) (fst (run_call hash c st)).
Proof.
  destruct c; try discriminate; intros _; cbn [run_call].
  - apply R_frame; reflexivity.
  - apply respects_get_latest_price.
  - apply respects_check_signals.
  - apply respects_execute_trade.
  - apply respects_check_stop_conditions.
  - apply respects_fetch_and_process_news.
  - apply respects_start_monitoring.
  - apply respects_monitoring_loop.
Qed.

Lemma respects_trading_calls cs : forall st,
  forallb (fun c => negb (infers_position c)) cs = true ->
  R st (snd (run_calls hash cs st)) (fst (run_calls hash cs st)).
Proof.
  induction cs as [|c cs IH]; intros st; simpl; [intros _; apply R_refl|].
  intros [Hc Hcs]%andb_true_iff. apply negb_true_iff in Hc.
  pose proof (respects_trading_call c st Hc) as H1.
  destruct (run_call hash c st) as [st1 ev1].
  pose proof (IH st1 Hcs) as H2.
  destruct (run_calls hash cs st1) as [st2 ev2].
  eapply R_trans; [exact H1 | exact H2].
Qed.

(** *** The balance inference *)

Hypothesis R_infer : forall st, R st [] (set_position (Some LONG) st).

Lemma respects_check_account_balance answer ticker change :
  respects R (check_account_balance answer ticker change).
Proof.
  unfold check_account_balance.
  repeat first
    [ apply respects_get_latest_price
    | intros st; apply R_infer
    | respects_step ].
Qed.

Lemma respects_initialize cfg connect answer ticker change :
  respects R (initialize cfg connect answer ticker change).
Proof.
  unfold initialize.
  repeat first [apply respects_check_account_balance | respects_step].
Qed.

(** *** Calls that do not sell from outside the loop *)



(** *** All calls *)

Lemma respects_call c st :
  R st (snd (run_call hash c st)) (fst (run_call hash c st)).
Proof.
  destruct (infers_position c) eqn:Hc;
    [|apply respects_trading_call, Hc].
  destruct c; try discriminate; cbn [run_call].
  - apply respects_initialize.
  - apply respects_check_account_balance.
Qed.

Lemma respects_calls cs : forall st,
  R st (snd (run_calls hash cs st)) (fst (run_calls hash cs st)).
Proof.
  induction cs as [|c cs IH]; intros st; simpl; [apply R_refl|].
  pose proof (respects_call c st) as H1.
  destruct (run_call hash c st) as [st1 ev1].
  pose proof (IH st1) as H2.
  destruct (run_calls hash cs st1) as [st2 ev2].
  eapply R_trans; [exact H1 | exact H2].
Qed.

End Respects.

(** ** The entry price and the position *)

Section Entry.

Variable hash : list string -> Z.

Lemma entry_implies_long_calls cs st :
  entry_implies_long st ->
  entry_implies_long (fst (run_calls hash cs st)).
Proof.
  apply (respects_calls keeps); unfold keeps, entry_implies_long;
    clear cs st; simpl; try solve [intros; auto; discriminate].
  - intros st st' Hp He H entry. rewrite Hp, He. apply H.
  - intros st p _ Hp _ entry [= <-]. auto.
  - intros st H entry Hentry. split; [reflexivity | apply (H entry Hentry)].
Qed.

Lemma reachable_entry_implies_long st :
  reachable hash st -> entry_implies_long st.
Proof.
  intros (cfg & cs & <-). apply entry_implies_long_calls.
  intros entry. discriminate.
Qed.

End Entry.



(** C5, as the specification states it, fails: after [initialize] has read
    a balance of 5 coins the position is long and no entry price is
    recorded. *)
Lemma entry_iff_long_fails :
  reachable scenario_hash scenario_holding
  /\ ~ (entry_price scenario_holding <> None
        <-> position scenario_holding = Some LONG).
Proof.
  split.
  - exists scenario_config,
      [Call_initialize scenario_config None (BalanceInfo (Some 5))
         (inr 1.25) 0].
    reflexivity.
  - intros [_ H]. apply H; reflexivity.
Qed.

Section Exclusivity.

Variable hash : list string -> Z.

Lemma trading_calls_no_bare_long cs st :
  forallb (fun c => negb (infers_position c)) cs = true ->
  position (fst (run_calls hash cs st)) = Some LONG ->
  entry_price (fst (run_calls hash cs st)) = None ->
  position st = Some LONG /\ entry_price st = None.
Proof.
  intros Hcs. revert st Hcs.
  apply (respects_trading_calls no_bare_long); unfold no_bare_long;
    simpl; try solve [intros; auto; discriminate].
  - intros s1 _ s2 _ s3 H12 H23 Hp He. destruct (H23 Hp He). auto.
  - intros st st' -> ->. auto.
Qed.




End Exclusivity.


(** C5, amended.  In every reachable tracker an entry price is recorded only
    while the position is long, so a flat position has no entry price; and
    in every tracker reached from a fresh one by calls that do not infer the
    position from the balance, a long position has its entry price. *)
Theorem entry_price_only_while_long :
  forall hash st,
    reachable hash st ->
    (entry_price st <> None -> position st = Some LONG)
    /\ (position st = None -> entry_price st = None)
    /\ (forall cfg cs,
          forallb (fun c => negb (infers_position c)) cs = true ->
          st = fst (run_calls hash cs (init cfg)) ->
          position st = Some LONG -> entry_price st <> None).
Proof.
  intros hash st Hreach.
  pose proof (reachable_entry_implies_long hash st Hreach) as Hinv.
  split; [|split].
  - destruct (entry_price st) as [entry|] eqn:He; [|congruence].
    intros _. apply (Hinv entry He).
  - destruct (entry_price st) as [entry|] eqn:He; [|reflexivity].
    destruct (Hinv entry He) as [Hlong _]. congruence.
  - intros cfg cs Hcs -> Hlong Hnone.
    destruct (trading_calls_no_bare_long hash cs (init cfg) Hcs Hlong Hnone)
      as [Hinit _].
    discriminate.
Qed.

(** After the purchase of scenario C the position is long and the entry
    price is the price paid. *)
Lemma entry_price_only_while_long_scenario :
  (entry_price scenario_long <> None -> position scenario_long = Some LONG)
  /\ (position scenario_long = None -> entry_price scenario_long = None)
  /\ (position scenario_long = Some LONG -> entry_price scenario_long <> None).
Proof.
  assert (reachable scenario_hash scenario_long) as Hreach.
  { exists scenario_config,
      [Call_execute_trade no_klines (Some BUY) (Some 100)]. reflexivity. }
  destruct (entry_price_only_while_long scenario_hash scenario_long Hreach)
    as (H1 & H2 & H3).
  split; [exact H1 | split; [exact H2|]].
  apply (H3 scenario_config
           [Call_execute_trade no_klines (Some BUY) (Some 100)]);
    reflexivity.
Defined.



(** ** Signals, gates and confidence *)

(** The last two rows of a frame are the ones [check_signals] reads. *)
Lemma rev_last_two (rows : DataFrame) prev latest :
  rev (rows ++ [prev; latest]) = latest :: prev :: rev rows.
Proof. rewrite rev_app_distr. reflexivity. Qed.

(** A frame of at least 26 rows passes the first gate. *)
Lemma long_frame_gate (df : DataFrame) :
  (26 <= length df)%nat -> df_empty df || (length df <? 26)%nat = false.
Proof.
  intros H. apply orb_false_iff. split.
  - destruct df; [simpl in H; lia | reflexivity].
  - apply Nat.ltb_ge, H.
Qed.

(** [check_signals] on a frame of at least 26 rows whose last two rows have
    the required indicators. *)
Lemma check_signals_run rows prev latest i st :
  let df := rows ++ [prev; latest] in
  (26 <= length df)%nat ->
  required_indicators latest prev = Some i ->
  check_signals df st =
  if Py.geb (buy_score st i) final_buy_threshold then
    (Return (Some BUY), st,
     [signal_status_updated ST_BUY
        (RecBuy (i_price i * (1 - stop_loss_percent (config st) / 100)))
        (confidence st i);
      chart_data_ready df])
  else if Py.leb (sell_score st i) final_sell_threshold then
    (Return (Some SELL), st,
     [signal_status_updated ST_SELL
        (RecSell (i_price i * (1 + take_profit_percent (config st) / 100)))
        (confidence st i);
      chart_data_ready df])
  else
    (Return None, st,
     [signal_status_updated ST_NEUTRAL RecNeutral (neutrality_score st i);
      chart_data_ready df]).
Proof.
  intros df Hlen Hreq. unfold check_signals.
  rewrite (long_frame_gate df Hlen). unfold df at 1.
  rewrite rev_last_two, Hreq.
  cbv beta iota delta [try_except bind get].
  destruct (Py.geb _ _); [reflexivity|].
  destruct (Py.leb _ _); reflexivity.
Qed.

(** The ten indicators are the ones of the two rows. *)
Lemma required_indicators_Some latest prev i :
  required_indicators latest prev = Some i <->
  close latest = Some (i_price i) /\ ma5 latest = Some (i_ma5 i)
  /\ ma25 latest = Some (i_ma25 i) /\ rsi latest = Some (i_rsi i)
  /\ macd latest = Some (i_macd_val i)
  /\ macd_signal latest = Some (i_macd_sig i)
  /\ ma5 prev = Some (i_prev_ma5 i) /\ ma25 prev = Some (i_prev_ma25 i)
  /\ macd prev = Some (i_prev_macd_val i)
  /\ macd_signal prev = Some (i_prev_macd_sig i).
Proof.
  unfold required_indicators. split.
  - destruct (close latest), (ma5 latest), (ma25 latest), (rsi latest),
      (macd latest), (macd_signal latest), (ma5 prev), (ma25 prev),
      (macd prev), (macd_signal prev); simpl; try discriminate.
    intros [= <-]. simpl. repeat split.
  - intros (-> & -> & -> & -> & -> & -> & -> & -> & -> & ->). simpl.
    destruct i; reflexivity.
Qed.

Lemma required_indicators_None latest prev :
  required_indicators latest prev = None <->
  close latest = None \/ ma5 latest = None \/ ma25 latest = None
  \/ rsi latest = None \/ macd latest = None \/ macd_signal latest = None
  \/ ma5 prev = None \/ ma25 prev = None \/ macd prev = None
  \/ macd_signal prev = None.
Proof.
  unfold required_indicators.
  destruct (close latest), (ma5 latest), (ma25 latest), (rsi latest),
    (macd latest), (macd_signal latest), (ma5 prev), (ma25 prev),
    (macd prev), (macd_signal prev); simpl;
    split; intros H; try discriminate; try tauto;
    repeat (destruct H as [H|H]; try discriminate).
Qed.

(** The technical conditions, as propositions. *)
Lemma buy_signal_tech_true i :
  buy_signal_tech i = true <->
  (i_prev_ma5 i <= i_prev_ma25 i /\ i_ma25 i < i_ma5 i)
  /\ i_rsi i < 50
  /\ (i_prev_macd_val i <= i_prev_macd_sig i /\ i_macd_sig i < i_macd_val i).
Proof.
  unfold buy_signal_tech.
  rewrite !andb_true_iff, !leb_le, !gtb_lt, ltb_lt. tauto.
Qed.

Lemma sell_signal_tech_true i :
  sell_signal_tech i = true <->
  (i_prev_ma25 i <= i_prev_ma5 i /\ i_ma5 i < i_ma25 i)
  /\ 50 < i_rsi i
  /\ (i_prev_macd_sig i <= i_prev_macd_val i /\ i_macd_val i < i_macd_sig i).
Proof.
  unfold sell_signal_tech.
  rewrite !andb_true_iff, !geb_le, !gtb_lt, !ltb_lt. tauto.
Qed.

(** C4.  On a frame that is empty, has fewer than 26 rows, or lacks one of
    the required indicators in its last two rows, [check_signals] returns no
    signal, leaves the tracker (so the position and the entry price) as it
    was and emits nothing, so neither a BUY nor a SELL. *)
Theorem check_signals_gated :
  forall df st,
    (df = []
     \/ (length df < 26)%nat
     \/ exists rows prev latest,
          df = rows ++ [prev; latest]
          /\ (close latest = None \/ ma5 latest = None \/ ma25 latest = None
              \/ rsi latest = None \/ macd latest = None
              \/ macd_signal latest = None
              \/ ma5 prev = None \/ ma25 prev = None \/ macd prev = None
              \/ macd_signal prev = None)) ->
    check_signals df st = (Return None, st, []).
Proof.
  intros df st H. unfold check_signals.
  destruct (df_empty df || (length df <? 26)%nat) eqn:Hgate; [reflexivity|].
  apply orb_false_iff in Hgate. destruct Hgate as [Hne Hlen].
  apply Nat.ltb_ge in Hlen.
  destruct H as [-> | [H | (rows & prev & latest & -> & H)]];
    [discriminate | lia |].
  rewrite rev_last_two.
  apply required_indicators_None in H. rewrite H. reflexivity.
Qed.

(** Twenty-five full rows are not enough, and a missing RSI in the last of
    twenty-six rows is not either. *)
Lemma check_signals_gated_scenario :
  check_signals (repeat (row_after_cross 40) 25) (init scenario_config)
  = (Return None, init scenario_config, [])
  /\ check_signals (repeat blank_row 24 ++ [row_before_cross; blank_row])
       scenario_long
     = (Return None, scenario_long, []).
Proof.
  split.
  - apply check_signals_gated. right. left. simpl. lia.
  - apply check_signals_gated. right. right.
    exists (repeat blank_row 24), row_before_cross, blank_row.
    split; [reflexivity | left; reflexivity].
Defined.

(** C3.  On a frame of at least 26 rows whose last two rows have the
    required indicators, and with a sentiment factor of 0,
    [check_signals] returns BUY exactly when the buy score reaches 0.6,
    which is exactly when the technical BUY condition holds: the short
    average crosses above the long one, the RSI is below 50 and the MACD
    line crosses above its signal.  With an RSI that is not below 50 no BUY
    is returned, whatever the crossovers. *)
Theorem check_signals_buy_iff_technical :
  forall rows prev latest i st,
    let df := rows ++ [prev; latest] in
    (26 <= length df)%nat ->
    required_indicators latest prev = Some i ->
    sentiment_factor st == 0 ->
    (result_of (check_signals df st) = Return (Some BUY)
     <-> 0.6 <= buy_score st i)
    /\ (0.6 <= buy_score st i
        <-> (i_prev_ma5 i <= i_prev_ma25 i /\ i_ma25 i < i_ma5 i)
            /\ i_rsi i < 50
            /\ (i_prev_macd_val i <= i_prev_macd_sig i
                /\ i_macd_sig i < i_macd_val i))
    /\ (~ i_rsi i < 50 ->
        result_of (check_signals df st) <> Return (Some BUY)).
Proof.
  intros rows prev latest i st df Hlen Hreq Hsf.
  assert (result_of (check_signals df st) = Return (Some BUY)
          <-> 0.6 <= buy_score st i) as Hbuy.
  { unfold df. rewrite (check_signals_run rows prev latest i st Hlen Hreq).
    unfold final_buy_threshold. rewrite <- geb_le.
    destruct (Py.geb (buy_score st i) 0.6).
    - split; reflexivity.
    - destruct (Py.leb _ _); split; discriminate. }
  assert (0.6 <= buy_score st i <-> buy_signal_tech i = true) as Htech.
  { unfold buy_score. destruct (buy_signal_tech i).
    - split; [reflexivity | intros _; lra].
    - split; [intros H; lra | discriminate]. }
  split; [exact Hbuy | split].
  - rewrite Htech. apply buy_signal_tech_true.
  - intros Hrsi. rewrite Hbuy, Htech, buy_signal_tech_true. tauto.
Qed.

(** Scenario B and its counterpart: with no sentiment, the double crossover
    with an RSI of 40 gives BUY, and with an RSI of 60 it does not. *)
Lemma check_signals_buy_scenario :
  result_of (check_signals (crossover_frame 40) (init scenario_config))
  = Return (Some BUY)
  /\ result_of (check_signals (crossover_frame 60) (init scenario_config))
     <> Return (Some BUY).
Proof.
  split.
  - destruct (check_signals_buy_iff_technical (repeat blank_row 24)
                row_before_cross (row_after_cross 40)
                (crossover_indicators 40)
                (init scenario_config)) as [[_ H] _];
      [simpl; lia | reflexivity | reflexivity |].
    apply H. vm_compute. discriminate.
  - destruct (check_signals_buy_iff_technical (repeat blank_row 24)
                row_before_cross (row_after_cross 60)
                (crossover_indicators 60)
                (init scenario_config)) as (_ & _ & H);
      [simpl; lia | reflexivity | reflexivity |].
    apply H. vm_compute. intros H'. discriminate H'.
Defined.






(** ** The simulated price *)

Lemma get_simulated_price_first change st :
  last_simulated_price st = None ->
  _get_simulated_price change st =
  (Return 1.2345, set_last_simulated_price (Some 1.2345) st, []).
Proof.
  intros H. unfold _get_simulated_price.
  cbv beta iota delta [bind get]. rewrite H. reflexivity.
Qed.

Lemma get_simulated_price_next change st last :
  last_simulated_price st = Some last ->
  _get_simulated_price change st =
  (Return (last * (1 + change)),
   set_last_simulated_price (Some (last * (1 + change))) st, []).
Proof.
  intros H. unfold _get_simulated_price.
  cbv beta iota delta [bind get]. rewrite H. reflexivity.
Qed.

(** A failed price fetch answers with the simulated price. *)
Lemma get_latest_price_fallback ticker change st :
  client st = false \/ (exists msg, ticker = inl msg) ->
  result_of (get_latest_price ticker change st)
  = result_of (_get_simulated_price change st)
  /\ state_of (get_latest_price ticker change st)
     = state_of (_get_simulated_price change st).
Proof.
  intros H. unfold get_latest_price. cbv beta iota delta [bind get emit].
  destruct (client st); simpl.
  - destruct H as [H|[msg ->]]; [discriminate|].
    destruct (_get_simulated_price change st) as [[[a|e] s] ev]; split;
      reflexivity.
  - destruct (_get_simulated_price change st) as [[[a|e] s] ev]; split;
      reflexivity.
Qed.

Lemma small_change_within last c :
  small_change c -> Qabs (last * (1 + c) - last) <= 0.005 * Qabs last.
Proof.
  intros [Hlo Hhi].
  assert (last * (1 + c) - last == c * last) as -> by ring.
  rewrite Qabs_Qmult.
  apply Qmult_le_compat_r; [|apply Qabs_nonneg].
  apply Qabs_Qle_condition. split; assumption.
Qed.

Lemma fallback_prices_from changes : forall st last0,
  last_simulated_price st = Some last0 ->
  Forall small_change changes ->
  exists prices,
    result_of (fallback_prices changes st) = Return prices
    /\ events_of (fallback_prices changes st) = []
    /\ length prices = length changes
    /\ bounded_walk last0 prices
    /\ last_simulated_price (state_of (fallback_prices changes st))
       = last (last0 :: prices).
Proof.
  induction changes as [|c changes IH]; intros st last0 Hlast Hall.
  - exists []. repeat split; simpl; assumption.
  - inversion Hall as [|? ? Hc Hall']; subst.
    destruct (IH (set_last_simulated_price (Some (last0 * (1 + c))) st)
                (last0 * (1 + c)) eq_refl Hall')
      as (prices & Hres & Hev & Hlen & Hwalk & Hstate).
    exists (last0 * (1 + c) :: prices).
    cbn [fallback_prices]. unfold bind.
    rewrite (get_simulated_price_next c st last0 Hlast).
    destruct (fallback_prices changes _) as [[[ps|e] s] ev];
      unfold result_of, events_of, state_of in *; simpl in *;
      [|discriminate].
    assert (ps = prices) as -> by congruence. subst ev.
    split; [reflexivity|]. split; [reflexivity|].
    split; [congruence|]. split; [|exact Hstate].
    split; [exists c; split; [assumption | reflexivity]|].
    split; [apply small_change_within, Hc | exact Hwalk].
Qed.

(** C7.  From a tracker that has not simulated a price yet, the first
    fallback call returns the seed 1.2345 and every later one returns the
    previous simulated price times [1 + c] for its draw [c] in
    [-0.005, 0.005], so a price within 0.5 % of the previous one; the last
    simulated price is kept in the tracker. *)
Theorem simulated_price_walk :
  forall st first changes,
    last_simulated_price st = None ->
    Forall small_change changes ->
    exists prices,
      result_of (fallback_prices (first :: changes) st)
      = Return (1.2345 :: prices)
      /\ length prices = length changes
      /\ bounded_walk 1.2345 prices
      /\ last_simulated_price (state_of (fallback_prices (first :: changes) st))
         = last (1.2345 :: prices).
Proof.
  intros st first changes Hnone Hall.
  destruct (fallback_prices_from changes
              (set_last_simulated_price (Some 1.2345) st) 1.2345 eq_refl Hall)
    as (prices & Hres & Hev & Hlen & Hwalk & Hstate).
  exists prices.
  cbn [fallback_prices]. unfold bind.
  rewrite (get_simulated_price_first first st Hnone).
  destruct (fallback_prices changes _) as [[[ps|e] s] ev];
    unfold result_of, events_of, state_of in *; simpl in *; [|discriminate].
  assert (ps = prices) as -> by congruence.
  split; [reflexivity|]. split; [exact Hlen|]. split; [exact Hwalk|].
  exact Hstate.
Qed.

(** Three fallback calls on a fresh tracker with the draws +0.5 % and
    -0.5 %. *)
Lemma simulated_price_walk_scenario :
  exists prices,
    result_of (fallback_prices [0; 0.005; -0.005] (init scenario_config))
    = Return (1.2345 :: prices)
    /\ length prices = 2%nat
    /\ bounded_walk 1.2345 prices.
Proof.
  destruct (simulated_price_walk (init scenario_config) 0 [0.005; -0.005]
              eq_refl) as (prices & H1 & H2 & H3 & _).
  - repeat constructor; vm_compute; discriminate.
  - exists prices. split; [exact H1|]. split; [exact H2 | exact H3].
Defined.

(** ** News without headlines *)

Lemma requests_app l1 l2 : requests (l1 ++ l2) = requests l1 ++ requests l2.
Proof.
  induction l1 as [|e l1 IH]; [reflexivity|].
  destruct e; simpl; rewrite ?IH; reflexivity.
Qed.

Lemma requests_errors msgs : requests (map monitoring_error msgs) = [].
Proof. induction msgs; simpl; auto. Qed.

(** A keyword search reports at most an error and changes nothing. *)
Lemma search_headlines_run key prefix render answer st :
  exists errors,
    search_headlines key prefix render answer st =
    (Return (search_result key render answer), st,
     map monitoring_error errors).
Proof.
  unfold search_headlines. cbv beta iota delta [bind when].
  destruct (Py.truthy_str key).
  - destruct answer as [msg|articles].
    + exists [String.append prefix msg]. reflexivity.
    + exists []. reflexivity.
  - exists []. reflexivity.
Qed.

(** With news enabled the RSS fan-out returns the merged articles. *)
Lemma fetch_rss_news_run feeds st :
  news_enabled (config st) = true ->
  fetch_rss_news feeds st =
  (Return (rss_articles feeds), st,
   map monitoring_error (rss_errors feeds)
   ++ match rss_articles feeds with
      | [] => []
      | _ => [rss_news_received (rss_articles feeds)]
      end).
Proof.
  intros Hen. unfold fetch_rss_news.
  cbv beta iota delta [bind get]. rewrite Hen. cbv beta iota delta [negb].
  rewrite emit_all_run.
  destruct (rss_articles feeds); reflexivity.
Qed.

Section News.

Variable hash : list string -> Z.

(** C9.  With news enabled and no headline from any source,
    [fetch_and_process_news] returns the "no news" text with the label
    neutral and the score 0, records the text, and neither asks the
    completion endpoint nor touches the sentiment or the cache. *)
Theorem no_headlines_no_analysis :
  forall st gnews newsapi feeds current_time answer,
    news_enabled (config st) = true ->
    all_headlines (config st) gnews newsapi feeds = [] ->
    let run :=
      fetch_and_process_news hash gnews newsapi feeds current_time answer st in
    result_of run = Return ("未能获取到相关新闻。", Some "neutral", 0)
    /\ requests (events_of run) = []
    /\ state_of run
       = set_last_processed_news (Some "未能获取到相关新闻。") st.
Proof.
  intros st gnews newsapi feeds current_time answer Hen Hnone.
  unfold all_headlines in Hnone.
  apply app_eq_nil in Hnone as [Hg Hrest].
  apply app_eq_nil in Hrest as [Hn Hr].
  apply map_eq_nil in Hr.
  cbv zeta. unfold fetch_and_process_news.
  cbv beta iota delta [bind get]. rewrite Hen. cbv beta iota delta [negb].
  destruct (search_headlines_run (gnews_api_key (config st))
              "GNews API错误: " gnews_headline gnews st) as [e1 ->].
  destruct (search_headlines_run (newsapi_api_key (config st))
              "NewsAPI错误: " newsapi_headline newsapi st) as [e2 ->].
  rewrite (fetch_rss_news_run feeds st Hen).
  rewrite Hg, Hn, Hr. cbn.
  rewrite !app_nil_r, !requests_app, !requests_errors.
  repeat split.
Qed.

End News.

(** Scenario D: the search fails, no other key is configured and the feeds
    have nothing. *)
Lemma no_headlines_scenario_D :
  let run :=
    fetch_and_process_news scenario_hash (inl "timeout") (inr [])
      {| rss_errors := ["feed down"]; rss_articles := [] |} 0
      (Response (Some "positive") (Some 0.7) (Some "summary"))
      (init scenario_config) in
  result_of run = Return ("未能获取到相关新闻。", Some "neutral", 0)
  /\ requests (events_of run) = [].
Proof.
  destruct (no_headlines_no_analysis scenario_hash (init scenario_config)
              (inl "timeout") (inr [])
              {| rss_errors := ["feed down"]; rss_articles := [] |} 0
              (Response (Some "positive") (Some 0.7) (Some "summary"))
              eq_refl eq_refl) as (H1 & H2 & _).
  split; assumption.
Defined.


(** ** The first price sample of a session *)

Lemma events_of_bind {A B} (m : M A) (k : A -> M B) st :
  events_of (bind m k st) =
  events_of (m st)
  ++ match result_of (m st) with
     | Return a => events_of (k a (state_of (m st)))
     | Raise _ => []
     end.
Proof.
  unfold bind, events_of, result_of, state_of.
  destruct (m st) as [[[a|e] st1] ev1]; simpl.
  - destruct (k a st1) as [[o st2] ev2]. reflexivity.
  - rewrite app_nil_r. reflexivity.
Qed.

Lemma events_of_try_except {A} (m : M A) h st :
  events_of (try_except m h st) =
  events_of (m st)
  ++ match result_of (m st) with
     | Return _ => []
     | Raise e => events_of (h e (state_of (m st)))
     end.
Proof.
  unfold try_except, events_of, result_of, state_of.
  destruct (m st) as [[[a|e] st1] ev1]; simpl.
  - rewrite app_nil_r. reflexivity.
  - destruct (h e st1) as [[o st2] ev2]. reflexivity.
Qed.

Lemma alerts_app evs1 : forall n evs2,
  alerts_after_two_samples n (evs1 ++ evs2) =
  alerts_after_two_samples n evs1
  && alerts_after_two_samples (n + count_updates evs1) evs2.
Proof.
  unfold count_updates.
  induction evs1 as [|e evs1 IH]; intros n evs2; simpl.
  - rewrite Nat.add_0_r. reflexivity.
  - destruct e; simpl; rewrite ?IH, ?andb_assoc, ?Nat.add_succ_r;
      reflexivity.
Qed.

Lemma alerts_quiet evs : forall n,
  forallb quiet evs = true ->
  alerts_after_two_samples n evs = true /\ count_updates evs = 0%nat.
Proof.
  unfold count_updates.
  induction evs as [|e evs IH]; intros n; simpl; [auto|].
  intros [He Hq]%andb_true_iff.
  destruct e; try discriminate; simpl; apply IH, Hq.
Qed.

Lemma plain_quiet evs : forallb plain evs = true -> forallb quiet evs = true.
Proof.
  induction evs as [|e evs IH]; simpl; [auto|].
  intros [He Hq]%andb_true_iff. rewrite (IH Hq).
  destruct e; try discriminate; reflexivity.
Qed.

(** A price fetch leaves the previous price and the configuration alone and
    reports at most errors. *)
Lemma get_latest_price_shape ticker change st :
  exists p st' ev,
    get_latest_price ticker change st = (Return p, st', ev)
    /\ previous_price st' = previous_price st
    /\ config st' = config st
    /\ forallb quiet ev = true.
Proof.
  assert (exists p st',
             _get_simulated_price change st = (Return p, st', [])
             /\ previous_price st' = previous_price st
             /\ config st' = config st) as (p & st' & Hsim & Hprev & Hcfg).
  { destruct (last_simulated_price st) as [last|] eqn:Hlast.
    - rewrite (get_simulated_price_next change st last Hlast).
      do 2 eexists. repeat split.
    - rewrite (get_simulated_price_first change st Hlast).
      do 2 eexists. repeat split. }
  unfold get_latest_price. cbv beta iota delta [bind get emit ret].
  destruct (client st); cbv beta iota delta [negb].
  - destruct ticker as [msg|price].
    + rewrite Hsim. do 3 eexists. repeat split; assumption.
    + do 3 eexists. repeat split.
  - rewrite Hsim. do 3 eexists. repeat split; assumption.
Qed.

(** The trading part of an iteration emits neither a price update nor an
    alert. *)
Lemma loop_trading_quiet refresh iteration last_kline_time t price alert st :
  forallb quiet
    (events_of
       (loop_trading refresh iteration last_kline_time t price alert st))
  = true.
Proof.
  apply (respects_loop_trading stays_quiet); unfold stays_quiet.
  - reflexivity.
  - intros _ e1 _ e2 _ H1 H2. rewrite forallb_app, H1, H2. reflexivity.
  - reflexivity.
  - intros _ e He. simpl. rewrite andb_true_r.
    destruct e; try discriminate; reflexivity.
  - reflexivity.
  - reflexivity.
Qed.

(** The signals of an iteration: errors of the fetch, the price update, the
    alert if it fires, then the trading part. *)
Lemma loop_body_shape refresh iteration last_kline_time t st :
  exists pre p post,
    let pct_change := pct_change_of (previous_price st) p in
    let alert :=
      price_alert (previous_price st) pct_change
        (Py.get_default (price_alert_threshold (config st)) 1) in
    events_of (loop_body refresh iteration last_kline_time t st)
    = pre ++ price_updated p pct_change
          :: (if alert then [alert_triggered pct_change] else []) ++ post
    /\ forallb quiet pre = true
    /\ forallb quiet post = true.
Proof.
  destruct (get_latest_price_shape (t_ticker t) (t_change t) st)
    as (p & st' & pre & Hrun & Hprev & Hcfg & Hpre).
  exists pre, p.
  unfold loop_body. rewrite events_of_bind, Hrun.
  unfold result_of at 1, state_of at 1, events_of at 1.
  cbn [fst snd]. cbv beta.
  rewrite events_of_bind.
  unfold result_of at 1, state_of at 1, events_of at 1, get.
  cbn [fst snd]. cbv beta.
  rewrite events_of_bind.
  unfold result_of at 1, state_of at 1, events_of at 1, emit at 1.
  cbn [fst snd]. cbv beta.
  rewrite events_of_bind, Hprev, Hcfg.
  destruct (price_alert _ _ _); cbn [when].
  - unfold result_of at 1, state_of at 1, events_of at 1, emit at 1.
    cbn [fst snd app].
    eexists. split; [reflexivity|]. split; [exact Hpre|].
    apply loop_trading_quiet.
  - unfold result_of at 1, state_of at 1, events_of at 1, ret at 1.
    cbn [fst snd app].
    eexists. split; [reflexivity|]. split; [exact Hpre|].
    apply loop_trading_quiet.
Qed.

(** An iteration run after a sample, or with no previous price, raises no
    early alert and adds one sample. *)
Lemma loop_body_alerts refresh iteration last_kline_time t st n :
  (1 <= n)%nat \/ previous_price st = None ->
  alerts_after_two_samples n
    (events_of (loop_body refresh iteration last_kline_time t st)) = true
  /\ count_updates
       (events_of (loop_body refresh iteration last_kline_time t st)) = 1%nat.
Proof.
  intros Hn.
  destruct (loop_body_shape refresh iteration last_kline_time t st)
    as (pre & p & post & Hev & Hpre & Hpost).
  cbv zeta in Hev. rewrite Hev. clear Hev.
  destruct (alerts_quiet pre n Hpre) as [Hpre1 Hpre2].
  split.
  - rewrite alerts_app, Hpre1, Hpre2, Nat.add_0_r. simpl.
    destruct (price_alert _ _ _) eqn:Halert; simpl.
    + destruct Hn as [Hn|Hnone].
      * destruct n; [lia|]. simpl. apply alerts_quiet, Hpost.
      * rewrite Hnone in Halert. discriminate.
    + apply alerts_quiet, Hpost.
  - unfold count_updates in *. rewrite List.filter_app, length_app, Hpre2.
    simpl. rewrite List.filter_app, length_app.
    destruct (alerts_quiet post 0 Hpost) as [_ Hpost2].
    unfold count_updates in Hpost2. rewrite Hpost2.
    destruct (price_alert _ _ _); reflexivity.
Qed.

Lemma iterate_alerts refresh ticks : forall iteration last_kline_time st n,
  (1 <= n)%nat \/ previous_price st = None ->
  alerts_after_two_samples n
    (events_of (iterate refresh iteration last_kline_time ticks st)) = true.
Proof.
  induction ticks as [|t ticks IH]; intros iteration lk st n Hn;
    [reflexivity|].
  cbn [iterate]. rewrite events_of_bind, alerts_app.
  destruct (loop_body_alerts refresh (iteration + 1)%Z lk t st n Hn)
    as [-> ->].
  destruct (result_of _); [|reflexivity].
  apply IH. left. lia.
Qed.

(** C10.  After [start_monitoring] has reset the previous price, the first
    iteration of the loop emits its price update with a change of 0 and no
    price alert, whatever the price and the threshold, and in the trace of
    the whole loop every price alert comes after at least two price
    updates. *)
Theorem first_sample_raises_no_alert :
  forall running duration refresh st start ticks stop_flag final,
    let st0 := state_of (start_monitoring running duration refresh st) in
    alerts_after_two_samples 0
      (events_of (_monitoring_loop refresh start ticks stop_flag final st0))
    = true
    /\ (forall t rest,
         exists p later,
           List.filter is_price_update
             (events_of (loop_body refresh 1 (start - 60) t st0))
           = [price_updated p 0]
           /\ List.filter is_alert
                (events_of (loop_body refresh 1 (start - 60) t st0)) = []
           /\ events_of
                (_monitoring_loop refresh start (t :: rest) stop_flag final
                   st0)
              = events_of (loop_body refresh 1 (start - 60) t st0) ++ later).
Proof.
  intros running duration refresh st start ticks stop_flag final st0.
  assert (previous_price st0 = None) as Hnone.
  { unfold st0, start_monitoring. destruct running; reflexivity. }
  split.
  - unfold _monitoring_loop.
    rewrite events_of_try_except, events_of_bind, <- app_assoc, alerts_app.
    rewrite (iterate_alerts refresh ticks 0%Z (start - 60) st0 0%nat)
      by (right; exact Hnone).
    apply alerts_quiet. rewrite forallb_app. apply andb_true_iff. split.
    + destruct (result_of (iterate _ _ _ _ _)); [|reflexivity].
      destruct stop_flag; [reflexivity|].
      rewrite events_of_bind, get_klines_run.
      unfold result_of at 1, state_of at 1, events_of at 1.
      cbn [fst snd]. cbv beta.
      rewrite events_of_bind, emit_chart_run.
      unfold result_of, state_of, events_of. cbn [fst snd].
      apply plain_quiet. rewrite !forallb_app.
      pose proof (chart_events_plain final) as Hc. unfold chart_events in Hc.
      rewrite !forallb_app in Hc.
      apply andb_true_iff in Hc as [-> Hc].
      apply andb_true_iff in Hc as [-> ->]. reflexivity.
    + match goal with
      | |- context [match result_of ?r with _ => _ end] =>
          destruct (result_of r); reflexivity
      end.
  - intros t rest.
    destruct (loop_body_shape refresh 1 (start - 60) t st0)
      as (pre & p & post & Hev & Hpre & Hpost).
    cbv zeta in Hev. rewrite Hnone in Hev. cbn in Hev.
    exists p. eexists. split; [|split].
    + rewrite Hev, List.filter_app. simpl.
      destruct (alerts_quiet pre 0 Hpre) as [_ H1].
      destruct (alerts_quiet post 0 Hpost) as [_ H2].
      unfold count_updates in H1, H2.
      apply length_zero_iff_nil in H1, H2. rewrite H1, H2. reflexivity.
    + rewrite Hev, List.filter_app. simpl.
      assert (forall l, forallb quiet l = true -> List.filter is_alert l = [])
        as Hq.
      { induction l as [|e l IH]; simpl; [auto|].
        intros [He Hl]%andb_true_iff.
        destruct e; try discriminate; simpl; auto. }
      rewrite (Hq pre Hpre), (Hq post Hpost). reflexivity.
    + unfold _monitoring_loop.
      rewrite events_of_try_except, events_of_bind. cbn [iterate].
      rewrite events_of_bind, <- !app_assoc. reflexivity.
Qed.

(** ** The sentiment cache *)

(** The order of [sorted] on strings is a total order. *)
Lemma ascii_compare_lt_trans a b c :
  Ascii.compare a b = Lt -> Ascii.compare b c = Lt -> Ascii.compare a c = Lt.
Proof.
  unfold Ascii.compare. rewrite !N.compare_lt_iff. apply N.lt_trans.
Qed.

Lemma string_compare_lt_trans s1 : forall s2 s3,
  String.compare s1 s2 = Lt -> String.compare s2 s3 = Lt ->
  String.compare s1 s3 = Lt.
Proof.
  induction s1 as [|a s1 IH]; intros [|b s2] [|c s3]; simpl;
    try discriminate; auto.
  destruct (Ascii.compare a b) eqn:Hab; try discriminate;
    destruct (Ascii.compare b c) eqn:Hbc; try discriminate.
  - apply Ascii.compare_eq_iff in Hab, Hbc. subst.
    assert (Ascii.compare c c = Eq) as ->.
    { unfold Ascii.compare. apply N.compare_refl. }
    apply IH.
  - apply Ascii.compare_eq_iff in Hab. subst. rewrite Hbc. reflexivity.
  - apply Ascii.compare_eq_iff in Hbc. subst. rewrite Hab. reflexivity.
  - rewrite (ascii_compare_lt_trans a b c Hab Hbc). reflexivity.
Qed.

#[global] Instance str_le_trans : Transitive str_le.
Proof.
  intros s1 s2 s3. unfold str_le, String.leb.
  destruct (String.compare s1 s2) eqn:H12; try discriminate;
    destruct (String.compare s2 s3) eqn:H23; try discriminate; intros _ _.
  - apply String.compare_eq_iff in H12. subst. rewrite H23. reflexivity.
  - apply String.compare_eq_iff in H12. subst. rewrite H23. reflexivity.
  - apply String.compare_eq_iff in H23. subst. rewrite H12. reflexivity.
  - rewrite (string_compare_lt_trans s1 s2 s3 H12 H23). reflexivity.
Qed.

#[global] Instance str_le_antisym : AntiSymm eq str_le.
Proof. intros s1 s2. apply String.leb_antisym. Qed.

#[global] Instance str_le_total : Total str_le.
Proof. intros s1 s2. apply String.leb_total. Qed.

Section Cache.

Variable hash : list string -> Z.

(** The fingerprint does not depend on the order of the headlines. *)
Lemma cache_key_permutation (l1 l2 : list string) :
  l1 ≡ₚ l2 -> cache_key hash l1 = cache_key hash l2.
Proof.
  intros Hperm. unfold cache_key. f_equal.
  apply (Sorted_unique str_le); try apply Sorted_merge_sort; try apply _.
  rewrite !merge_sort_Permutation. exact Hperm.
Qed.

(** A call that asks the endpoint and gets a response stores its result. *)
Lemma call_deepseek_for_analysis_stores st t headlines a b c :
  requests
    (events_of
       (call_deepseek_for_analysis hash t headlines (Response a b c) st))
  <> [] ->
  call_deepseek_for_analysis hash t headlines (Response a b c) st =
  (Return (parsed_analysis a b c),
   set_news_cache
     (<[cache_key hash headlines := (t, parsed_analysis a b c)]>
        (news_cache st)) st,
   [deepseek_request headlines]).
Proof.
  unfold call_deepseek_for_analysis, analyse.
  cbv beta iota delta [bind get emit modify ret].
  destruct (news_cache st !! cache_key hash headlines) as [[t0 data]|].
  - destruct (Py.ltb (t - t0) cache_expiry); [intros H; now elim H|].
    destruct (Py.truthy_str _); cbv beta iota delta [negb];
      [|intros H; now elim H].
    destruct headlines; [intros H; now elim H|]. reflexivity.
  - destruct (Py.truthy_str _); cbv beta iota delta [negb];
      [|intros H; now elim H].
    destruct headlines; [intros H; now elim H|]. reflexivity.
Qed.

(** A live entry short-circuits the call. *)
Lemma call_deepseek_for_analysis_hit st t headlines answer t0 data :
  news_cache st !! cache_key hash headlines = Some (t0, data) ->
  t - t0 < cache_expiry ->
  call_deepseek_for_analysis hash t headlines answer st = (Return data, st, []).
Proof.
  intros Hlook Hlive%ltb_lt. unfold call_deepseek_for_analysis.
  cbv beta iota delta [bind get]. rewrite Hlook, Hlive. reflexivity.
Qed.

(** C6, amended.  When a call of the sentiment analysis asks the completion
    endpoint and gets a response, a second call less than 3600 seconds later
    with the same headlines in any order, on a tracker with the cache the
    first call left, returns the tuple of the first call, emits nothing (so
    asks nothing) and leaves the tracker as it is. *)
Theorem cached_analysis_is_reused :
  forall st st' t1 t2 headlines1 headlines2 a b c answer2,
    let run1 :=
      call_deepseek_for_analysis hash t1 headlines1 (Response a b c) st in
    let run2 := call_deepseek_for_analysis hash t2 headlines2 answer2 st' in
    requests (events_of run1) <> [] ->
    news_cache st' = news_cache (state_of run1) ->
    headlines1 ≡ₚ headlines2 ->
    t2 - t1 < 3600 ->
    result_of run2 = result_of run1
    /\ events_of run2 = []
    /\ state_of run2 = st'.
Proof.
  intros st st' t1 t2 headlines1 headlines2 a b c answer2 run1 run2
    Hasked Hcache Hperm Httl.
  unfold run1 in *. clear run1.
  rewrite (call_deepseek_for_analysis_stores st t1 headlines1 a b c Hasked)
    in *.
  unfold run2. clear run2.
  rewrite (call_deepseek_for_analysis_hit st' t2 headlines2 answer2 t1
             (parsed_analysis a b c)).
  - repeat split.
  - rewrite Hcache, <- (cache_key_permutation headlines1 headlines2 Hperm).
    unfold state_of. simpl. apply lookup_insert_eq.
  - exact Httl.
Qed.

End Cache.

(** An analysis answered at time 0 is reused at time 3599 for the same two
    headlines in the other order. *)
Lemma cached_analysis_scenario :
  let run1 :=
    call_deepseek_for_analysis scenario_hash 0 ["b"; "a"]
      (Response (Some "positive") (Some 0.7) (Some "summary"))
      (init scenario_config) in
  let run2 :=
    call_deepseek_for_analysis scenario_hash 3599 ["a"; "b"]
      (RequestException "down") (state_of run1) in
  result_of run2 = result_of run1 /\ events_of run2 = [].
Proof.
  cbv zeta.
  destruct (cached_analysis_is_reused scenario_hash (init scenario_config)
              (state_of
                 (call_deepseek_for_analysis scenario_hash 0 ["b"; "a"]
                    (Response (Some "positive") (Some 0.7) (Some "summary"))
                    (init scenario_config)))
              0 3599 ["b"; "a"] ["a"; "b"]
              (Some "positive") (Some 0.7) (Some "summary")
              (RequestException "down")) as (H1 & H2 & _).
  - vm_compute. discriminate.
  - reflexivity.
  - apply perm_swap.
  - vm_compute. reflexivity.
  - split; assumption.
Defined.

(** C6, as the specification states it, fails: when the endpoint is down at
    the first call nothing is cached, and the second call one second later
    with the same headlines asks it again and returns another tuple. *)
Lemma failed_analysis_is_not_cached :
  let run1 :=
    call_deepseek_for_analysis scenario_hash 0 ["a"]
      (RequestException "down") (init scenario_config) in
  let run2 :=
    call_deepseek_for_analysis scenario_hash 1 ["a"]
      (Response (Some "positive") (Some 0.7) (Some "summary"))
      (state_of run1) in
  1 - 0 < cache_expiry
  /\ requests (events_of run2) = [["a"]]
  /\ result_of run2 <> result_of run1.
Proof.
  cbv zeta. split; [reflexivity|]. split; [vm_compute; reflexivity|].
  vm_compute. intros H. discriminate H.
Qed.

(** A session of two samples, 100 then 102, on a tracker connected to the
    exchange: the second sample raises the alert for the jump of 2 %. *)
Example two_samples_one_alert :
  let tick price now :=
    {| t_now := now; t_ticker := inr price; t_change := 0;
       t_klines_stop := no_klines; t_klines_closed := no_klines;
       t_klines_check := no_klines; t_klines_trade := no_klines |} in
  let st0 := state_of (start_monitoring false 1 5 scenario_holding) in
  let evs :=
    events_of (_monitoring_loop 5 0 [tick 100 0; tick 102 5] true no_klines
                 st0) in
  count_updates evs = 2%nat
  /\ length (List.filter is_alert evs) = 1%nat
  /\ alerts_after_two_samples 0 evs = true.
Proof. vm_compute. repeat split. Qed.

(** * Further properties *)

(** ** Signals *)

(** Every frame of at least two rows ends with two rows. *)
Lemma last_two_rows (df : DataFrame) :
  (2 <= length df)%nat ->
  exists rows prev latest, df = rows ++ [prev; latest].
Proof.
  intros Hlen.
  destruct (rev df) as [|latest [|prev rest]] eqn:Hrev.
  - apply (f_equal (@length _)) in Hrev. rewrite length_rev in Hrev.
    simpl in Hrev. lia.
  - apply (f_equal (@length _)) in Hrev. rewrite length_rev in Hrev.
    simpl in Hrev. lia.
  - exists (rev rest), prev, latest.
    rewrite <- (rev_involutive df), Hrev. simpl.
    rewrite <- app_assoc. reflexivity.
Qed.

(** A frame that is too short, or whose last rows lack an indicator, is
    answered with no signal and no emission. *)
Lemma check_signals_short_run df st :
  (length df < 26)%nat -> check_signals df st = (Return None, st, []).
Proof.
  intros Hlen. unfold check_signals.
  assert ((length df <? 26)%nat = true) as -> by (apply Nat.ltb_lt, Hlen).
  rewrite orb_true_r. reflexivity.
Qed.

Lemma check_signals_null_run rows prev latest st :
  required_indicators latest prev = None ->
  check_signals (rows ++ [prev; latest]) st = (Return None, st, []).
Proof.
  intros Hreq. unfold check_signals.
  destruct (_ || _); [reflexivity|].
  rewrite rev_last_two, Hreq. reflexivity.
Qed.

(** X1.  On a frame of at least 26 rows whose last two rows have the
    required indicators, and with a sentiment factor of 0, [check_signals]
    returns SELL exactly when the technical SELL condition holds: the short
    average crosses below the long one, the RSI is above 50 and the MACD
    line crosses below its signal.  BUY and SELL exclude each other. *)
Theorem check_signals_sell_iff_technical :
  forall rows prev latest i st,
    let df := rows ++ [prev; latest] in
    (26 <= length df)%nat ->
    required_indicators latest prev = Some i ->
    sentiment_factor st == 0 ->
    (result_of (check_signals df st) = Return (Some SELL)
     <-> (i_prev_ma25 i <= i_prev_ma5 i /\ i_ma5 i < i_ma25 i)
         /\ 50 < i_rsi i
         /\ (i_prev_macd_sig i <= i_prev_macd_val i
             /\ i_macd_val i < i_macd_sig i))
    /\ (buy_signal_tech i && sell_signal_tech i = false).
Proof.
  intros rows prev latest i st df Hlen Hreq Hsf.
  assert (buy_signal_tech i && sell_signal_tech i = false) as Hexcl.
  { apply not_true_iff_false. rewrite andb_true_iff.
    rewrite buy_signal_tech_true, sell_signal_tech_true.
    intros [[[_ H1] _] [[_ H2] _]]. lra. }
  split; [|exact Hexcl].
  rewrite <- sell_signal_tech_true.
  unfold df. rewrite (check_signals_run rows prev latest i st Hlen Hreq).
  unfold final_buy_threshold, final_sell_threshold, buy_score, sell_score.
  destruct (sell_signal_tech i) eqn:Hsell.
  - rewrite andb_true_r in Hexcl. rewrite Hexcl.
    assert (Py.geb (0 + sentiment_factor st) 0.6 = false) as ->.
    { apply not_true_iff_false. rewrite geb_le. lra. }
    assert (Py.leb (-1 - sentiment_factor st) (-0.6) = true) as ->.
    { apply leb_le. lra. }
    split; reflexivity.
  - assert (Py.leb (0 - sentiment_factor st) (-0.6) = false) as ->.
    { apply not_true_iff_false. rewrite leb_le. lra. }
    destruct (Py.geb _ _); split; discriminate.
Qed.

(** With no sentiment, the double downward crossover with an RSI of 60 gives
    SELL. *)
Lemma check_signals_sell_scenario :
  result_of (check_signals fall_frame (init scenario_config))
  = Return (Some SELL).
Proof.
  destruct (check_signals_sell_iff_technical (repeat blank_row 24)
              row_before_fall row_after_fall fall_indicators
              (init scenario_config)) as [[_ H] _];
    [simpl; lia | reflexivity | reflexivity |].
  apply H. vm_compute. repeat split; discriminate.
Defined.

(** [int] of a rational that is not negative is its floor. *)
Lemma int_floor q : 0 <= q -> Py.int q = Qfloor q.
Proof.
  destruct q as [n d]. unfold Qle, Py.int, Qfloor. simpl. intros H.
  apply Z.quot_div_nonneg; lia.
Qed.

Lemma int_nonneg q : 0 <= q -> (0 <= Py.int q)%Z.
Proof.
  intros H. rewrite (int_floor q H).
  change 0%Z with (Qfloor 0). apply Qfloor_resp_le, H.
Qed.

Lemma int_below q (z : Z) : 0 <= q -> q < inject_Z z -> (Py.int q < z)%Z.
Proof.
  intros H0 Hlt. rewrite (int_floor q H0).
  apply Z.nle_gt. intros Hle.
  assert (inject_Z z <= q) as H.
  { eapply Qle_trans; [|apply Qfloor_le].
    rewrite <- Zle_Qle. exact Hle. }
  lra.
Qed.

Lemma int_min_100_bounds x : 0 <= x -> (0 <= int_min_100 x <= 100)%Z.
Proof.
  intros Hx. unfold int_min_100.
  destruct (Py.ltb x 100) eqn:Hlt; [|lia].
  apply ltb_lt in Hlt. pose proof (int_nonneg x Hx).
  pose proof (int_below x 100 Hx Hlt). lia.
Qed.

Lemma confidence_bounds st i : (0 <= confidence st i <= 100)%Z.
Proof.
  unfold confidence. destruct (_ || _); [|lia].
  apply int_min_100_bounds.
  set (total := if Py.gtb _ _ then _ else _).
  set (factors := 1 + (if Py.truthy_str _ then 1 else 0)).
  assert (0 < factors * 2) as Hf.
  { unfold factors. destruct (Py.truthy_str _); reflexivity. }
  apply Qmult_le_0_compat; [|discriminate].
  apply Qle_shift_div_l; [exact Hf|].
  rewrite Qmult_0_l. apply Qabs_nonneg.
Qed.

Lemma neutrality_score_bounds st i : (20 <= neutrality_score st i <= 100)%Z.
Proof.
  unfold neutrality_score.
  assert (0 <= Py.int (Qabs (buy_score st i - sell_score st i) * 50))%Z.
  { apply int_nonneg, Qmult_le_0_compat; [apply Qabs_nonneg | discriminate]. }
  lia.
Qed.

(** X2.  Whatever the frame and the tracker, every signal status
    [check_signals] emits carries a confidence between 0 and 100, and a
    NEUTRAL one a confidence of at least 20. *)
Theorem check_signals_confidence_range :
  forall df st t r c,
    In (t, r, c) (status_events (events_of (check_signals df st))) ->
    (0 <= c <= 100)%Z /\ (t = ST_NEUTRAL -> (20 <= c)%Z).
Proof.
  intros df st t r c.
  destruct (Nat.lt_ge_cases (length df) 26) as [Hshort|Hlen].
  { rewrite check_signals_short_run by assumption. intros []. }
  destruct (last_two_rows df) as (rows & prev & latest & ->); [lia|].
  destruct (required_indicators latest prev) as [i|] eqn:Hreq;
    [|rewrite check_signals_null_run by assumption; intros []].
  rewrite (check_signals_run rows prev latest i st Hlen Hreq).
  pose proof (confidence_bounds st i) as Hc.
  pose proof (neutrality_score_bounds st i) as Hn.
  destruct (Py.geb _ _); [|destruct (Py.leb _ _)]; simpl;
    (intros [[= <- <- <-]|[]]); split; try discriminate; lia.
Qed.

(** The BUY of the crossover frame under a positive sentiment is sent with a
    confidence of 33. *)
Lemma check_signals_confidence_range_scenario :
  (0 <= 33 <= 100)%Z.
Proof.
  apply (check_signals_confidence_range (crossover_frame 40) scenario_positive
           ST_BUY (RecBuy (10 * (1 - 5 / 100))) 33).
  vm_compute. left. reflexivity.
Defined.

(** ** Positions *)




(** X4.  From a flat tracker, a BUY at a nonzero price opens the position
    at that price, a second BUY changes nothing and emits nothing, and a
    SELL then closes the position and clears the entry price: the trace
    holds the first BUY and the SELL only. *)
Theorem buy_buy_sell :
  forall st kl p1 p2 p3,
    position st = None ->
    ~ p1 == 0 -> ~ p3 == 0 ->
    let r1 := execute_trade kl (Some BUY) (Some p1) st in
    let r2 := execute_trade kl (Some BUY) p2 (state_of r1) in
    let r3 := execute_trade kl (Some SELL) (Some p3) (state_of r2) in
    entry_price (state_of r1) = Some p1
    /\ position (state_of r1) = Some LONG
    /\ state_of r2 = state_of r1
    /\ events_of r2 = []
    /\ position (state_of r3) = None
    /\ entry_price (state_of r3) = None
    /\ trade_events (events_of r1 ++ events_of r2 ++ events_of r3)
       = [(BUY, p1); (SELL, p3)].
Proof.
  intros st kl p1 p2 p3 Hflat Hp1 Hp3. cbv zeta.
  rewrite (execute_trade_buy_run kl p1 st Hflat Hp1).
  unfold state_of, events_of. simpl fst. simpl snd.
  rewrite (execute_trade_skip_run kl (Some BUY) p2) by (destruct p2; exact I).
  simpl fst. simpl snd.
  rewrite (execute_trade_sell_run kl p3) by (auto; reflexivity).
  simpl fst. simpl snd.
  assert (forall l, forallb plain l = true -> trade_events l = []) as Hplain.
  { induction l as [|e l IH]; [reflexivity|]. simpl.
    intros [He Hl]%andb_true_iff. destruct e; try discriminate; auto. }
  repeat split.
  cbn [app trade_events].
  assert (forall l1 l2, trade_events (l1 ++ l2)
                        = trade_events l1 ++ trade_events l2) as Happ.
  { induction l1 as [|e l1 IH]; intros l2; [reflexivity|].
    destruct e; simpl; rewrite ?IH; reflexivity. }
  rewrite Happ. cbn [trade_events].
  rewrite !(Hplain _ (chart_events_plain kl)). reflexivity.
Qed.

(** A purchase at 100, a second one at 90 and a sale at 95 on a fresh
    tracker. *)
Lemma buy_buy_sell_scenario :
  let r1 := execute_trade no_klines (Some BUY) (Some 100)
              (init scenario_config) in
  let r2 := execute_trade no_klines (Some BUY) (Some 90) (state_of r1) in
  let r3 := execute_trade no_klines (Some SELL) (Some 95) (state_of r2) in
  entry_price (state_of r2) = Some 100
  /\ trade_events (events_of r1 ++ events_of r2 ++ events_of r3)
     = [(BUY, 100); (SELL, 95)].
Proof.
  destruct (buy_buy_sell (init scenario_config) no_klines 100 (Some 90) 95)
    as (H1 & _ & H3 & _ & _ & _ & H7);
    [reflexivity | vm_compute; discriminate | vm_compute; discriminate |].
  cbv zeta. rewrite H3. split; assumption.
Defined.

(** X5.  The monitoring loop never emits a SELL: its iterations evaluate
    the signals only while flat and trade BUY signals only, so a position
    the loop holds is closed by a stop-loss or a take-profit, never by a
    SELL signal. *)
Theorem loop_never_sells :
  forall refresh start ticks stop_flag final st,
    forallb (fun e => negb (is_sell e))
      (events_of (_monitoring_loop refresh start ticks stop_flag final st))
    = true.
Proof.
  intros refresh start ticks stop_flag final st.
  apply (respects_monitoring_loop never_sells); unfold never_sells.
  - reflexivity.
  - intros _ e1 _ e2 _ H1 H2. rewrite forallb_app, H1, H2. reflexivity.
  - reflexivity.
  - intros _ e He. simpl. rewrite andb_true_r.
    destruct e; try discriminate; reflexivity.
  - reflexivity.
  - reflexivity.
  - reflexivity.
  - reflexivity.
Qed.

(** A price fetch returns a price, leaves the position and the entry price
    alone and reports at most errors. *)
Lemma get_latest_price_idle ticker change st :
  exists p st' ev,
    get_latest_price ticker change st = (Return p, st', ev)
    /\ position st' = position st
    /\ entry_price st' = entry_price st
    /\ forallb idle ev = true.
Proof.
  assert (exists p st',
             _get_simulated_price change st = (Return p, st', [])
             /\ position st' = position st
             /\ entry_price st' = entry_price st)
    as (p & st' & Hsim & Hpos & Hentry).
  { destruct (last_simulated_price st) as [last|] eqn:Hlast.
    - rewrite (get_simulated_price_next change st last Hlast).
      do 2 eexists. repeat split.
    - rewrite (get_simulated_price_first change st Hlast).
      do 2 eexists. repeat split. }
  unfold get_latest_price. cbv beta iota delta [bind get emit ret].
  destruct (client st); cbv beta iota delta [negb].
  - destruct ticker as [msg|price].
    + rewrite Hsim. do 3 eexists. repeat split; assumption.
    + do 3 eexists. repeat split.
  - rewrite Hsim. do 3 eexists. repeat split; assumption.
Qed.

Lemma errors_idle l : forallb idle (map monitoring_error l) = true.
Proof. induction l; [reflexivity | assumption]. Qed.

Lemma loop_trading_unmanaged refresh iteration last_kline_time t price alert
    st :
  position st = Some LONG -> entry_price st = None ->
  let r := loop_trading refresh iteration last_kline_time t price alert st in
  forallb idle (events_of r) = true
  /\ position (state_of r) = Some LONG
  /\ entry_price (state_of r) = None.
Proof.
  intros Hpos Hentry. unfold loop_trading.
  cbv beta iota delta [bind get]. rewrite Hpos. cbn [is_some].
  rewrite check_stop_conditions_skip_run by auto.
  unfold py_div. destruct (Qeq_bool (inject_Z refresh) 0).
  - cbv. auto.
  - cbv beta iota delta [ret]. 
    destruct (_ || _ || _).
    + rewrite get_klines_run. destruct (df_empty _); cbn [negb].
      * cbv beta iota delta [modify events_of state_of fst snd].
        cbn [app]. rewrite ?app_nil_r, forallb_app, errors_idle. auto.
      * cbv beta iota delta [emit modify events_of state_of fst snd].
        rewrite Hpos. cbn [is_some fst snd].
        cbn [app]. rewrite !forallb_app, errors_idle. auto.
    + cbv. auto.
Qed.

Lemma loop_body_unmanaged refresh iteration last_kline_time t st :
  position st = Some LONG -> entry_price st = None ->
  let r := loop_body refresh iteration last_kline_time t st in
  forallb idle (events_of r) = true
  /\ position (state_of r) = Some LONG
  /\ entry_price (state_of r) = None.
Proof.
  intros Hpos Hentry.
  destruct (get_latest_price_idle (t_ticker t) (t_change t) st)
    as (p & st' & pre & Hrun & Hpos' & Hentry' & Hpre).
  rewrite Hpos in Hpos'. rewrite Hentry in Hentry'.
  cbv zeta. unfold loop_body. cbv beta iota delta [bind get emit].
  rewrite Hrun.
  set (alert := price_alert _ _ _).
  pose proof (loop_trading_unmanaged refresh iteration last_kline_time t p
                alert st' Hpos' Hentry') as H.
  cbv zeta in H. revert H.
  destruct alert; cbn [when]; cbv beta iota delta [emit ret];
    destruct (loop_trading _ _ _ _ _ _ _) as [[o st2] ev2];
    cbv beta iota delta [events_of state_of fst snd];
    intros (H1 & H2 & H3); rewrite !forallb_app, Hpre, H1; auto.
Qed.

Lemma iterate_unmanaged refresh ticks : forall iteration last_kline_time st,
  position st = Some LONG -> entry_price st = None ->
  let r := iterate refresh iteration last_kline_time ticks st in
  forallb idle (events_of r) = true
  /\ position (state_of r) = Some LONG
  /\ entry_price (state_of r) = None.
Proof.
  induction ticks as [|t ticks IH]; intros iteration last_kline_time st
    Hpos Hentry; cbv zeta; [cbv; auto|].
  cbn [iterate]. cbv zeta.
  pose proof (loop_body_unmanaged refresh (iteration + 1) last_kline_time t st
                Hpos Hentry) as H.
  cbv zeta in H. revert H. unfold bind.
  destruct (loop_body _ _ _ _ _) as [[[lk|e] st1] ev1];
    cbv beta iota delta [events_of state_of fst snd]; [|auto].
  intros (H1 & H2 & H3).
  specialize (IH (iteration + 1)%Z lk st1 H2 H3). cbv zeta in IH. revert IH.
  destruct (iterate _ _ _ _ _) as [[o st2] ev2].
  cbv beta iota delta [events_of state_of fst snd].
  intros (H4 & H5 & H6). rewrite forallb_app, H1, H4. auto.
Qed.

(** X6.  A position the tracker only inferred from the account balance
    (long, with no entry price) is not managed by the monitoring loop:
    whatever the prices and the K-lines, the loop emits no trade, no stop
    and no signal status, and the tracker is still long without an entry
    price when the loop ends. *)
Theorem inferred_long_is_unmanaged :
  forall refresh start ticks stop_flag final st,
    position st = Some LONG -> entry_price st = None ->
    let r := _monitoring_loop refresh start ticks stop_flag final st in
    forallb idle (events_of r) = true
    /\ position (state_of r) = Some LONG
    /\ entry_price (state_of r) = None.
Proof.
  intros refresh start ticks stop_flag final st Hpos Hentry. cbv zeta.
  unfold _monitoring_loop, try_except, bind.
  pose proof (iterate_unmanaged refresh ticks 0 (start - 60) st Hpos Hentry)
    as H.
  cbv zeta in H. revert H.
  destruct (iterate _ _ _ _ _) as [[[[]|e] st1] ev1];
    cbv beta iota delta [events_of state_of fst snd];
    intros (H1 & H2 & H3).
  - destruct stop_flag.
    + cbv beta iota delta [ret]. rewrite app_nil_r. auto.
    + rewrite get_klines_run, emit_chart_run. cbv beta iota delta [emit].
      rewrite !forallb_app, H1, errors_idle.
      destruct (df_empty _); auto.
  - cbv beta iota delta [emit]. rewrite forallb_app, H1. auto.
Qed.

Lemma inferred_long_is_unmanaged_scenario :
  position scenario_holding = Some LONG
  /\ entry_price scenario_holding = None
  /\ forallb idle
       (events_of (_monitoring_loop 5 0 [crash_tick; crash_tick] false
                     no_klines scenario_holding)) = true
  /\ position (state_of (_monitoring_loop 5 0 [crash_tick; crash_tick] false
                           no_klines scenario_holding)) = Some LONG
  /\ entry_price (state_of (_monitoring_loop 5 0 [crash_tick; crash_tick]
                              false no_klines scenario_holding)) = None.
Proof.
  split; [reflexivity|]. split; [reflexivity|].
  apply (inferred_long_is_unmanaged 5 0 [crash_tick; crash_tick] false
           no_klines scenario_holding); reflexivity.
Defined.

(** X7.  Reading the account balance never closes a position and never
    touches the entry price: after [check_account_balance], and after
    [initialize], which calls it, the position is what it was or long, and
    the entry price is what it was, whatever the exchange answers. *)
Theorem balance_never_closes :
  forall cfg connect answer ticker change st,
    let r := check_account_balance answer ticker change st in
    let r' := initialize cfg connect answer ticker change st in
    ((position (state_of r) = position st
      \/ position (state_of r) = Some LONG)
     /\ entry_price (state_of r) = entry_price st)
    /\ ((position (state_of r') = position st
         \/ position (state_of r') = Some LONG)
        /\ entry_price (state_of r') = entry_price st).
Proof.
  intros cfg connect answer ticker change st. cbv zeta.
  assert (forall s, stays_long s [] s) as Hrefl by (split; auto).
  assert (forall s1 e1 s2 e2 s3,
             stays_long s1 e1 s2 -> stays_long s2 e2 s3 ->
             stays_long s1 (e1 ++ e2) s3) as Htrans.
  { intros s1 e1 s2 e2 s3 [H1 H2] [H3 H4]. split; [|congruence].
    destruct H3 as [H3|H3]; [|auto]. rewrite H3. exact H1. }
  assert (forall s s', position s' = position s ->
                       entry_price s' = entry_price s ->
                       stays_long s [] s') as Hframe by (split; auto).
  assert (forall s e, plain e = true -> stays_long s [e] s) as Hplain
      by (split; auto).
  assert (forall s, stays_long s [] (set_position (Some LONG) s)) as Hinfer
      by (split; auto).
  split.
  - apply (respects_check_account_balance stays_long); assumption.
  - apply (respects_initialize stays_long); assumption.
Qed.

(** ** Attributes a method leaves alone

    A relation [P] between trackers that is reflexive and transitive holds
    between the tracker before and after a method as soon as it holds of
    the assignments the method can make. *)

Section Frame.

Variable P : Tracker -> Tracker -> Prop.

Hypothesis P_refl : forall st, P st st.
Hypothesis P_trans : forall s1 s2 s3, P s1 s2 -> P s2 s3 -> P s1 s3.

Lemma frames_ret {A} (a : A) : frames P (ret a).
Proof. intros st. apply P_refl. Qed.

Lemma frames_raise {A} e : frames P (@raise A e).
Proof. intros st. apply P_refl. Qed.

Lemma frames_get : frames P get.
Proof. intros st. apply P_refl. Qed.

Lemma frames_emit e : frames P (emit e).
Proof. intros st. apply P_refl. Qed.

Lemma frames_bind {A B} (m : M A) (k : A -> M B) :
  frames P m -> (forall a, frames P (k a)) -> frames P (bind m k).
Proof.
  intros Hm Hk st. specialize (Hm st). unfold bind.
  destruct (m st) as [[[a|e] st1] ev1]; [|exact Hm].
  specialize (Hk a st1). destruct (k a st1) as [[o st2] ev2].
  eapply P_trans; [exact Hm | exact Hk].
Qed.

Lemma frames_try_except {A} (m : M A) h :
  frames P m -> (forall e, frames P (h e)) -> frames P (try_except m h).
Proof.
  intros Hm Hh st. specialize (Hm st). unfold try_except.
  destruct (m st) as [[[a|e] st1] ev1]; [exact Hm|].
  specialize (Hh e st1). destruct (h e st1) as [[o st2] ev2].
  eapply P_trans; [exact Hm | exact Hh].
Qed.

Lemma frames_when b m : frames P m -> frames P (when b m).
Proof. intros Hm. destruct b; [exact Hm | apply frames_ret]. Qed.

Lemma frames_modify f : (forall st, P st (f st)) -> frames P (modify f).
Proof. intros Hf st. apply Hf. Qed.

Lemma frames_emit_all l : frames P (emit_all l).
Proof.
  induction l as [|e l IH]; simpl; [apply frames_ret|].
  apply frames_bind; [apply frames_emit | intros _; exact IH].
Qed.

Lemma frames_py_div x y : frames P (py_div x y).
Proof.
  unfold py_div. destruct (Qeq_bool y 0);
    [apply frames_raise | apply frames_ret].
Qed.

Hypothesis P_previous_price : forall v st, P st (set_previous_price v st).
Hypothesis P_entry_price : forall v st, P st (set_entry_price v st).
Hypothesis P_position : forall v st, P st (set_position v st).
Hypothesis P_last_simulated_price :
  forall v st, P st (set_last_simulated_price v st).

(** One step of a proof that a method keeps [P]. *)
Ltac frames_step :=
  match goal with
  | |- frames _ (ret _) => apply frames_ret
  | |- frames _ (raise _) => apply frames_raise
  | |- frames _ get => apply frames_get
  | |- frames _ (bind _ _) => apply frames_bind; [|intros ?]
  | |- frames _ (try_except _ _) => apply frames_try_except; [|intros ?]
  | |- frames _ (when _ _) => apply frames_when
  | |- frames _ (emit _) => apply frames_emit
  | |- frames _ (emit_all _) => apply frames_emit_all
  | |- frames _ (modify _) =>
      apply frames_modify; intros ?;
      first [ apply P_previous_price | apply P_entry_price
            | apply P_position | apply P_last_simulated_price ]
  | |- frames _ (py_div _ _) => apply frames_py_div
  | |- frames _ (if ?b then _ else _) => destruct b
  | |- frames _ (match ?x with _ => _ end) => destruct x
  | |- frames _ (let '(_, _) := ?x in _) => destruct x
  end.

Lemma frames_get_klines k : frames P (get_klines k).
Proof. unfold get_klines. repeat frames_step. Qed.

Lemma frames_emit_chart df : frames P (emit_chart df).
Proof. unfold emit_chart. repeat frames_step. Qed.

Lemma frames_get_simulated_price change :
  frames P (_get_simulated_price change).
Proof. unfold _get_simulated_price. repeat frames_step. Qed.

Lemma frames_get_latest_price ticker change :
  frames P (get_latest_price ticker change).
Proof.
  unfold get_latest_price.
  repeat first [apply frames_get_simulated_price | frames_step].
Qed.

Lemma frames_check_signals df : frames P (check_signals df).
Proof. unfold check_signals. repeat frames_step. Qed.

Lemma frames_execute_trade kl signal price :
  frames P (execute_trade kl signal price).
Proof.
  unfold execute_trade.
  repeat first [apply frames_get_klines | apply frames_emit_chart
               | frames_step].
Qed.

Lemma frames_check_stop_conditions kl current_price :
  frames P (check_stop_conditions kl current_price).
Proof.
  unfold check_stop_conditions.
  repeat first [apply frames_get_klines | apply frames_emit_chart
               | frames_step].
Qed.

Lemma frames_start_monitoring running duration refresh :
  frames P (start_monitoring running duration refresh).
Proof. unfold start_monitoring. repeat frames_step. Qed.

Lemma frames_loop_trading refresh iteration last_kline_time t price alert :
  frames P (loop_trading refresh iteration last_kline_time t price alert).
Proof.
  unfold loop_trading.
  repeat first
    [ apply frames_check_stop_conditions
    | apply frames_get_klines
    | apply frames_emit_chart
    | apply frames_check_signals
    | apply frames_execute_trade
    | frames_step ].
Qed.

Lemma frames_loop_body refresh iteration last_kline_time t :
  frames P (loop_body refresh iteration last_kline_time t).
Proof.
  unfold loop_body.
  repeat first
    [ apply frames_get_latest_price
    | apply frames_loop_trading
    | frames_step ].
Qed.

Lemma frames_iterate refresh ticks : forall iteration last_kline_time,
  frames P (iterate refresh iteration last_kline_time ticks).
Proof.
  induction ticks as [|t ticks IH]; intros iteration last_kline_time;
    cbn [iterate]; [apply frames_ret|].
  apply frames_bind; [apply frames_loop_body | intros lk; apply IH].
Qed.

Lemma frames_monitoring_loop refresh start ticks stop_flag final :
  frames P (_monitoring_loop refresh start ticks stop_flag final).
Proof.
  unfold _monitoring_loop.
  repeat first
    [ apply frames_iterate
    | apply frames_get_klines
    | apply frames_emit_chart
    | frames_step ].
Qed.

Hypothesis P_account_balance : forall v st, P st (set_account_balance v st).
Hypothesis P_account_value : forall v st, P st (set_account_value v st).

Lemma frames_check_account_balance answer ticker change :
  frames P (check_account_balance answer ticker change).
Proof.
  unfold check_account_balance.
  repeat first
    [ apply frames_get_latest_price
    | apply frames_modify; intros ?;
      first [apply P_account_balance | apply P_account_value]
    | frames_step ].
Qed.

Hypothesis P_config : forall v st, P st (set_config v st).
Hypothesis P_client : forall v st, P st (set_client v st).

Lemma frames_initialize cfg connect answer ticker change :
  frames P (initialize cfg connect answer ticker change).
Proof.
  unfold initialize.
  repeat first
    [ apply frames_check_account_balance
    | apply frames_modify; intros ?;
      first [apply P_config | apply P_client]
    | frames_step ].
Qed.

End Frame.

(** ** The sentiment the tracker holds *)

Lemma same_news_refl st : same_news st st.
Proof. repeat split. Qed.

Lemma same_news_trans s1 s2 s3 :
  same_news s1 s2 -> same_news s2 s3 -> same_news s1 s3.
Proof.
  intros (H1 & H2 & H3 & H4) (H5 & H6 & H7 & H8).
  repeat split; congruence.
Qed.

Section SentimentBounds.

Variable hash : list string -> Z.

(** Every call but the news pipeline leaves the sentiment, the processed
    news and the cache alone. *)
Lemma same_news_call c st :
  is_news c = false -> same_news st (fst (run_call hash c st)).
Proof.
  pose proof same_news_refl as Hr. pose proof same_news_trans as Ht.
  destruct c; cbn [run_call is_news fst]; intros Hc; try discriminate.
  - apply (frames_initialize same_news); auto; repeat split.
  - repeat split.
  - apply (frames_get_latest_price same_news); auto; repeat split.
  - apply (frames_check_signals same_news); auto.
  - apply (frames_execute_trade same_news); auto; repeat split.
  - apply (frames_check_stop_conditions same_news); auto; repeat split.
  - apply (frames_check_account_balance same_news); auto; repeat split.
  - apply (frames_start_monitoring same_news); auto; repeat split.
  - apply (frames_monitoring_loop same_news); auto; repeat split.
Qed.

Lemma score_ok_bounds x : score_ok x = true <-> -1 <= x /\ x <= 1.
Proof.
  unfold score_ok. rewrite andb_true_iff, !leb_le. reflexivity.
Qed.

Lemma parsed_analysis_score a b c :
  score_ok (snd (parsed_analysis a b c)) = true.
Proof.
  unfold parsed_analysis. cbn [snd]. apply score_ok_bounds.
  destruct b as [x|]; [|split; discriminate].
  split.
  - apply Q.le_max_l.
  - apply Q.max_lub; [discriminate | apply Q.le_min_l].
Qed.

Lemma same_news_bounded st st' :
  same_news st st' -> bounded_news st -> bounded_news st'.
Proof.
  intros (_ & H2 & _ & H4) [H5 H6]. unfold bounded_news.
  rewrite H2, H4. auto.
Qed.

(** The analysis returns a score within [-1, 1] and keeps the cached scores
    within it. *)
Lemma call_deepseek_for_analysis_bounded t headlines answer st :
  bounded_news st ->
  let r := call_deepseek_for_analysis hash t headlines answer st in
  bounded_news (state_of r)
  /\ sentiment_score (state_of r) = sentiment_score st
  /\ exists a, result_of r = Return a /\ score_ok (snd a) = true.
Proof.
  intros [Hs Hc]. cbv zeta.
  assert (let r := analyse (cache_key hash headlines) t headlines answer st in
          bounded_news (state_of r)
          /\ sentiment_score (state_of r) = sentiment_score st
          /\ exists a, result_of r = Return a /\ score_ok (snd a) = true)
    as Hanalyse.
  { unfold analyse. cbv beta iota delta [bind get emit modify ret].
    destruct (Py.truthy_str _); cbv beta iota delta [negb];
      [|cbv zeta; split; [split; assumption|split; [reflexivity|eauto]]].
    destruct headlines as [|h hs];
      [cbv zeta; split; [split; assumption|split; [reflexivity|eauto]]|].
    destruct answer as [msg|msg|msg|a b c];
      cbv beta iota zeta delta [result_of state_of events_of]; cbn [fst snd];
      try (split; [split; assumption|split; [reflexivity|eauto]]).
    split; [|split; [reflexivity|]].
    - split; [exact Hs|]. cbn [news_cache set_news_cache].
      apply map_Forall_insert_2; [|exact Hc].
      apply parsed_analysis_score.
    - exists (parsed_analysis a b c).
      split; [reflexivity|]. apply parsed_analysis_score. }
  cbv zeta in Hanalyse.
  unfold call_deepseek_for_analysis. cbv beta iota delta [bind get].
  destruct (news_cache st !! cache_key hash headlines) as [[t0 data]|] eqn:Hl;
    [|destruct (analyse _ _ _ _ _) as [[o st2] ev2]; exact Hanalyse].
  destruct (Py.ltb _ _);
    [|destruct (analyse _ _ _ _ _) as [[o st2] ev2]; exact Hanalyse].
  cbv beta iota zeta delta [ret result_of state_of]. cbn [fst snd].
  split; [split; assumption|]. split; [reflexivity|].
  exists data. split; [reflexivity|]. exact (Hc _ _ Hl).
Qed.

Lemma fetch_and_process_news_bounded gnews newsapi feeds t answer st :
  bounded_news st ->
  bounded_news
    (state_of (fetch_and_process_news hash gnews newsapi feeds t answer st)).
Proof.
  intros Hb. unfold fetch_and_process_news.
  cbv beta iota delta [bind get].
  destruct (news_enabled (config st)) eqn:Hen; cbv beta iota delta [negb];
    [|exact Hb].
  destruct (search_headlines_run (gnews_api_key (config st))
              "GNews API错误: " gnews_headline gnews st) as [e1 ->].
  destruct (search_headlines_run (newsapi_api_key (config st))
              "NewsAPI错误: " newsapi_headline newsapi st) as [e2 ->].
  rewrite (fetch_rss_news_run feeds st Hen).
  destruct (_ ++ _ ++ _) as [|h hs]; [destruct Hb; split; assumption|].
  destruct (call_deepseek_for_analysis_bounded t (fromkeys (h :: hs)) answer
              st Hb) as ([Hs Hc] & _ & a & Hres & Ha).
  revert Hs Hc Hres.
  destruct (call_deepseek_for_analysis _ _ _ _ _) as [[o st1] ev1].
  cbv beta iota delta [result_of state_of]. cbn [fst snd].
  intros Hs Hc ->. destruct a as [[news label] score].
  cbv beta iota delta [modify emit ret fst snd]. split; [exact Ha|exact Hc].
Qed.

Lemma bounded_news_calls cs : forall st,
  bounded_news st -> bounded_news (fst (run_calls hash cs st)).
Proof.
  induction cs as [|c cs IH]; intros st Hb; simpl; [exact Hb|].
  assert (bounded_news (fst (run_call hash c st))) as H1.
  { destruct (is_news c) eqn:Hc.
    - destruct c; try discriminate. cbn [run_call fst].
      apply fetch_and_process_news_bounded, Hb.
    - exact (same_news_bounded _ _ (same_news_call c st Hc) Hb). }
  destruct (run_call hash c st) as [st1 ev1].
  pose proof (IH st1 H1) as H2.
  destruct (run_calls hash cs st1) as [st2 ev2]. exact H2.
Qed.

(** The sentiment factor of a tracker with a bounded score is at most the
    weight in magnitude. *)
Lemma sentiment_factor_bounded st :
  score_ok (sentiment_score st) = true ->
  let w := Py.get_default (sentiment_influence_weight (config st)) 0.5 in
  0 <= w -> - w <= sentiment_factor st /\ sentiment_factor st <= w.
Proof.
  intros [H1 H2]%score_ok_bounds w Hw. unfold sentiment_factor.
  fold w. destruct (_ && _); [|lra].
  set (s := sentiment_score st) in *. clearbody s w. nra.
Qed.

Lemma tech_exclusive i : buy_signal_tech i && sell_signal_tech i = false.
Proof.
  apply not_true_iff_false. rewrite andb_true_iff.
  rewrite buy_signal_tech_true, sell_signal_tech_true.
  intros [[[_ H1] _] [[_ H2] _]]. lra.
Qed.

(** X8.  The sentiment score of a tracker built by any sequence of calls
    from a fresh one, and the score of every analysis in its cache, are
    within [-1, 1]; so the sentiment factor of the signal engine is at most
    the configured weight in magnitude, when that weight is not negative. *)
Theorem reachable_sentiment_bounded :
  forall st,
    reachable hash st ->
    bounded_news st
    /\ (0 <= Py.get_default (sentiment_influence_weight (config st)) 0.5 ->
        Qabs (sentiment_factor st)
        <= Py.get_default (sentiment_influence_weight (config st)) 0.5).
Proof.
  intros st (cfg & cs & <-).
  assert (bounded_news (fst (run_calls hash cs (init cfg)))) as Hb.
  { apply bounded_news_calls. split; [reflexivity|].
    cbn [news_cache init]. apply map_Forall_empty. }
  split; [exact Hb|]. intros Hw.
  destruct (sentiment_factor_bounded _ (proj1 Hb) Hw) as [H1 H2].
  apply Qabs_Qle_condition. split; assumption.
Qed.

(** X9.  Only the news pipeline changes the sentiment: a sequence of calls
    without [fetch_and_process_news] (trades, stops, balance checks, whole
    monitoring loops) leaves the sentiment label, the score, the processed
    news and the analysis cache as they were. *)
Theorem sentiment_only_from_news :
  forall cs st,
    forallb (fun c => negb (is_news c)) cs = true ->
    same_news st (fst (run_calls hash cs st)).
Proof.
  induction cs as [|c cs IH]; intros st; simpl; [intros _; apply same_news_refl|].
  intros [Hc Hcs]%andb_true_iff. apply negb_true_iff in Hc.
  pose proof (same_news_call c st Hc) as H1.
  destruct (run_call hash c st) as [st1 ev1].
  pose proof (IH st1 Hcs) as H2.
  destruct (run_calls hash cs st1) as [st2 ev2].
  exact (same_news_trans _ _ _ H1 H2).
Qed.

(** X10.  On a tracker built by any sequence of calls, with a sentiment
    weight in [0, 0.6) (the default is 0.5), and a frame of at least 26 rows
    whose last two rows have the required indicators: [check_signals]
    answers BUY exactly when the technical BUY holds and the sentiment
    factor is at least -0.4, and SELL exactly when the technical SELL holds
    and the sentiment factor is at least -0.4.  So the sentiment alone never
    gives a signal, and a factor below -0.4 withholds the BUY and the SELL
    alike. *)
Theorem check_signals_sentiment_thresholds :
  forall rows prev latest i st,
    let df := rows ++ [prev; latest] in
    let w := Py.get_default (sentiment_influence_weight (config st)) 0.5 in
    reachable hash st ->
    0 <= w -> w < 0.6 ->
    (26 <= length df)%nat ->
    required_indicators latest prev = Some i ->
    (result_of (check_signals df st) = Return (Some BUY)
     <-> buy_signal_tech i = true /\ -0.4 <= sentiment_factor st)
    /\ (result_of (check_signals df st) = Return (Some SELL)
        <-> sell_signal_tech i = true /\ -0.4 <= sentiment_factor st).
Proof.
  intros rows prev latest i st df w (cfg & cs & <-) Hw0 Hw1 Hlen Hreq.
  set (st := fst (run_calls hash cs (init cfg))) in *.
  assert (bounded_news st) as [Hs _].
  { apply bounded_news_calls. split; [reflexivity|].
    cbn [news_cache init]. apply map_Forall_empty. }
  destruct (sentiment_factor_bounded st Hs Hw0) as [Hf1 Hf2]. fold w in Hf1, Hf2.
  pose proof (tech_exclusive i) as Hexcl.
  unfold df. rewrite (check_signals_run rows prev latest i st Hlen Hreq).
  unfold final_buy_threshold, final_sell_threshold, buy_score, sell_score.
  set (f := sentiment_factor st) in *. clearbody f.
  destruct (buy_signal_tech i), (sell_signal_tech i); try discriminate.
  - destruct (Py.geb (1 + f) 0.6) eqn:Hb.
    + apply geb_le in Hb. split; split; try discriminate; try tauto.
      intros _. split; [reflexivity|lra]. intros [? _]; discriminate.
    + apply not_true_iff_false in Hb. rewrite geb_le in Hb.
      assert (Py.leb (0 - f) (-0.6) = false) as ->.
      { apply not_true_iff_false. rewrite leb_le. lra. }
      split; split; try discriminate.
      * intros [_ H]. lra.
      * intros [? _]; discriminate.
  - assert (Py.geb (0 + f) 0.6 = false) as ->.
    { apply not_true_iff_false. rewrite geb_le. lra. }
    destruct (Py.leb (-1 - f) (-0.6)) eqn:Hsell.
    + apply leb_le in Hsell. split; split; try discriminate.
      * intros [? _]; discriminate.
      * intros _. split; [reflexivity|lra].
      * reflexivity.
    + apply not_true_iff_false in Hsell. rewrite leb_le in Hsell.
      split; split; try discriminate.
      * intros [? _]; discriminate.
      * intros [_ H]. lra.
  - assert (Py.geb (0 + f) 0.6 = false) as ->.
    { apply not_true_iff_false. rewrite geb_le. lra. }
    assert (Py.leb (0 - f) (-0.6) = false) as ->.
    { apply not_true_iff_false. rewrite leb_le. lra. }
    split; split; try discriminate; intros [? _]; discriminate.
Qed.

End SentimentBounds.

(** After the positive analysis the score is 0.7 and the factor 0.35. *)
Lemma reachable_sentiment_bounded_scenario :
  reachable scenario_hash scenario_positive
  /\ bounded_news scenario_positive
  /\ Qabs (sentiment_factor scenario_positive) <= 0.5.
Proof.
  assert (reachable scenario_hash scenario_positive) as Hr.
  { eexists _, _. reflexivity. }
  split; [exact Hr|].
  destruct (reachable_sentiment_bounded scenario_hash scenario_positive Hr)
    as [Hb Hf].
  split; [exact Hb|]. apply Hf. vm_compute. discriminate.
Defined.

(** A purchase and a monitoring loop after the positive analysis leave it
    in place. *)
Lemma sentiment_only_from_news_scenario :
  same_news scenario_positive
    (fst (run_calls scenario_hash
            [Call_execute_trade no_klines (Some BUY) (Some 100);
             Call_monitoring_loop 5 0 [crash_tick] false no_klines]
            scenario_positive)).
Proof.
  apply (sentiment_only_from_news scenario_hash
           [Call_execute_trade no_klines (Some BUY) (Some 100);
            Call_monitoring_loop 5 0 [crash_tick] false no_klines]
           scenario_positive).
  reflexivity.
Defined.

(** On the upward crossover the positive analysis lets the BUY through and
    the negative one, with a factor of -0.45, withholds it. *)
Lemma check_signals_sentiment_scenario :
  result_of (check_signals (crossover_frame 45) scenario_positive)
  = Return (Some BUY)
  /\ result_of (check_signals (crossover_frame 45) scenario_negative)
     <> Return (Some BUY).
Proof.
  split.
  - apply (check_signals_sentiment_thresholds scenario_hash
             (repeat blank_row 24) row_before_cross (row_after_cross 45)
             (crossover_indicators 45) scenario_positive).
    + eexists _, _. reflexivity.
    + vm_compute. discriminate.
    + reflexivity.
    + simpl. lia.
    + reflexivity.
    + split; [reflexivity | vm_compute; discriminate].
  - intros H.
    apply (check_signals_sentiment_thresholds scenario_hash
             (repeat blank_row 24) row_before_cross (row_after_cross 45)
             (crossover_indicators 45) scenario_negative) in H.
    + destruct H as [_ H]. vm_compute in H. apply H. reflexivity.
    + eexists _, _. reflexivity.
    + vm_compute. discriminate.
    + reflexivity.
    + simpl. lia.
    + reflexivity.
Defined.

(** ** Edges of the monitoring loop *)

(** A price fetch reports errors only and leaves the attributes the loop
    reads alone. *)
Lemma get_latest_price_errors ticker change st :
  exists p st' msgs,
    get_latest_price ticker change st
    = (Return p, st', map monitoring_error msgs)
    /\ position st' = position st
    /\ previous_price st' = previous_price st
    /\ config st' = config st.
Proof.
  assert (exists p st',
             _get_simulated_price change st = (Return p, st', [])
             /\ position st' = position st
             /\ previous_price st' = previous_price st
             /\ config st' = config st)
    as (p & st' & Hsim & Hpos & Hprev & Hcfg).
  { destruct (last_simulated_price st) as [last|] eqn:Hlast.
    - rewrite (get_simulated_price_next change st last Hlast).
      do 2 eexists. repeat split.
    - rewrite (get_simulated_price_first change st Hlast).
      do 2 eexists. repeat split. }
  unfold get_latest_price. cbv beta iota delta [bind get emit ret].
  destruct (client st); cbv beta iota delta [negb].
  - destruct ticker as [msg|price].
    + rewrite Hsim. exists p, st'. eexists [_].
      repeat split; assumption.
    + exists price, st, []. repeat split.
  - rewrite Hsim. exists p, st'. eexists [_]. repeat split; assumption.
Qed.








(** ** The chain of price changes *)

Lemma chained_app l1 : forall prev l2,
  chained prev (l1 ++ l2)
  = chained prev l1 && chained (last_price prev l1) l2.
Proof.
  induction l1 as [|e l1 IH]; intros prev l2; [reflexivity|].
  destruct e; cbn [app chained last_price]; rewrite ?IH;
    try reflexivity.
  rewrite andb_assoc. reflexivity.
Qed.

Lemma last_price_app l1 : forall prev l2,
  last_price prev (l1 ++ l2) = last_price (last_price prev l1) l2.
Proof.
  induction l1 as [|e l1 IH]; intros prev l2; [reflexivity|].
  destruct e; cbn [app last_price]; apply IH.
Qed.

Lemma quiet_chained l : forall prev,
  forallb quiet l = true -> chained prev l = true /\ last_price prev l = prev.
Proof.
  induction l as [|e l IH]; intros prev; [auto|].
  cbn [forallb]. intros [He Hl]%andb_true_iff.
  destruct e; try discriminate; cbn [chained last_price]; apply IH, Hl.
Qed.

Lemma errors_quiet msgs : forallb quiet (map monitoring_error msgs) = true.
Proof. induction msgs; [reflexivity | assumption]. Qed.

(** The trading part of an iteration that returns has recorded the price
    as the previous one. *)
Lemma loop_trading_previous refresh iteration last_kline_time t price alert
    st lk :
  result_of (loop_trading refresh iteration last_kline_time t price alert st)
  = Return lk ->
  previous_price
    (state_of (loop_trading refresh iteration last_kline_time t price alert st))
  = Some price.
Proof.
  unfold loop_trading. cbv beta iota delta [bind get].
  match goal with
  | |- context [(if is_some (position st) then ?a else ?b) st] =>
      destruct ((if is_some (position st) then a else b) st)
        as [[[b'|e] st1] ev1]; [|discriminate]
  end.
  destruct b'.
  - cbv beta iota delta [modify]. rewrite get_klines_run, emit_chart_run.
    reflexivity.
  - unfold py_div. destruct (Qeq_bool _ 0); [discriminate|].
    cbv beta iota delta [ret]. destruct (_ || _ || _); [|reflexivity].
    rewrite get_klines_run. destruct (df_empty _); [reflexivity|].
    cbv beta iota delta [negb emit]. destruct (is_some (position st1));
      [reflexivity|].
    destruct (check_signals _ st1) as [[[sig|e] st2] ev2]; [|discriminate].
    destruct sig as [[|]|]; try reflexivity.
    destruct (execute_trade _ _ _ st2) as [[[[]|e] st3] ev3];
      [reflexivity|discriminate].
Qed.

Lemma loop_body_chain refresh iteration last_kline_time t st :
  let r := loop_body refresh iteration last_kline_time t st in
  exists p,
    chained (previous_price st) (events_of r) = true
    /\ last_price (previous_price st) (events_of r) = Some p
    /\ forall lk, result_of r = Return lk ->
                  previous_price (state_of r) = Some p.
Proof.
  cbv zeta.
  destruct (get_latest_price_errors (t_ticker t) (t_change t) st)
    as (p & st' & msgs & Hrun & _ & Hprev & _).
  exists p. unfold loop_body. cbv beta iota delta [bind get emit].
  rewrite Hrun. rewrite Hprev.
  set (alert := price_alert _ _ _).
  pose proof (loop_trading_quiet refresh iteration last_kline_time t p alert
                st') as Hq.
  pose proof (loop_trading_previous refresh iteration last_kline_time t p
                alert st') as Hp.
  revert Hq Hp.
  destruct alert; cbn [when]; cbv beta iota delta [emit ret];
    destruct (loop_trading _ _ _ _ _ _ _) as [[o st2] ev2];
    cbv beta iota delta [events_of state_of result_of]; cbn [fst snd];
    intros Hq Hp; cbn [app];
    destruct (quiet_chained ev2 (Some p) Hq) as [Hc Hl];
    destruct (quiet_chained (map monitoring_error msgs) (previous_price st)
                (errors_quiet msgs)) as [Hc0 Hl0];
    rewrite chained_app, last_price_app, Hc0, Hl0;
    cbn [chained last_price andb]; rewrite Hc, Hl, Qeq_bool_refl;
    (split; [reflexivity|]; split; [reflexivity|]);
    intros lk Hres; apply (Hp lk); exact Hres.
Qed.

Lemma iterate_chain refresh ticks : forall iteration last_kline_time st,
  chained (previous_price st)
    (events_of (iterate refresh iteration last_kline_time ticks st)) = true.
Proof.
  induction ticks as [|t ticks IH]; intros iteration last_kline_time st;
    [reflexivity|].
  cbn [iterate]. cbv zeta.
  destruct (loop_body_chain refresh (iteration + 1) last_kline_time t st)
    as (p & Hc & Hl & Hp).
  rewrite events_of_bind, chained_app, Hc, Hl.
  destruct (result_of _) as [lk|e] eqn:Hres; [|reflexivity].
  rewrite <- (Hp lk eq_refl). apply IH.
Qed.

(** X12.  In the trace of a monitoring loop every price update reports the
    change, in percent, from the price of the update before it (from the
    tracker's previous price for the first one), and 0 when there is no
    previous price or it is not positive: no sample is skipped, whichever
    branch an iteration takes. *)
Theorem price_changes_chain :
  forall refresh start ticks stop_flag final st,
    chained (previous_price st)
      (events_of (_monitoring_loop refresh start ticks stop_flag final st))
    = true.
Proof.
  intros refresh start ticks stop_flag final st.
  pose proof (iterate_chain refresh ticks 0 (start - 60) st) as Hc.
  assert (exists tl,
             events_of (_monitoring_loop refresh start ticks stop_flag final st)
             = events_of (iterate refresh 0 (start - 60) ticks st) ++ tl
             /\ forallb quiet tl = true) as (tl & -> & Hq).
  { unfold _monitoring_loop, try_except, bind.
    destruct (iterate _ _ _ _ _) as [[[[]|e] st1] ev1].
    - destruct stop_flag.
      + exists []. split; reflexivity.
      + rewrite get_klines_run, emit_chart_run.
        cbv beta iota delta [emit events_of]. cbn [snd].
        eexists. split; [reflexivity|].
        rewrite !forallb_app, errors_quiet.
        destruct (df_empty _); reflexivity.
    - cbv beta iota delta [emit events_of]. cbn [snd].
      eexists. split; reflexivity. }
  rewrite chained_app, Hc. apply quiet_chained, Hq.
Qed.

(** ** The news pipeline *)

Lemma dedup_from_elem l : forall seen h,
  h ∈ dedup_from seen l <-> h ∈ l /\ h ∉ seen.
Proof.
  induction l as [|x l IH]; intros seen h; cbn [dedup_from].
  - split; [intros H%elem_of_nil; contradiction|].
    intros [H%elem_of_nil _]; contradiction.
  - destruct (bool_decide (x ∈ seen)) eqn:Hx.
    + apply bool_decide_eq_true in Hx. rewrite IH, elem_of_cons.
      split; [intros [H1 H2]; auto|].
      intros [[->|H1] H2]; [contradiction|auto].
    + apply bool_decide_eq_false in Hx. rewrite !elem_of_cons, IH.
      rewrite not_elem_of_cons. split.
      * intros [->|[H1 [H2 H3]]]; auto.
      * intros [[->|H1] H2]; [auto|].
        destruct (decide (h = x)) as [->|Hne]; auto.
Qed.

Lemma dedup_from_NoDup l : forall seen, NoDup (dedup_from seen l).
Proof.
  induction l as [|x l IH]; intros seen; cbn [dedup_from];
    [apply NoDup_nil_2|].
  destruct (bool_decide (x ∈ seen)); [apply IH|].
  apply NoDup_cons_2; [|apply IH].
  rewrite dedup_from_elem, not_elem_of_cons. intros [_ [H _]]. auto.
Qed.

Section Pipeline.

Variable hash : list string -> Z.

(** The analysis always returns; it emits requests and errors only, and
    leaves everything but the cache alone. *)
Lemma call_deepseek_for_analysis_returns t headlines answer st :
  exists a cache ev,
    call_deepseek_for_analysis hash t headlines answer st
    = (Return a, set_news_cache cache st, ev)
    /\ (requests ev = [] \/ requests ev = [headlines])
    /\ forallb (fun e => negb (is_news_processed e)) ev = true
    /\ (cache = news_cache st
        \/ cache = <[cache_key hash headlines := (t, a)]> (news_cache st)).
Proof.
  assert (set_news_cache (news_cache st) st = st) as Hst
      by (destruct st; reflexivity).
  assert (exists a cache ev,
             analyse (cache_key hash headlines) t headlines answer st
             = (Return a, set_news_cache cache st, ev)
             /\ (requests ev = [] \/ requests ev = [headlines])
             /\ forallb (fun e => negb (is_news_processed e)) ev = true
             /\ (cache = news_cache st
                 \/ cache
                    = <[cache_key hash headlines := (t, a)]> (news_cache st)))
    as Hanalyse.
  { unfold analyse. cbv beta iota delta [bind get emit modify ret].
    destruct (Py.truthy_str _); cbv beta iota delta [negb];
      [|eexists _, (news_cache st), []; rewrite Hst; auto].
    destruct headlines as [|h hs];
      [eexists _, (news_cache st), []; rewrite Hst; auto|].
    destruct answer as [msg|msg|msg|a b c]; cbn [app].
    1-3: eexists _, (news_cache st), _; rewrite Hst;
      (split; [reflexivity|]); (split; [right; reflexivity|]); auto.
    eexists _, _, _. split; [reflexivity|].
    split; [right; reflexivity|]. auto. }
  unfold call_deepseek_for_analysis. cbv beta iota delta [bind get].
  destruct (news_cache st !! cache_key hash headlines) as [[t0 data]|];
    [|destruct Hanalyse as (a & c & ev & -> & H); exists a, c, ev;
      rewrite app_nil_l; auto].
  destruct (Py.ltb _ _);
    [|destruct Hanalyse as (a & c & ev & -> & H); exists a, c, ev;
      rewrite app_nil_l; auto].
  exists data, (news_cache st), []. rewrite Hst. auto.
Qed.

(** The run of [fetch_and_process_news] with news enabled and a headline. *)
Lemma fetch_and_process_news_run gnews newsapi feeds t answer st h hs :
  news_enabled (config st) = true ->
  all_headlines (config st) gnews newsapi feeds = h :: hs ->
  exists pre news label score cache ev,
    call_deepseek_for_analysis hash t (fromkeys (h :: hs)) answer st
    = (Return (news, label, score), set_news_cache cache st, ev)
    /\ fetch_and_process_news hash gnews newsapi feeds t answer st
       = (Return (news, Some label, score),
          set_last_processed_news (Some news)
            (set_sentiment (Some label) score (set_news_cache cache st)),
          pre ++ ev ++ [news_processed (news, label, score)])
    /\ requests pre = []
    /\ forallb (fun e => negb (is_news_processed e)) pre = true
    /\ (requests ev = [] \/ requests ev = [fromkeys (h :: hs)])
    /\ (cache = news_cache st
        \/ exists k v, cache = <[k := v]> (news_cache st)).
Proof.
  intros Hen Hall. unfold all_headlines in Hall.
  destruct (call_deepseek_for_analysis_returns t (fromkeys (h :: hs)) answer
              st) as ([[news label] score] & cache & ev & Hrun & Hreq & _ & Hcache).
  unfold fetch_and_process_news.
  cbv beta iota delta [bind get]. rewrite Hen. cbv beta iota delta [negb].
  destruct (search_headlines_run (gnews_api_key (config st))
              "GNews API错误: " gnews_headline gnews st) as [e1 ->].
  destruct (search_headlines_run (newsapi_api_key (config st))
              "NewsAPI错误: " newsapi_headline newsapi st) as [e2 ->].
  rewrite (fetch_rss_news_run feeds st Hen), Hall, Hrun.
  cbv beta iota delta [modify emit ret]. cbn [app].
  exists (map monitoring_error e1 ++ map monitoring_error e2
          ++ map monitoring_error (rss_errors feeds)
          ++ match rss_articles feeds with
             | [] => []
             | _ :: _ => [rss_news_received (rss_articles feeds)]
             end), news, label, score, cache, ev.
  split; [reflexivity|].
  split; [rewrite <- !app_assoc; reflexivity|].
  rewrite !requests_app, !requests_errors, !forallb_app.
  assert (forall l, forallb (fun e => negb (is_news_processed e))
                      (map monitoring_error l) = true) as Herr
      by (induction l; [reflexivity | assumption]).
  rewrite !Herr.
  split; [destruct (rss_articles feeds); reflexivity|].
  split; [destruct (rss_articles feeds); reflexivity|].
  split; [exact Hreq|].
  destruct Hcache as [->| ->]; [left; reflexivity | right; eauto].
Qed.

(** Without headlines, or with news disabled, the pipeline asks nothing and
    leaves the sentiment and the cache alone. *)
Lemma fetch_and_process_news_idle gnews newsapi feeds t answer st :
  news_enabled (config st) = false
  \/ all_headlines (config st) gnews newsapi feeds = [] ->
  let r := fetch_and_process_news hash gnews newsapi feeds t answer st in
  requests (events_of r) = []
  /\ news_cache (state_of r) = news_cache st.
Proof.
  intros H. cbv zeta. unfold fetch_and_process_news.
  cbv beta iota delta [bind get].
  destruct (news_enabled (config st)) eqn:Hen; cbv beta iota delta [negb];
    [|split; reflexivity].
  destruct H as [H|H]; [discriminate|]. unfold all_headlines in H.
  destruct (search_headlines_run (gnews_api_key (config st))
              "GNews API错误: " gnews_headline gnews st) as [e1 ->].
  destruct (search_headlines_run (newsapi_api_key (config st))
              "NewsAPI错误: " newsapi_headline newsapi st) as [e2 ->].
  rewrite (fetch_rss_news_run feeds st Hen), H.
  cbv beta iota delta [modify ret events_of state_of]. cbn [fst snd].
  rewrite !requests_app, !requests_errors.
  destruct (rss_articles feeds); split; reflexivity.
Qed.

(** X13.  With news enabled and at least one headline,
    [fetch_and_process_news] returns a summary, a label and a score, records
    exactly these as the last processed news, the current sentiment and the
    sentiment score, emits one [news_processed] with them, and asks the
    completion endpoint at most once. *)
Theorem fetch_and_process_news_records :
  forall gnews newsapi feeds t answer st,
    news_enabled (config st) = true ->
    all_headlines (config st) gnews newsapi feeds <> [] ->
    let r := fetch_and_process_news hash gnews newsapi feeds t answer st in
    exists news label score,
      result_of r = Return (news, Some label, score)
      /\ last_processed_news (state_of r) = Some news
      /\ current_sentiment (state_of r) = Some label
      /\ sentiment_score (state_of r) = score
      /\ List.filter is_news_processed (events_of r)
         = [news_processed (news, label, score)]
      /\ (length (requests (events_of r)) <= 1)%nat.
Proof.
  intros gnews newsapi feeds t answer st Hen Hall. cbv zeta.
  destruct (all_headlines (config st) gnews newsapi feeds) as [|h hs] eqn:Hh;
    [contradiction|].
  destruct (fetch_and_process_news_run gnews newsapi feeds t answer st h hs
              Hen Hh)
    as (pre & news & label & score & cache & ev & Hrun & -> & Hpre & Hnp
        & Hreq & _).
  destruct (call_deepseek_for_analysis_returns t (fromkeys (h :: hs)) answer
              st) as (a' & cache' & ev' & Hrun' & _ & Hev & _).
  rewrite Hrun in Hrun'. assert (ev' = ev) as -> by congruence.
  exists news, label, score.
  cbv beta iota delta [result_of state_of events_of]. cbn [fst snd].
  repeat (split; [reflexivity|]).
  assert (forall l, forallb (fun e => negb (is_news_processed e)) l = true ->
                    List.filter is_news_processed l = []) as Hnone.
  { induction l as [|e l IH]; [reflexivity|]. cbn [forallb List.filter].
    intros [He Hl]%andb_true_iff. apply negb_true_iff in He. rewrite He.
    apply IH, Hl. }
  split.
  - rewrite !List.filter_app, (Hnone _ Hnp), (Hnone _ Hev). reflexivity.
  - rewrite !requests_app, Hpre. cbn [requests app].
    rewrite app_nil_r. destruct Hreq as [-> | ->]; simpl; lia.
Qed.

(** X14.  A failed analysis resets the sentiment: with news enabled, at
    least one headline and no cached analysis younger than 3600 seconds
    for them, when the completion endpoint fails or its key is not
    configured, [fetch_and_process_news] sets the label to neutral and the
    score to 0, whatever they were, and stores nothing in the cache. *)
Theorem failed_analysis_resets_sentiment :
  forall gnews newsapi feeds t answer st,
    let headlines := all_headlines (config st) gnews newsapi feeds in
    let r := fetch_and_process_news hash gnews newsapi feeds t answer st in
    news_enabled (config st) = true ->
    headlines <> [] ->
    (forall t0 data,
        news_cache st !! cache_key hash (fromkeys headlines) = Some (t0, data) ->
        cache_expiry <= t - t0) ->
    failed answer = true
    \/ Py.truthy_str (deepseek_api_key (config st)) = false ->
    current_sentiment (state_of r) = Some "neutral"
    /\ sentiment_score (state_of r) = 0
    /\ news_cache (state_of r) = news_cache st.
Proof.
  intros gnews newsapi feeds t answer st headlines r Hen Hall Hstale Hfail.
  subst headlines r.
  destruct (all_headlines (config st) gnews newsapi feeds) as [|h hs] eqn:Hh;
    [contradiction|].
  destruct (fetch_and_process_news_run gnews newsapi feeds t answer st h hs
              Hen Hh)
    as (pre & news & label & score & cache & ev & Hrun & -> & _).
  cbv beta iota delta [state_of]. cbn [fst snd].
  cbn [current_sentiment sentiment_score news_cache set_last_processed_news
         set_sentiment set_news_cache].
  assert (analyse (cache_key hash (fromkeys (h :: hs))) t
            (fromkeys (h :: hs)) answer st
          = (Return (news, label, score), set_news_cache cache st, ev))
    as Hanalyse.
  { revert Hrun. unfold call_deepseek_for_analysis.
    cbv beta iota delta [bind get].
    destruct (news_cache st !! _) as [[t0 data]|] eqn:Hl.
    - specialize (Hstale t0 data eq_refl).
      assert (Py.ltb (t - t0) cache_expiry = false) as ->.
      { apply not_true_iff_false. rewrite ltb_lt. lra. }
      destruct (analyse _ _ _ _ _) as [[o s] e]. cbn [app]. auto.
    - destruct (analyse _ _ _ _ _) as [[o s] e]. cbn [app]. auto. }
  revert Hanalyse. unfold analyse.
  cbv beta iota delta [bind get emit modify ret].
  assert (fromkeys (h :: hs) = h :: dedup_from [h] hs) as -> by reflexivity.
  destruct (Py.truthy_str _); cbv beta iota delta [negb].
  - destruct Hfail as [Hfail|Hfail]; [|discriminate].
    destruct answer; try discriminate; cbn [app];
      intros [= <- <- <- Hst _];
      (split; [reflexivity|]); (split; [reflexivity|]);
      apply (f_equal news_cache) in Hst; cbn [news_cache set_news_cache] in Hst;
      symmetry; exact Hst.
  - intros [= <- <- <- Hst _].
    split; [reflexivity|]. split; [reflexivity|].
    apply (f_equal news_cache) in Hst. symmetry. exact Hst.
Qed.

(** X15.  Every request [fetch_and_process_news] sends to the completion
    endpoint carries the collected headlines without duplicates: the list is
    not empty, has no repetition, and holds exactly the headlines the three
    sources returned. *)
Theorem requests_are_deduplicated :
  forall gnews newsapi feeds t answer st headlines,
    In headlines
      (requests
         (events_of
            (fetch_and_process_news hash gnews newsapi feeds t answer st))) ->
    NoDup headlines
    /\ headlines <> []
    /\ forall h, h ∈ headlines
                 <-> h ∈ all_headlines (config st) gnews newsapi feeds.
Proof.
  intros gnews newsapi feeds t answer st headlines Hin.
  destruct (news_enabled (config st)) eqn:Hen;
    [|destruct (fetch_and_process_news_idle gnews newsapi feeds t answer st
                  (or_introl Hen)) as [Hreq _];
      rewrite Hreq in Hin; contradiction].
  destruct (all_headlines (config st) gnews newsapi feeds) as [|h hs] eqn:Hh;
    [destruct (fetch_and_process_news_idle gnews newsapi feeds t answer st
                 (or_intror Hh)) as [Hreq _];
     rewrite Hreq in Hin; contradiction|].
  destruct (fetch_and_process_news_run gnews newsapi feeds t answer st h hs
              Hen Hh)
    as (pre & news & label & score & cache & ev & _ & Hrun & Hpre & _
        & Hreq & _).
  rewrite Hrun in Hin. cbv beta iota delta [events_of] in Hin.
  cbn [snd] in Hin. rewrite !requests_app, Hpre in Hin.
  cbn [requests app] in Hin. rewrite app_nil_r in Hin.
  destruct Hreq as [Hreq|Hreq]; rewrite Hreq in Hin; [contradiction|].
  destruct Hin as [<-|[]].
  split; [apply dedup_from_NoDup|]. split; [discriminate|].
  intros x. unfold fromkeys. rewrite dedup_from_elem.
  split; [intros [H _]; exact H|]. intros H. split; [exact H|].
  apply not_elem_of_nil.
Qed.

(** X16.  A cached analysis that is 3600 seconds old or older is stale: with
    the key configured and headlines given, the call asks the endpoint
    again and a response replaces the entry, stamped with the time of the
    call. *)
Theorem stale_analysis_is_refreshed :
  forall st t t0 data headlines a b c,
    news_cache st !! cache_key hash headlines = Some (t0, data) ->
    cache_expiry <= t - t0 ->
    Py.truthy_str (deepseek_api_key (config st)) = true ->
    headlines <> [] ->
    let r := call_deepseek_for_analysis hash t headlines (Response a b c) st in
    result_of r = Return (parsed_analysis a b c)
    /\ requests (events_of r) = [headlines]
    /\ news_cache (state_of r) !! cache_key hash headlines
       = Some (t, parsed_analysis a b c)
    /\ forall k, k <> cache_key hash headlines ->
                 news_cache (state_of r) !! k = news_cache st !! k.
Proof.
  intros st t t0 data headlines a b c Hl Hold Hkey Hne. cbv zeta.
  unfold call_deepseek_for_analysis. cbv beta iota delta [bind get].
  rewrite Hl.
  assert (Py.ltb (t - t0) cache_expiry = false) as ->.
  { apply not_true_iff_false. rewrite ltb_lt. lra. }
  unfold analyse. cbv beta iota delta [bind get emit modify ret].
  rewrite Hkey. cbv beta iota delta [negb].
  destruct headlines as [|h hs]; [contradiction|].
  cbv beta iota delta [result_of state_of events_of]. cbn [fst snd app].
  cbn [news_cache set_news_cache requests].
  split; [reflexivity|]. split; [reflexivity|].
  split; [apply lookup_insert_eq|].
  intros k Hk. apply lookup_insert_ne. auto.
Qed.

End Pipeline.

Lemma fetch_and_process_news_records_scenario :
  exists news label score,
    result_of (fetch_and_process_news scenario_hash (inl "") (inl "")
                 scenario_feeds 0
                 (Response (Some "positive") (Some 0.7) (Some "summary"))
                 (init scenario_config))
    = Return (news, Some label, score).
Proof.
  destruct (fetch_and_process_news_records scenario_hash (inl "") (inl "")
              scenario_feeds 0
              (Response (Some "positive") (Some 0.7) (Some "summary"))
              (init scenario_config))
    as (news & label & score & H & _);
    [reflexivity | vm_compute; discriminate|].
  exists news, label, score. exact H.
Defined.

(** An hour after the positive analysis a network failure leaves the
    tracker neutral. *)
Lemma failed_analysis_scenario :
  current_sentiment scenario_positive = Some "positive"
  /\ current_sentiment
       (state_of (fetch_and_process_news scenario_hash (inl "") (inl "")
                    scenario_feeds 3600 (RequestException "timeout")
                    scenario_positive))
     = Some "neutral".
Proof.
  split; [reflexivity|].
  apply (failed_analysis_resets_sentiment scenario_hash (inl "") (inl "")
           scenario_feeds 3600 (RequestException "timeout")
           scenario_positive).
  - reflexivity.
  - vm_compute. discriminate.
  - intros t0 data H. vm_compute in H.
    assert (t0 = 0) as -> by congruence. vm_compute. discriminate.
  - left. reflexivity.
Defined.

Lemma requests_are_deduplicated_scenario :
  NoDup [rss_headline scenario_article].
Proof.
  apply (requests_are_deduplicated scenario_hash (inl "") (inl "")
           scenario_feeds 0
           (Response (Some "positive") (Some 0.7) (Some "summary"))
           (init scenario_config) [rss_headline scenario_article]).
  left. reflexivity.
Defined.

Lemma stale_analysis_scenario :
  result_of (call_deepseek_for_analysis scenario_hash 3600
               [rss_headline scenario_article]
               (Response (Some "negative") (Some (-0.9)) (Some "summary"))
               scenario_positive)
  = Return (parsed_analysis (Some "negative") (Some (-0.9)) (Some "summary")).
Proof.
  apply (stale_analysis_is_refreshed scenario_hash scenario_positive 3600 0
           ("summary", "positive", 0.7) [rss_headline scenario_article]).
  - vm_compute. reflexivity.
  - vm_compute. discriminate.
  - reflexivity.
  - discriminate.
Defined.

Section Cache.

Variable hash : list string -> Z.

Lemma cache_kept_call c st k :
  is_Some (news_cache st !! k) ->
  is_Some (news_cache (fst (run_call hash c st)) !! k).
Proof.
  intros Hk. destruct (is_news c) eqn:Hc.
  - destruct c; try discriminate. cbn [run_call fst].
    destruct (news_enabled (config st)) eqn:Hen;
      [|destruct (fetch_and_process_news_idle hash gnews newsapi feeds
                    current_time answer st (or_introl Hen)) as [_ ->];
        exact Hk].
    destruct (all_headlines (config st) gnews newsapi feeds) as [|h hs] eqn:Hh;
      [destruct (fetch_and_process_news_idle hash gnews newsapi feeds
                   current_time answer st (or_intror Hh)) as [_ ->];
       exact Hk|].
    destruct (fetch_and_process_news_run hash gnews newsapi feeds
                current_time answer st h hs Hen Hh)
      as (pre & news & label & score & cache & ev & _ & -> & _ & _ & _
          & Hcache).
    cbv beta iota delta [state_of]. cbn [fst snd].
    cbn [news_cache set_last_processed_news set_sentiment set_news_cache].
    destruct Hcache as [->|(k' & v & ->)]; [exact Hk|].
    apply lookup_insert_is_Some.
    destruct (decide (k' = k)); [left; assumption | right; auto].
  - destruct (same_news_call hash c st Hc) as (_ & _ & _ & ->). exact Hk.
Qed.

(** X17.  The analysis cache never forgets: no call removes an entry, so an
    entry that has expired stays in the cache until an analysis of the same
    headlines replaces it. *)
Theorem cache_never_evicts :
  forall cs st k,
    is_Some (news_cache st !! k) ->
    is_Some (news_cache (fst (run_calls hash cs st)) !! k).
Proof.
  induction cs as [|c cs IH]; intros st k Hk; [exact Hk|].
  cbn [run_calls].
  pose proof (cache_kept_call c st k Hk) as H1.
  destruct (run_call hash c st) as [st1 ev1]. cbn [fst] in H1.
  pose proof (IH st1 k H1) as H2.
  destruct (run_calls hash cs st1) as [st2 ev2]. exact H2.
Qed.

End Cache.

(** A day later, a failed refresh and a monitoring loop leave the expired
    entry where it was. *)
Lemma cache_never_evicts_scenario :
  is_Some
    (news_cache
       (fst (run_calls scenario_hash
               [Call_fetch_and_process_news (inl "") (inl "") scenario_feeds
                  86400 (RequestException "timeout");
                Call_monitoring_loop 5 0 [crash_tick] false no_klines]
               scenario_positive))
     !! cache_key scenario_hash [rss_headline scenario_article]).
Proof.
  apply (cache_never_evicts scenario_hash).
  eexists. vm_compute. reflexivity.
Defined.

(** ** Telegram messages *)

Lemma rfind_Some s c start stop i :
  rfind s c start stop = Some i ->
  (start <= i /\ i < stop /\ i < length s)%nat /\ nth i s 0%N = c.
Proof.
  unfold rfind. intros H%last_Some_elem_of. 
  apply list_elem_of_In, filter_In in H as [H1 H2].
  apply in_seq in H1. apply N.eqb_eq in H2. split; [lia | exact H2].
Qed.

Lemma split_point_after n message start :
  (start < length message)%nat ->
  (start < split_point_of n message start)%nat.
Proof.
  intros Hlt. unfold split_point_of.
  destruct (rfind _ _ _ _) as [i|]; [destruct (Nat.leb_spec i start)|];
    cbv zeta; match goal with |- context [(?a <=? ?b)%nat] =>
                destruct (Nat.leb_spec a b) end; lia.
Qed.

Lemma split_point_within n message start :
  (0 < n)%nat ->
  (split_point_of n message start <= start + n)%nat.
Proof.
  intros Hn. unfold split_point_of.
  destruct (rfind _ _ _ _) as [i|] eqn:Hr;
    [apply rfind_Some in Hr as [Hi _]; destruct (Nat.leb_spec i start)|];
    cbv zeta; match goal with |- context [(?a <=? ?b)%nat] =>
                destruct (Nat.leb_spec a b) end; lia.
Qed.

Lemma next_start_after message sp : (sp <= next_start message sp)%nat.
Proof. unfold next_start. destruct (_ && _); lia. Qed.

Lemma lstrip_length s : (length (lstrip s) <= length s)%nat.
Proof.
  induction s as [|c s IH]; cbn [lstrip]; [lia|].
  destruct (isspace c); cbn [length]; lia.
Qed.

Lemma strip_length s : (length (strip s) <= length s)%nat.
Proof.
  unfold strip. rewrite length_rev.
  etransitivity; [apply lstrip_length|]. rewrite length_rev.
  apply lstrip_length.
Qed.

Lemma visible_lstrip s : visible (lstrip s) = visible s.
Proof.
  induction s as [|c s IH]; [reflexivity|]. cbn [lstrip].
  destruct (isspace c) eqn:Hc; [|reflexivity].
  rewrite IH. unfold visible. cbn [List.filter]. rewrite Hc. reflexivity.
Qed.

Lemma visible_rev s : visible (rev s) = rev (visible s).
Proof.
  unfold visible. induction s as [|c s IH]; [reflexivity|].
  cbn [rev List.filter]. rewrite List.filter_app, IH. cbn [List.filter].
  destruct (isspace c); cbn [negb]; [rewrite app_nil_r|]; reflexivity.
Qed.

Lemma visible_strip s : visible (strip s) = visible s.
Proof.
  unfold strip.
  rewrite visible_rev, visible_lstrip, visible_rev, rev_involutive.
  apply visible_lstrip.
Qed.

Lemma visible_app s1 s2 : visible (s1 ++ s2) = visible s1 ++ visible s2.
Proof. apply List.filter_app. Qed.

Lemma lstrip_suffix s : exists pre, s = pre ++ lstrip s.
Proof.
  induction s as [|c s [pre IH]]; [exists []; reflexivity|].
  cbn [lstrip]. destruct (isspace c); [|exists []; reflexivity].
  exists (c :: pre). cbn [app]. f_equal. exact IH.
Qed.

Lemma lstrip_starts s : lstrip s <> [] -> starts_visible (lstrip s) = true.
Proof.
  induction s as [|c s IH]; cbn [lstrip]; [contradiction|].
  destruct (isspace c) eqn:Hc; [exact IH|].
  intros _. cbn [starts_visible]. rewrite Hc. reflexivity.
Qed.

Lemma starts_visible_app s1 s2 :
  s1 <> [] -> starts_visible (s1 ++ s2) = starts_visible s1.
Proof. destruct s1; [contradiction | reflexivity]. Qed.

(** A stripped text is empty or trimmed. *)
Lemma strip_trimmed s : strip s <> [] -> trimmed (strip s) = true.
Proof.
  unfold strip, trimmed. set (t := lstrip s). set (u := lstrip (rev t)).
  intros Hne. assert (u <> []) as Hu.
  { intros H. apply Hne. rewrite H. reflexivity. }
  rewrite rev_involutive. apply andb_true_iff. split.
  - destruct (lstrip_suffix (rev t)) as [pre Hpre]. fold u in Hpre.
    assert (t = rev u ++ rev pre) as Ht.
    { rewrite <- rev_app_distr, <- Hpre, rev_involutive. reflexivity. }
    assert (t <> []) as Hne_t.
    { intros H. apply Hu. unfold u. rewrite H. reflexivity. }
    pose proof (lstrip_starts s Hne_t) as Hs. fold t in Hs.
    rewrite Ht, starts_visible_app in Hs; [exact Hs|].
    intros H. apply Hne. exact H.
  - apply lstrip_starts, Hu.
Qed.

Lemma skipn_step (message : text) i :
  (i < length message)%nat ->
  skipn i message = nth i message 0%N :: skipn (S i) message.
Proof.
  revert i. induction message as [|c s IH]; intros i Hi; cbn [length] in Hi;
    [lia|].
  destruct i as [|i]; [reflexivity|].
  cbn [skipn nth]. apply IH. lia.
Qed.

Lemma isspace_newline : isspace newline = true.
Proof. reflexivity. Qed.

Lemma visible_next_start message sp :
  visible (skipn (next_start message sp) message) = visible (skipn sp message).
Proof.
  unfold next_start.
  destruct (Nat.ltb_spec sp (length message)) as [Hlt|_]; [|reflexivity].
  destruct (N.eqb_spec (nth sp message 0%N) newline) as [Hnl|_];
    [|reflexivity].
  cbn [andb]. rewrite (skipn_step message sp Hlt), Hnl.
  unfold visible. cbn [List.filter]. rewrite isspace_newline. reflexivity.
Qed.

Lemma skipn_slice message start sp :
  (start <= sp)%nat ->
  skipn start message = slice message start sp ++ skipn sp message.
Proof.
  intros Hle. unfold slice.
  rewrite <- (firstn_skipn (sp - start) (skipn start message)) at 1.
  f_equal. rewrite skipn_skipn. f_equal. lia.
Qed.

Lemma slice_length message start sp :
  (length (slice message start sp) <= sp - start)%nat.
Proof. unfold slice. rewrite length_firstn. lia. Qed.

Lemma split_loop_visible n message : forall fuel start,
  (length message - start <= fuel)%nat ->
  concat (map visible (split_loop fuel n message start))
  = visible (skipn start message).
Proof.
  induction fuel as [|fuel IH]; intros start Hfuel; cbn [split_loop].
  - rewrite skipn_all2 by lia. reflexivity.
  - destruct (Nat.ltb_spec start (length message)) as [Hlt|Hge];
      [|rewrite skipn_all2 by lia; reflexivity].
    cbv zeta.
    pose proof (split_point_after n message start Hlt) as Hsp.
    pose proof (next_start_after message (split_point_of n message start))
      as Hnext.
    rewrite map_app, concat_app, IH by lia.
    rewrite visible_next_start.
    rewrite (skipn_slice message start (split_point_of n message start))
      by lia.
    rewrite visible_app. f_equal.
    rewrite <- (visible_strip (slice _ _ _)).
    destruct (strip _); [reflexivity|]. cbn [map concat].
    apply app_nil_r.
Qed.

Lemma split_loop_parts n message : forall fuel start,
  (0 < n)%nat ->
  forallb (fun p => (length p <=? n)%nat && trimmed p)
    (split_loop fuel n message start) = true.
Proof.
  induction fuel as [|fuel IH]; intros start Hn; cbn [split_loop];
    [reflexivity|].
  destruct (start <? length message)%nat; [|reflexivity].
  cbv zeta. rewrite forallb_app, IH by exact Hn. rewrite andb_true_r.
  pose proof (strip_length (slice message start
                              (split_point_of n message start))) as H1.
  pose proof (slice_length message start (split_point_of n message start))
    as H2.
  pose proof (split_point_within n message start Hn) as H3.
  pose proof (strip_trimmed (slice message start
                               (split_point_of n message start))) as H4.
  destruct (strip _) as [|c part]; [reflexivity|].
  cbn [forallb]. rewrite H4 by discriminate. rewrite andb_true_r.
  apply andb_true_iff. split; [|reflexivity]. apply Nat.leb_le. lia.
Qed.


(** X18.  Every part of a report that [send_telegram_message] posts fits
    the limit of 4096 code points, and the parts of a report that is longer
    than the limit are not empty and neither begin nor end with
    whitespace. *)
Theorem telegram_parts_fit :
  forall message,
    forallb (fun p => (length p <=? 4096)%nat) (messages_to_send message)
    = true
    /\ ((4096 < length message)%nat ->
        forallb trimmed (messages_to_send message) = true).
Proof.
  intros message. unfold messages_to_send, split_message.
  destruct (Nat.ltb_spec 4096 (length message)) as [Hlong|Hshort].
  - pose proof (split_loop_parts 4096 message (length message) 0
                  ltac:(lia)) as H.
    rewrite forallb_forall in H.
    split; [|intros _]; apply forallb_forall; intros p Hp;
      apply H, andb_true_iff in Hp as [H1 H2]; assumption.
  - split; [|lia]. cbn [forallb]. rewrite andb_true_r.
    apply Nat.leb_le. exact Hshort.
Qed.

(** X19.  Splitting a report loses nothing but whitespace: the code points
    of the parts that are not whitespace are, in order, those of the
    report. *)
Theorem telegram_parts_keep_text :
  forall message,
    concat (map visible (messages_to_send message)) = visible message.
Proof.
  intros message. unfold messages_to_send, split_message.
  destruct (4096 <? length message)%nat.
  - rewrite split_loop_visible by lia. reflexivity.
  - cbn [map concat]. apply app_nil_r.
Qed.


(** The report of two long lines is posted as its two lines. *)
Lemma telegram_parts_fit_scenario :
  messages_to_send two_lines = [repeat 97%N 3000; repeat 98%N 3000]
  /\ forallb trimmed (messages_to_send two_lines) = true.
Proof.
  split; [vm_compute; reflexivity|].
  apply (telegram_parts_fit two_lines).
  apply Nat.ltb_lt. vm_compute. reflexivity.
Defined.


(** ** The price window *)

(** X21.  After any sequence of price updates the main window holds the
    last 300 points, in order: the chart and the high/low label cover the
    last 300 samples, not the session. *)
Theorem price_window_is_last_300 :
  forall updates,
    price_data_points_after updates = skipn (length updates - 300) updates
    /\ (length (price_data_points_after updates) <= 300)%nat.
Proof.
  assert (forall updates,
             price_data_points_after updates
             = skipn (length updates - 300) updates) as H.
  { induction updates as [|u updates IH] using rev_ind; [reflexivity|].
    unfold price_data_points_after in *. rewrite fold_left_app, IH.
    cbn [fold_left]. unfold on_price_updated.
    destruct u as [t p]. cbn [fst snd].
    rewrite !length_app, length_skipn. cbn [length].
    destruct (Nat.ltb_spec 300 (length updates - (length updates - 300) + 1)).
    - rewrite skipn_app, skipn_skipn, length_skipn.
      rewrite skipn_app.
      replace (length updates - (length updates - 300) + 1 - 300
               + (length updates - 300))%nat
        with (length updates + 1 - 300)%nat by lia.
      f_equal.
      replace (length updates - (length updates - 300) + 1 - 300
               - (length updates - (length updates - 300)))%nat
        with (length updates + 1 - 300 - length updates)%nat by lia.
      reflexivity.
    - rewrite skipn_app.
      replace (length updates + 1 - 300)%nat with 0%nat by lia.
      replace (length updates - 300)%nat with 0%nat by lia.
      reflexivity. }
  intros updates. split; [apply H|]. rewrite H, length_skipn. lia.
Qed.

(** ** Simulated K-lines *)

Lemma simulated_closes_range changes : forall current,
  Forall (fun p => 0.8 <= p /\ p <= 3.0) (simulated_closes current changes).
Proof.
  induction changes as [|c changes IH]; intros current; cbn [simulated_closes];
    constructor; [|apply IH].
  split; [apply Q.le_max_l|].
  apply Q.max_lub; [discriminate | apply Q.le_min_l].
Qed.

Lemma scaled_down m d :
  0 < m -> 0 <= d -> d <= 0.01 -> 0 < m * (1 - d) /\ m * (1 - d) <= m.
Proof.
  intros Hm Hd0 Hd1. split.
  - apply Qmult_lt_0_compat; lra.
  - rewrite <- (Qmult_1_r m) at 2. apply Qmult_le_l; lra.
Qed.

Lemma scaled_up m u : 0 < m -> 0 <= u -> m <= m * (1 + u).
Proof.
  intros Hm Hu. rewrite <- (Qmult_1_r m) at 1. apply Qmult_le_l; lra.
Qed.

Lemma simulated_candle_well_formed open close up down :
  0 < open -> 0 < close -> small_draws (up, down) ->
  well_formed (simulated_candle open close up down).
Proof.
  intros Ho Hc [[Hu0 Hu1] [Hd0 Hd1]]. cbn [fst snd] in *.
  unfold well_formed, simulated_candle.
  cbn [c_open c_high c_low c_close].
  assert (0 < Qmin open close) as Hmin
      by (destruct (Q.min_spec open close) as [[_ ->]|[_ ->]]; assumption).
  assert (0 < Qmax open close) as Hmax
      by (destruct (Q.max_spec open close) as [[_ ->]|[_ ->]]; assumption).
  destruct (scaled_down _ down Hmin Hd0 Hd1) as [H1 H2].
  pose proof (scaled_up _ up Hmax Hu0) as H3.
  pose proof (Q.le_min_l open close). pose proof (Q.le_min_r open close).
  pose proof (Q.le_max_l open close). pose proof (Q.le_max_r open close).
  set (lo := Qmin open close * (1 - down)) in *.
  set (hi := Qmax open close * (1 + up)) in *.
  set (mn := Qmin open close) in *. set (mx := Qmax open close) in *.
  clearbody lo hi mn mx. repeat split; lra.
Qed.

Lemma simulated_rows_well_formed closes : forall previous draws,
  0 < previous ->
  Forall (fun p => 0.8 <= p /\ p <= 3.0) closes ->
  Forall small_draws draws ->
  Forall (fun c => well_formed c /\ 0.8 <= c_close c /\ c_close c <= 3.0)
    (simulated_rows previous closes draws).
Proof.
  induction closes as [|close closes IH]; intros previous draws Hp Hc Hd;
    cbn [simulated_rows]; [constructor|].
  destruct draws as [|[up down] draws]; [constructor|].
  apply Forall_cons_1 in Hc as [[Hc1 Hc2] Hc].
  apply Forall_cons_1 in Hd as [Hd1 Hd].
  constructor.
  - split; [|split; assumption].
    apply simulated_candle_well_formed; [assumption | lra | assumption].
  - apply IH; [lra | assumption | assumption].
Qed.

(** X22.  The simulated K-lines are well-formed whatever the random walk
    does: with the draws of the highs and lows in [0, 0.01], every row has
    a close between 0.8 and 3.0 and a positive low, and its low and high
    bracket its open and its close. *)
Theorem simulated_frame_well_formed :
  forall changes draws,
    Forall small_draws draws ->
    Forall (fun c => well_formed c /\ 0.8 <= c_close c /\ c_close c <= 3.0)
      (simulated_frame changes draws).
Proof.
  intros changes draws Hd. unfold simulated_frame. cbv zeta.
  pose proof (simulated_closes_range changes base_price) as Hc.
  fold (close_prices changes) in Hc.
  destruct (close_prices changes) as [|first closes]; [constructor|].
  assert (0 < first * 0.99) as Hfirst.
  { destruct (Forall_inv Hc) as [Hc1 _]. lra. }
  apply simulated_rows_well_formed; assumption.
Qed.

(** Two rows, the second draw pushing the walk against the floor. *)
Lemma simulated_frame_scenario :
  Forall (fun c => well_formed c /\ 0.8 <= c_close c /\ c_close c <= 3.0)
    (simulated_frame [0.02; -0.9] [(0.01, 0); (0, 0.01)]).
Proof.
  apply simulated_frame_well_formed.
  repeat constructor; cbn [fst snd]; discriminate.
Defined.

(** ** The selection of RSS entries *)

Lemma select_entries_firstn max entries : forall count,
  select_entries max count entries
  = firstn (Z.to_nat (max - count))
      (map article_of (List.filter e_relevant entries)).
Proof.
  induction entries as [|e entries IH]; intros count; cbn [select_entries].
  - rewrite firstn_nil. reflexivity.
  - destruct (Z.leb_spec max count) as [Hle|Hgt].
    + replace (Z.to_nat (max - count)) with 0%nat by lia. reflexivity.
    + cbn [List.filter]. destruct (e_relevant e); [|apply IH].
      cbn [map]. rewrite IH.
      replace (Z.to_nat (max - count))
        with (S (Z.to_nat (max - (count + 1)))) by lia.
      reflexivity.
Qed.

Lemma short_summary_length s : (length (short_summary s) <= 203)%nat.
Proof.
  unfold short_summary. rewrite length_app, length_firstn.
  destruct (200 <? length s)%nat; cbn [length]; lia.
Qed.

(** X23.  From one feed [fetch_single_rss] takes the first
    [max_articles_per_rss] entries that pass the keyword test, in the order
    of the feed, and none when that number is 0 or negative; every summary
    it keeps has at most 203 code points. *)
Theorem fetch_single_rss_selects :
  forall max_articles_per_rss entries,
    fetch_single_rss max_articles_per_rss entries
    = firstn (Z.to_nat max_articles_per_rss)
        (map article_of (List.filter e_relevant entries))
    /\ Forall (fun a => (length (fa_summary a) <= 203)%nat)
         (fetch_single_rss max_articles_per_rss entries).
Proof.
  intros max entries. unfold fetch_single_rss.
  rewrite select_entries_firstn, Z.sub_0_r. split; [reflexivity|].
  apply Forall_take, Forall_forall. intros a Ha%list_elem_of_In%in_map_iff.
  destruct Ha as (e & <- & _). apply short_summary_length.
Qed.

(** ** The status report and the signal panel *)

Lemma int_percent q : 0 <= q -> q <= 100 -> (0 <= Py.int q <= 100)%Z.
Proof.
  intros H0 H1. split; [apply int_nonneg, H0|].
  rewrite (int_floor q H0). change 100%Z with (Qfloor 100).
  apply Qfloor_resp_le, H1.
Qed.

Lemma sentiment_info_confidence st :
  score_ok (sentiment_score st) = true ->
  (0 <= si_confidence (sentiment_info st) <= 100)%Z.
Proof.
  intros [H1 H2]%score_ok_bounds. unfold sentiment_info.
  assert (0 <= Qabs (sentiment_score st) /\ Qabs (sentiment_score st) <= 1)
    as [Ha0 Ha1].
  { split; [apply Qabs_nonneg|]. apply Qabs_Qle_condition. split; lra. }
  set (s := sentiment_score st) in *. set (a := Qabs s) in *.
  clearbody s a.
  destruct (Py.truthy_str _); [|cbn [si_confidence]; lia].
  cbv zeta. destruct (String.eqb _ "positive");
    [cbn [si_confidence]; apply int_percent; lra|].
  destruct (String.eqb _ "negative");
    cbn [si_confidence]; apply int_percent; lra.
Qed.

Section Report.

Variable hash : list string -> Z.

(** X24.  For a tracker built by any sequence of calls, the confidence of
    the sentiment block of the status report is between 0 and 100,
    whatever the label and the score the analysis returned. *)
Theorem report_sentiment_confidence_range :
  forall st,
    reachable hash st ->
    (0 <= si_confidence (sentiment_info st) <= 100)%Z.
Proof.
  intros st (cfg & cs & <-). apply sentiment_info_confidence.
  apply (bounded_news_calls hash cs (init cfg)).
  split; [reflexivity|]. cbn [news_cache init]. apply map_Forall_empty.
Qed.

End Report.

Lemma report_sentiment_confidence_scenario :
  si_confidence (sentiment_info scenario_negative) = 90%Z
  /\ (0 <= si_confidence (sentiment_info scenario_negative) <= 100)%Z.
Proof.
  split; [reflexivity|].
  apply (report_sentiment_confidence_range scenario_hash).
  eexists _, _. reflexivity.
Defined.

(** X25.  Whenever [update_trading_signals_from_report] updates the signal
    panel, the confidence it shows is between 50 and 100, and it is 50 for
    a neutral signal. *)
Theorem report_signal_confidence_range :
  forall ta si signal_type recommendation confidence,
    update_trading_signals_from_report ta si
    = Some (signal_type, recommendation, confidence) ->
    (50 <= confidence <= 100)%Z
    /\ (signal_type = ST_NEUTRAL -> confidence = 50%Z).
Proof.
  intros ta si t rec c. unfold update_trading_signals_from_report.
  destruct (signal_type_of ta) as [t'|]; [|discriminate]. cbn [mbind option_bind].
  destruct t'; cbn [is_neutral].
  3: { intros [= <- _ <-]. split; [lia | reflexivity]. }
  all: destruct (ta_rsi ta) as [[| |x]|]; cbn [rsi_confidence mbind option_bind];
    try discriminate.
  all: try (set (k := Py.int _); clearbody k).
  all: match goal with
       | |- context [agrees ?a ?b] => set (g := agrees a b); clearbody g
       end.
  all: intros [= <- _ <-]; (split; [|discriminate]); destruct g; lia.
Qed.

(** A bearish report with an RSI of 60 and a negative sentiment shows SELL
    with a confidence of 60. *)
Lemma report_signal_confidence_scenario :
  report_signal (row_of fall_indicators (-1)) (sentiment_info scenario_negative)
  = Some (ST_SELL, "技术指标看跌，可考虑卖出。", 60%Z)
  /\ (50 <= 60 <= 100)%Z.
Proof.
  assert (report_signal (row_of fall_indicators (-1))
            (sentiment_info scenario_negative)
          = Some (ST_SELL, "技术指标看跌，可考虑卖出。", 60%Z)) as H
      by reflexivity.
  split; [exact H|].
  apply (report_signal_confidence_range
           {| ta_rsi := Some (Num 60); ta_macd_trend := "看跌";
              ta_ma_trend := "空头排列";
              ta_advice := Some "技术指标看跌，可考虑卖出。" |}
           (sentiment_info scenario_negative) ST_SELL
           "技术指标看跌，可考虑卖出。" 60).
  reflexivity.
Defined.

(** The signal of a report with a given advice. *)
Lemma signal_of_advice rsi macd_trend ma_trend advice t si :
  signal_type_of {| ta_rsi := Some (Num rsi); ta_macd_trend := macd_trend;
                    ta_ma_trend := ma_trend; ta_advice := Some advice |}
  = Some t ->
  t <> ST_NEUTRAL ->
  exists c,
    update_trading_signals_from_report
      {| ta_rsi := Some (Num rsi); ta_macd_trend := macd_trend;
         ta_ma_trend := ma_trend; ta_advice := Some advice |} si
    = Some (t, advice, c).
Proof.
  intros Ht Hne. unfold update_trading_signals_from_report. rewrite Ht.
  cbn [mbind option_bind ta_rsi ta_advice rsi_confidence Py.get_default].
  destruct t; [| |now elim Hne]; cbn [is_neutral]; eexists; reflexivity.
Qed.

(** X26.  The signal panel agrees with the signal engine: on a row of
    numbers whose histogram is the MACD line minus the signal line, when
    the technical BUY of [check_signals] holds the report gives the panel a
    BUY, and when the technical SELL holds it gives a SELL. *)
Theorem report_agrees_with_signals :
  forall i macd_diff si,
    macd_diff == i_macd_val i - i_macd_sig i ->
    (buy_signal_tech i = true ->
     exists recommendation confidence,
       report_signal (row_of i macd_diff) si
       = Some (ST_BUY, recommendation, confidence))
    /\ (sell_signal_tech i = true ->
        exists recommendation confidence,
          report_signal (row_of i macd_diff) si
          = Some (ST_SELL, recommendation, confidence)).
Proof.
  intros i d si Hd. unfold report_signal, tech_analysis_of, row_of.
  cbn [r_rsi r_macd_diff r_ma5 r_ma25 macd_trend_of ma_trend_of advice_of
         cell_gt cell_lt and_then mbind option_bind].
  split.
  - intros ([_ Hma] & Hrsi & [_ Hmacd])%buy_signal_tech_true.
    assert (Py.gtb d 0 = true) as -> by (apply gtb_lt; lra).
    assert (Py.gtb (i_ma5 i) (i_ma25 i) = true) as -> by (apply gtb_lt; lra).
    assert (Py.gtb (i_rsi i) 70 = false) as ->.
    { apply not_true_iff_false. rewrite gtb_lt. lra. }
    cbn [mbind option_bind].
    destruct (Py.ltb (i_rsi i) 30); cbn [mbind option_bind];
      eexists; apply signal_of_advice; [reflexivity | discriminate
                                       | reflexivity | discriminate].
  - intros ([_ Hma] & Hrsi & [_ Hmacd])%sell_signal_tech_true.
    assert (Py.gtb d 0 = false) as ->.
    { apply not_true_iff_false. rewrite gtb_lt. lra. }
    assert (Py.gtb (i_ma5 i) (i_ma25 i) = false) as ->.
    { apply not_true_iff_false. rewrite gtb_lt. lra. }
    assert (Py.ltb d 0 = true) as -> by (apply ltb_lt; lra).
    assert (Py.ltb (i_ma5 i) (i_ma25 i) = true) as -> by (apply ltb_lt; lra).
    assert (Py.ltb (i_rsi i) 30 = false) as ->.
    { apply not_true_iff_false. rewrite ltb_lt. lra. }
    cbn [mbind option_bind].
    destruct (Py.gtb (i_rsi i) 70); cbn [mbind option_bind];
      eexists; apply signal_of_advice; [reflexivity | discriminate
                                       | reflexivity | discriminate].
Qed.

Lemma report_agrees_with_signals_scenario :
  exists recommendation confidence,
    report_signal (row_of (crossover_indicators 45) 1)
      (sentiment_info (init scenario_config))
    = Some (ST_BUY, recommendation, confidence).
Proof.
  apply (report_agrees_with_signals (crossover_indicators 45) 1
           (sentiment_info (init scenario_config)));
    reflexivity.
Defined.

(** X27.  A NaN histogram reads as bearish: on a row with numbers for the
    RSI and the averages, an RSI between 30 and 70 and MA5 below MA25, a
    NaN [macd_diff] makes the report call the MACD trend bearish and give
    the unclear-signal advice, and the panel shows SELL. *)
Theorem nan_histogram_reads_bearish :
  forall rsi ma5 ma25 si,
    30 <= rsi -> rsi <= 70 -> ma5 < ma25 ->
    let latest := {| r_rsi := Some (Num rsi); r_macd_diff := Some NaN;
                     r_ma5 := Some (Num ma5); r_ma25 := Some (Num ma25) |} in
    tech_analysis_of latest
    = Some {| ta_rsi := Some (Num rsi); ta_macd_trend := "看跌";
              ta_ma_trend := "空头排列";
              ta_advice := Some "信号不明确，建议观望。" |}
    /\ exists confidence,
         report_signal latest si
         = Some (ST_SELL, "信号不明确，建议观望。", confidence).
Proof.
  intros rsi ma5 ma25 si Hlo Hhi Hma latest.
  assert (tech_analysis_of latest
          = Some {| ta_rsi := Some (Num rsi); ta_macd_trend := "看跌";
                    ta_ma_trend := "空头排列";
                    ta_advice := Some "信号不明确，建议观望。" |}) as Hta.
  { unfold tech_analysis_of, latest.
    cbn [r_rsi r_macd_diff r_ma5 r_ma25 macd_trend_of ma_trend_of advice_of
           cell_gt cell_lt and_then mbind option_bind].
    assert (Py.gtb ma5 ma25 = false) as ->.
    { apply not_true_iff_false. rewrite gtb_lt. lra. }
    assert (Py.ltb ma5 ma25 = true) as -> by (apply ltb_lt; lra).
    assert (Py.gtb rsi 70 = false) as ->.
    { apply not_true_iff_false. rewrite gtb_lt. lra. }
    assert (Py.ltb rsi 30 = false) as ->.
    { apply not_true_iff_false. rewrite ltb_lt. lra. }
    reflexivity. }
  split; [exact Hta|].
  unfold report_signal. rewrite Hta. cbn [mbind option_bind].
  apply signal_of_advice; [reflexivity | discriminate].
Qed.

Lemma nan_histogram_scenario :
  exists confidence,
    report_signal {| r_rsi := Some (Num 50); r_macd_diff := Some NaN;
                     r_ma5 := Some (Num 1); r_ma25 := Some (Num 2) |}
      (sentiment_info (init scenario_config))
    = Some (ST_SELL, "信号不明确，建议观望。", confidence).
Proof.
  apply (nan_histogram_reads_bearish 50 1 2
           (sentiment_info (init scenario_config)));
    vm_compute; discriminate || reflexivity.
Defined.

(** ** A purchase and its stop inside the loop *)











